(** * cpumgrx: the relocatable sysfs reader (pkg/machineinformer)

    A shallow embedding of [relocatablesysfs.go]: the CPU online-state
    parser, the unique topology property counter, the cache sharing
    count, the system UUID fallback chain and the network device
    listing, together with the parts of the Go standard library they
    call ([strings], [strconv], [path/filepath], [os]).

    Go strings and byte slices are sequences of bytes: [list ascii].
    Unsigned and signed machine integers are [Z] with the wrap-around
    written where the source can reach it.  Fallible calls return
    [result].  The operating system is an explicit environment ([OS]);
    the klog calls do not influence any returned value and are left out. *)

From Stdlib Require Import ZArith Lia Bool List Ascii String.
From stdpp Require Import base tactics option list strings gmap.
Import ListNotations.

Local Open Scope Z_scope.

(** ** Go strings *)

Abbreviation gostring := (list ascii).

Definition str (s : string) : gostring := list_ascii_of_string s.

Definition code (c : ascii) : Z := Z.of_N (N_of_ascii c).

Definition eqb_str (a b : gostring) : bool := bool_decide (a = b).

(** ** Errors

    The package has no error types of its own: it returns what the
    library returned or a [fmt.Errorf] message.  One constructor per
    origin. *)

Inductive numerr := ErrSyntax | ErrRange | ErrBase | ErrBitSize.

Inductive error :=
| PathError (notExist : bool) (path : gostring)
    (* *os.PathError; [notExist] is what os.IsNotExist answers *)
| NumError (fn : gostring) (input : gostring) (e : numerr)
    (* *strconv.NumError *)
| ErrEmptyFile (path : gostring)
    (* fmt.Errorf("%s found to be empty", path) *)
| ErrInvalidValues (path : gostring)
    (* fmt.Errorf("invalid values in %s", path) *)
| ErrParseCPUMap (content : gostring) (cause : error)
    (* fmt.Errorf("failed to parse cpu map %q: %v", string(out), err) *)
| ErrNoCPUID (dir : gostring)
    (* fmt.Errorf("can't get CPU ID from %s", dir) *)
| ErrBadPattern
    (* filepath.ErrBadPattern *)
| ErrGetwd.
    (* os.Getwd failed *)

Definition IsNotExist (e : error) : bool :=
  match e with
  | PathError ne _ => ne
  | _ => false
  end.

Inductive result (A : Type) :=
| Ok (a : A)
| Err (e : error).
Arguments Ok {A} a.
Arguments Err {A} e.

Definition bind {A B} (r : result A) (k : A -> result B) : result B :=
  match r with
  | Ok a => k a
  | Err e => Err e
  end.

Notation "'let*' x ':=' r 'in' k" := (bind r (fun x => k))
  (at level 10, x name, r at level 100, k at level 200).

Definition is_ok {A} (r : result A) : bool :=
  match r with Ok _ => true | Err _ => false end.

(** ** package strings *)

Module strings.

(** The six ASCII white space bytes: \t \n \v \f \r and space. *)
Definition asciiSpace (c : ascii) : bool :=
  let n := code c in ((9 <=? n) && (n <=? 13)) || (n =? 32).

(** UTF-8 encodings of the white space runes above U+007F:
    U+0085 and U+00A0 (two bytes). *)
Definition space2 (a b : ascii) : bool :=
  (code a =? 194) && ((code b =? 133) || (code b =? 160)).

(** U+1680, U+2000..U+200A, U+2028, U+2029, U+202F, U+205F, U+3000
    (three bytes). *)
Definition space3 (a b c : ascii) : bool :=
  let '(x, y, z) := (code a, code b, code c) in
  ((x =? 225) && (y =? 154) && (z =? 128))
  || ((x =? 226) && (y =? 128)
      && (((128 <=? z) && (z <=? 138)) || (z =? 168) || (z =? 169) || (z =? 175)))
  || ((x =? 226) && (y =? 129) && (z =? 159))
  || ((x =? 227) && (y =? 128) && (z =? 128)).

(** Drop leading white space runes. *)
Fixpoint trimLeftSpace (s : gostring) : gostring :=
  match s with
  | [] => []
  | a :: s1 =>
    if asciiSpace a then trimLeftSpace s1
    else match s1 with
         | [] => s
         | b :: s2 =>
           if space2 a b then trimLeftSpace s2
           else match s2 with
                | [] => s
                | c :: s3 => if space3 a b c then trimLeftSpace s3 else s
                end
         end
  end.

(** Drop trailing white space runes; the argument is the string
    reversed, so a rune's bytes come last byte first. *)
Fixpoint trimLeftSpaceRev (s : gostring) : gostring :=
  match s with
  | [] => []
  | a :: s1 =>
    if asciiSpace a then trimLeftSpaceRev s1
    else match s1 with
         | [] => s
         | b :: s2 =>
           if space2 b a then trimLeftSpaceRev s2
           else match s2 with
                | [] => s
                | c :: s3 => if space3 c b a then trimLeftSpaceRev s3 else s
                end
         end
  end.

Definition trimRightSpace (s : gostring) : gostring :=
  rev (trimLeftSpaceRev (rev s)).

(** strings.TrimSpace (and bytes.TrimSpace): leading white space is
    removed first, trailing white space of the remainder next. *)
Definition TrimSpace (s : gostring) : gostring :=
  trimRightSpace (trimLeftSpace s).

Fixpoint dropLeading (c : ascii) (s : gostring) : gostring :=
  match s with
  | [] => []
  | a :: s' => if Ascii.eqb a c then dropLeading c s' else s
  end.

(** strings.TrimRight(s, cutset) for a one-byte cutset. *)
Definition TrimRight (s : gostring) (c : ascii) : gostring :=
  rev (dropLeading c (rev s)).

(** strings.Cut for a one-byte separator: the text before and after
    the first occurrence. *)
Fixpoint Cut (s : gostring) (sep : ascii) : option (gostring * gostring) :=
  match s with
  | [] => None
  | a :: s' =>
    if Ascii.eqb a sep then Some ([], s')
    else match Cut s' sep with
         | Some (before, after) => Some (a :: before, after)
         | None => None
         end
  end.

(** strings.Split(s, sep) for a one-byte separator. *)
Fixpoint Split (s : gostring) (sep : ascii) : list gostring :=
  match s with
  | [] => [[]]
  | a :: s' =>
    if Ascii.eqb a sep then [] :: Split s' sep
    else match Split s' sep with
         | piece :: rest => (a :: piece) :: rest
         | [] => [[a]]
         end
  end.

(** strings.SplitN(s, sep, n) for a one-byte separator and n >= 0:
    at most n pieces, the last one the unsplit remainder. *)
Fixpoint SplitN (s : gostring) (sep : ascii) (n : nat) : list gostring :=
  match n with
  | O => []
  | S O => [s]
  | S n' =>
    match Cut s sep with
    | Some (before, after) => before :: SplitN after sep n'
    | None => [s]
    end
  end.

End strings.

(** ** package strconv *)

Module strconv.

Definition IntSize : Z := 64.

Definition maxUint64 : Z := 2 ^ 64 - 1.

Definition u64 (n : Z) : Z := n mod 2 ^ 64.

(** int64(u) for u of type uint64, and the wrap-around of int
    arithmetic. *)
Definition i64 (n : Z) : Z := (n + 2 ^ 63) mod 2 ^ 64 - 2 ^ 63.

(** lower(c) = c | ('x' - 'X') *)
Definition lower (c : Z) : Z := Z.lor c 32.

Definition isDigit (c : ascii) : bool := (48 <=? code c) && (code c <=? 57).

(** The digit switch of ParseUint: '0'..'9', then letters of either
    case; [None] is the default branch (syntax error). *)
Definition digitVal (c : ascii) : option Z :=
  let n := code c in
  if isDigit c then Some (n - 48)
  else if (97 <=? lower n) && (lower n <=? 122) then Some (lower n - 97 + 10)
  else None.

(** The loop of ParseUint over the bytes of s, n the value so far.
    The pair is Go's (uint64, error). *)
Fixpoint parseLoop (s0 : gostring) (base cutoff maxVal : Z) (s : gostring) (n : Z)
  : Z * option error :=
  match s with
  | [] => (n, None)
  | c :: s' =>
    match digitVal c with
    | None => (0, Some (NumError (str "ParseUint") s0 ErrSyntax))
    | Some d =>
      if d >=? base then (0, Some (NumError (str "ParseUint") s0 ErrSyntax))
      else if n >=? cutoff then (maxVal, Some (NumError (str "ParseUint") s0 ErrRange))
      else
        let n := u64 (n * base) in
        let n1 := u64 (n + d) in
        if (n1 <? n) || (n1 >? maxVal)
        then (maxVal, Some (NumError (str "ParseUint") s0 ErrRange))
        else parseLoop s0 base cutoff maxVal s' n1
    end
  end.

(** strconv.ParseUint(s, base, bitSize) for 2 <= base <= 36.  Base 0
    (prefix detection, underscores) is never passed by this package
    and is answered like any other base outside 2..36. *)
Definition ParseUint (s : gostring) (base bitSize : Z) : Z * option error :=
  match s with
  | [] => (0, Some (NumError (str "ParseUint") s ErrSyntax))
  | _ =>
    if negb ((2 <=? base) && (base <=? 36))
    then (0, Some (NumError (str "ParseUint") s ErrBase))
    else
      let bitSize := if bitSize =? 0 then IntSize else bitSize in
      if (bitSize <? 0) || (bitSize >? 64)
      then (0, Some (NumError (str "ParseUint") s ErrBitSize))
      else
        let cutoff := maxUint64 / base + 1 in
        let maxVal := u64 (u64 (Z.shiftl 1 bitSize) - 1) in
        parseLoop s base cutoff maxVal s 0
  end.

(** strconv.ParseInt(s, 10, 0), the slow path of Atoi; the error's
    Func is the one Atoi puts in.  The negation is the one of int64: it
    wraps at -2^63. *)
Definition ParseInt (s : gostring) : Z * option error :=
  match s with
  | [] => (0, Some (NumError (str "Atoi") s ErrSyntax))
  | c :: s' =>
    let neg := Ascii.eqb c "-" in
    let body := if Ascii.eqb c "+" || neg then s' else s in
    match ParseUint body 10 0 with
    | (un, Some (NumError _ _ ErrRange))
    | (un, None) =>
      let cutoff := Z.shiftl 1 (IntSize - 1) in
      if negb neg && (un >=? cutoff)
      then (cutoff - 1, Some (NumError (str "Atoi") s ErrRange))
      else if neg && (un >? cutoff)
      then (- cutoff, Some (NumError (str "Atoi") s ErrRange))
      else (if neg then i64 (- i64 un) else i64 un, None)
    | (_, Some (NumError _ _ e)) => (0, Some (NumError (str "Atoi") s e))
    | (_, Some e) => (0, Some e)
    end
  end.

(** The fast path of Atoi: ch -= '0' on a byte, then n = n*10 + ch. *)
Fixpoint atoiLoop (s0 s : gostring) (n : Z) : Z * option error :=
  match s with
  | [] => (n, None)
  | ch :: s' =>
    let d := (code ch - 48) mod 256 in
    if d >? 9 then (0, Some (NumError (str "Atoi") s0 ErrSyntax))
    else atoiLoop s0 s' (n * 10 + d)
  end.

(** strconv.Atoi on a 64-bit platform. *)
Definition Atoi (s : gostring) : Z * option error :=
  let sLen := Z.of_nat (length s) in
  if (0 <? sLen) && (sLen <? 19) then
    match s with
    | [] => (0, Some (NumError (str "Atoi") s ErrSyntax))
    | c :: s' =>
      let signed := Ascii.eqb c "-" || Ascii.eqb c "+" in
      let body := if signed then s' else s in
      if signed && (Z.of_nat (length body) <? 1)
      then (0, Some (NumError (str "Atoi") s ErrSyntax))
      else
        match atoiLoop s body 0 with
        | (n, None) => (if Ascii.eqb c "-" then - n else n, None)
        | r => r
        end
    end
  else ParseInt s.

End strconv.

(** ** package regexp, for the one expression the package compiles *)

Module regexp.

Fixpoint takeDigits (s : gostring) : gostring :=
  match s with
  | c :: s' => if strconv.isDigit c then c :: takeDigits s' else []
  | [] => []
  end.

(** cpu([0-9]+) anchored at the head of s: the digits of group 1. *)
Definition matchHere (s : gostring) : option gostring :=
  match s with
  | c :: p :: u :: rest =>
    if Ascii.eqb c "c" && Ascii.eqb p "p" && Ascii.eqb u "u" then
      match takeDigits rest with
      | [] => None
      | ds => Some ds
      end
    else None
  | _ => None
  end.

(** regexp.MustCompile("cpu([0-9]+)").FindStringSubmatch(s): the
    leftmost match, its digit run as long as possible; the whole match
    and group 1, or nil. *)
Fixpoint FindStringSubmatch (s : gostring) : list gostring :=
  match s with
  | [] => []
  | _ :: s' =>
    match matchHere s with
    | Some ds => [str "cpu" ++ ds; ds]
    | None => FindStringSubmatch s'
    end
  end.

End regexp.

(** ** package os: what the program sees of the file system *)

Record FileInfo := { Name : gostring; Mode : Z }.

Definition ModeDir : Z := Z.shiftl 1 31.
Definition ModeSymlink : Z := Z.shiftl 1 27.

(** FileInfo.IsDir: Mode()&ModeDir != 0 *)
Definition IsDir (f : FileInfo) : bool := negb (Z.land (Mode f) ModeDir =? 0).

(** The calls the package makes into the operating system.  Nothing in
    the package writes, so one value of [OS] stands for the file system
    during a call. *)
Record OS := {
  Getwd : result gostring;
  ReadFile : gostring -> result gostring;      (* ioutil.ReadFile *)
  Stat : gostring -> result FileInfo;          (* os.Stat, follows links *)
  ReadDir : gostring -> result (list FileInfo);(* ioutil.ReadDir, no follow *)
  Glob : gostring -> result (list gostring)    (* filepath.Glob *)
}.

(** ** package path/filepath (Unix) *)

Module filepath.

Definition IsAbs (path : gostring) : bool :=
  match path with
  | c :: _ => Ascii.eqb c "/"
  | [] => false
  end.

Fixpoint joinWith (sep : gostring) (l : list gostring) : gostring :=
  match l with
  | [] => []
  | [x] => x
  | x :: rest => x ++ sep ++ joinWith sep rest
  end.

(** One path element against the elements kept so far (innermost
    first): empty and "." are dropped, ".." removes the element before
    it, is dropped at the root and is kept at the head of a relative
    path. *)
Definition cleanStep (rooted : bool) (kept : list gostring) (elem : gostring)
  : list gostring :=
  if eqb_str elem [] || eqb_str elem (str ".") then kept
  else if eqb_str elem (str "..") then
    match kept with
    | top :: below => if eqb_str top (str "..") then elem :: kept else below
    | [] => if rooted then [] else [elem]
    end
  else elem :: kept.

(** filepath.Clean: the shortest path equal to [path] by lexical
    processing; the empty result is ".". *)
Definition Clean (path : gostring) : gostring :=
  let rooted := IsAbs path in
  let kept := fold_left (cleanStep rooted) (strings.Split path "/") [] in
  let out := (if rooted then str "/" else []) ++ joinWith (str "/") (rev kept) in
  match out with
  | [] => str "."
  | _ => out
  end.

(** filepath.Join: the elements from the first non-empty one on,
    joined by the separator and cleaned; "" when all are empty. *)
Fixpoint Join (elem : list gostring) : gostring :=
  match elem with
  | [] => []
  | e :: rest =>
    match e with
    | [] => Join rest
    | _ => Clean (joinWith (str "/") elem)
    end
  end.

(** filepath.Abs *)
Definition Abs (sys : OS) (path : gostring) : result gostring :=
  if IsAbs path then Ok (Clean path)
  else
    let* wd := Getwd sys in
    Ok (Join [wd; path]).

End filepath.

(** ** package machineinformer *)

Definition netDir : gostring := str "/sys/class/net".
Definition dmiDir : gostring := str "/sys/class/dmi".
Definition ppcDevTree : gostring := str "/proc/device-tree".
Definition s390xDevTree : gostring := str "/etc".
Definition sysFsCPUTopology : gostring := str "topology".
Definition CPUPhysicalPackageID : gostring := str "physical_package_id".
Definition CPUCoreID : gostring := str "core_id".

Record relocatableSysFs := { root : gostring }.

Definition NewRelocatableSysFs (root : gostring) : relocatableSysFs :=
  {| root := root |}.

Definition u16 (n : Z) : Z := n mod 2 ^ 16.

Section Package.

Variable sys : OS.

(** The body of the range loop of GetNetworkDevices for one entry:
    the entry to append, if any. *)
Definition networkDeviceStep (fs : relocatableSysFs) (f : FileInfo) : option FileInfo :=
  let r :=
    if negb (Z.lor (Mode f) ModeSymlink =? 0)
    then Stat sys (filepath.Join [root fs; netDir; Name f])
    else Ok f in
  match r with
  | Err _ => None                      (* continue *)
  | Ok f => if IsDir f then Some f else None
  end.

Fixpoint networkDeviceLoop (fs : relocatableSysFs) (files dirs : list FileInfo)
  : list FileInfo :=
  match files with
  | [] => dirs
  | f :: rest =>
    match networkDeviceStep fs f with
    | Some d => networkDeviceLoop fs rest (dirs ++ [d])
    | None => networkDeviceLoop fs rest dirs
    end
  end.

Definition GetNetworkDevices (fs : relocatableSysFs) : result (list FileInfo) :=
  let* files := ReadDir sys (filepath.Join [root fs; netDir]) in
  Ok (networkDeviceLoop fs files []).

(** bitCount: at most 64 turns of the loop, a uint64 is zero after 64
    shifts. *)
Fixpoint bitCountLoop (turns : nat) (i count : Z) : Z :=
  match turns with
  | O => count
  | S turns' =>
    if i =? 0 then count
    else bitCountLoop turns' (Z.shiftr i 1)
                      (if Z.land i 1 =? 1 then count + 1 else count)
  end.

Definition bitCount (i : Z) : Z := bitCountLoop 64 i 0.

Fixpoint cpuCountLoop (out : gostring) (masks : list gostring) (count : Z) : result Z :=
  match masks with
  | [] => Ok count
  | mask :: rest =>
    match strconv.ParseUint (strings.TrimSpace mask) 16 64 with
    | (_, Some err) => Err (ErrParseCPUMap out err)
    | (m, None) => cpuCountLoop out rest (strconv.i64 (count + bitCount m))
    end
  end.

Definition getCPUCount (cache : gostring) : result Z :=
  let* out := ReadFile sys (filepath.Join [cache; str "/shared_cpu_map"]) in
  cpuCountLoop out (strings.Split out ",") 0.

Definition GetSystemUUID (fs : relocatableSysFs) : result gostring :=
  match ReadFile sys (filepath.Join [root fs; dmiDir; str "id"; str "product_uuid"]) with
  | Ok id => Ok (strings.TrimSpace id)
  | Err _ =>
    match ReadFile sys (filepath.Join [root fs; ppcDevTree; str "system-id"]) with
    | Ok id => Ok (strings.TrimSpace (strings.TrimRight id zero))
    | Err _ =>
      match ReadFile sys (filepath.Join [root fs; ppcDevTree; str "vm,uuid"]) with
      | Ok id => Ok (strings.TrimSpace (strings.TrimRight id zero))
      | Err _ =>
        match ReadFile sys (filepath.Join [root fs; s390xDevTree; str "machine-id"]) with
        | Ok id => Ok (strings.TrimSpace id)
        | Err err => Err err
        end
      end
    end
  end.

Definition getCPUID (dir : gostring) : result Z :=
  let matches := regexp.FindStringSubmatch dir in
  if (length matches =? 2)%nat then
    match strconv.Atoi (nth 1 matches []) with
    | (_, Some err) => Err err
    | (id, None) => Ok (u16 id)
    end
  else Err (ErrNoCPUID dir).

(** for i := min; i <= max; i++ { if uint16(i) == cpuID { return true } }
    [turns] is the number of values from min to max. *)
Fixpoint rangeLoop (turns : nat) (i max cpuID : Z) : bool :=
  match turns with
  | O => false
  | S turns' =>
    if i <=? max then
      if u16 i =? cpuID then true
      else rangeLoop turns' (strconv.u64 (i + 1)) max cpuID
    else false
  end.

(** The loop of isCPUOnline over the comma separated tokens. *)
Fixpoint onlineLoop (path : gostring) (tokens : list gostring) (cpuID : Z)
  : result bool :=
  match tokens with
  | [] => Ok false
  | s :: rest =>
    let splitted := strings.SplitN s "-" 3 in
    match length splitted with
    | 3%nat => Err (ErrInvalidValues path)
    | 2%nat =>
      match strconv.ParseUint (nth 0 splitted []) 10 16 with
      | (_, Some err) => Err err
      | (min, None) =>
        match strconv.ParseUint (nth 1 splitted []) 10 16 with
        | (_, Some err) => Err err
        | (max, None) =>
          if min >? max then Err (ErrInvalidValues path)
          else if rangeLoop (Z.to_nat (max - min + 1)) min max cpuID then Ok true
          else onlineLoop path rest cpuID
        end
      end
    | 1%nat =>
      match strconv.ParseUint s 10 16 with
      | (_, Some err) => Err err
      | (value, None) =>
        if u16 value =? cpuID then Ok true
        else onlineLoop path rest cpuID
      end
    | _ => onlineLoop path rest cpuID
    end
  end.

(** isCPUOnline; every error return of the source carries false. *)
Definition isCPUOnline (path : gostring) (cpuID : Z) : result bool :=
  let* fileContent := ReadFile sys path in
  if (length fileContent =? 0)%nat then Err (ErrEmptyFile path)
  else
    let cpuList := strings.TrimSpace fileContent in
    onlineLoop path (strings.Split cpuList ",") cpuID.

(** Go's (isOnline, err) pair for a result of isCPUOnline. *)
Definition onlinePair (r : result bool) : bool * option error :=
  match r with
  | Ok b => (b, None)
  | Err e => (false, Some e)
  end.

(** The err of a call whose value is dropped. *)
Definition errOf {A} (r : result A) : option error :=
  match r with
  | Ok _ => None
  | Err e => Some e
  end.

(** os.IsNotExist on a possibly nil error. *)
Definition isNotExist (err : option error) : bool :=
  match err with
  | Some e => IsNotExist e
  | None => false
  end.

Definition IsCPUOnline (fs : relocatableSysFs) (cpuPath : gostring) : bool :=
  match filepath.Abs sys (filepath.Join [root fs; cpuPath ++ str "/../online"]) with
  | Err _ => false
  | Ok onlinePath =>
    let err := errOf (Stat sys onlinePath) in
    if bool_decide (err <> None) && isNotExist err then true
    else
      match getCPUID cpuPath with
      | Err _ => false
      | Ok cpuID =>
        match isCPUOnline onlinePath cpuID with
        | Err _ => false
        | Ok isOnline => isOnline
        end
      end
  end.

(** The range loop of GetUniqueCPUPropertyCount; the value is what the
    function returns. *)
Fixpoint uniqueLoop (onlinePath propertyName : gostring) (sysCPUPaths : list gostring)
         (uniques : gset gostring) : Z :=
  match sysCPUPaths with
  | [] => Z.of_nat (size uniques)
  | sysCPUPath :: rest =>
    match getCPUID sysCPUPath with
    | Err _ => 0
    | Ok cpuID =>
      let '(isOnline, err) := onlinePair (isCPUOnline onlinePath cpuID) in
      if bool_decide (err <> None) && negb (isNotExist err)
      then uniqueLoop onlinePath propertyName rest uniques
      else if negb isOnline && negb (isNotExist err)
      then uniqueLoop onlinePath propertyName rest uniques
      else
        let propertyPath := filepath.Join [sysCPUPath; sysFsCPUTopology; propertyName] in
        let propertyVal :=
          match ReadFile sys propertyPath with
          | Ok v => v
          | Err _ => str "0"
          end in
        let packagePath := filepath.Join [sysCPUPath; sysFsCPUTopology; CPUPhysicalPackageID] in
        let packageVal :=
          match ReadFile sys packagePath with
          | Ok v => v
          | Err _ => str "0"
          end in
        let key := strings.TrimSpace propertyVal ++ str "_" ++ strings.TrimSpace packageVal in
        uniqueLoop onlinePath propertyName rest ({[ key ]} ∪ uniques)
    end
  end.

Definition GetUniqueCPUPropertyCount (cpuBusPath propertyName : gostring) : Z :=
  match filepath.Abs sys cpuBusPath with
  | Err _ => 0
  | Ok absCPUBusPath =>
    let pathPattern := absCPUBusPath ++ str "/cpu*[0-9]" in
    match Glob sys pathPattern with
    | Err _ => 0
    | Ok sysCPUPaths =>
      match filepath.Abs sys (cpuBusPath ++ str "/online") with
      | Err _ => 0
      | Ok onlinePath => uniqueLoop onlinePath propertyName sysCPUPaths ∅
      end
    end
  end.

End Package.

(** ** An in-memory file system

    A tree of files, directories and symbolic links, and the [OS] it
    presents.  It stands for the synthetic directory trees of the
    package's scenarios; names are compared as bytes. *)

Module memfs.

#[warnings="-register-all"]
Inductive node :=
| File (content : gostring)
| Dir (entries : list (gostring * node))
| Symlink (target : gostring).

Inductive errno := ENOENT | ENOTDIR | ELOOP | EISDIR | EINVAL | ENAMETOOLONG.

Record t := { tree : node; cwd : gostring }.

Fixpoint find (entries : list (gostring * node)) (name : gostring) : option node :=
  match entries with
  | [] => None
  | (n, x) :: rest => if eqb_str n name then Some x else find rest name
  end.

Definition isSep (c : ascii) : bool := Ascii.eqb c "/".

(** The components of a path as the kernel walks them: empty
    components are dropped, and a trailing separator asks for a
    directory, as a final dot does. *)
Definition parts (path : gostring) : list gostring :=
  List.filter (fun e => negb (eqb_str e [])) (strings.Split path "/")
  ++ match rev path with
     | c :: _ => if isSep c then [str "."] else []
     | [] => []
     end.

(** Path resolution, component by component: [up] are the directories
    above [cur], nearest first, for the dot-dot component; a link met
    on the way (or at the end, when [follow]) is replaced by the
    components of its target, walked from the root when the target is
    absolute and from the link's directory otherwise.  [links] counts
    down the links that may still be followed (the kernel follows 40);
    [steps] is the fuel of the recursion. *)
Fixpoint walk (steps links : nat) (top : node) (up : list node) (cur : node)
         (todo : list gostring) (follow : bool) : errno + node :=
  match steps with
  | O => inl ENAMETOOLONG
  | S steps' =>
    match todo with
    | [] => inr cur
    | name :: rest =>
      match cur with
      | Dir entries =>
        if eqb_str name (str ".") then walk steps' links top up cur rest follow
        else if eqb_str name (str "..") then
          match up with
          | [] => walk steps' links top [] cur rest follow
          | parent :: up' => walk steps' links top up' parent rest follow
          end
        else
          match find entries name with
          | None => inl ENOENT
          | Some (Symlink target) =>
            if follow || negb (bool_decide (rest = [])) then
              match links, target with
              | _, [] => inl ENOENT
              | O, _ => inl ELOOP
              | S links', _ =>
                if filepath.IsAbs target
                then walk steps' links' top [] top (parts target ++ rest) follow
                else walk steps' links' top up cur (parts target ++ rest) follow
              end
            else inr (Symlink target)
          | Some x => walk steps' links top (cur :: up) x rest follow
          end
      | _ => inl ENOTDIR
      end
    end
  end.

(** The links the kernel follows in one resolution, and the bytes of
    the longest path or link target it takes. *)
Definition maxLinks : nat := 40.
Definition pathMax : nat := 4096.

(** The empty path names nothing and a path with a NUL byte is
    refused before the walk; a relative path is walked from the working
    directory. *)
Definition lookup (m : t) (path : gostring) (follow : bool) : errno + node :=
  if eqb_str path [] then inl ENOENT
  else if existsb (fun c => code c =? 0) path then inl EINVAL
  else
    let full := if filepath.IsAbs path then path else cwd m ++ str "/" ++ path in
    walk (length full + S maxLinks * pathMax) maxLinks (tree m) [] (tree m)
         (parts full) follow.

Definition pathError (e : errno) (path : gostring) : error :=
  PathError (match e with ENOENT => true | _ => false end) path.

Definition mode (x : node) : Z :=
  match x with
  | File _ => 420
  | Dir _ => Z.lor ModeDir 493
  | Symlink _ => Z.lor ModeSymlink 511
  end.

Fixpoint untilSep (s : gostring) : gostring :=
  match s with
  | [] => []
  | c :: s' => if isSep c then [] else c :: untilSep s'
  end.

Fixpoint dropSeps (s : gostring) : gostring :=
  match s with
  | [] => []
  | c :: s' => if isSep c then dropSeps s' else s
  end.

(** basename of package os, the name a FileInfo of os.Stat carries:
    trailing separators removed, then what follows the last one. *)
Definition basename (name : gostring) : gostring :=
  match name with
  | [] => []
  | c :: _ =>
    match dropSeps (rev name) with
    | [] => [c]
    | r => rev (untilSep r)
    end
  end.

Definition info (name : gostring) (x : node) : FileInfo :=
  {| Name := name; Mode := mode x |}.

Definition readFile (m : t) (path : gostring) : result gostring :=
  match lookup m path true with
  | inl e => Err (pathError e path)
  | inr (File content) => Ok content
  | inr _ => Err (pathError EISDIR path)
  end.

Definition stat (follow : bool) (m : t) (path : gostring) : result FileInfo :=
  match lookup m path follow with
  | inl e => Err (pathError e path)
  | inr x => Ok (info (basename path) x)
  end.

Fixpoint leb_str (a b : gostring) : bool :=
  match a, b with
  | [], _ => true
  | _ :: _, [] => false
  | x :: a', y :: b' =>
    if code x <? code y then true
    else if code y <? code x then false
    else leb_str a' b'
  end.

Fixpoint insertSorted (f : FileInfo) (l : list FileInfo) : list FileInfo :=
  match l with
  | [] => [f]
  | g :: rest => if leb_str (Name f) (Name g) then f :: l else g :: insertSorted f rest
  end.

(** ioutil.ReadDir: the entries, not followed, sorted by name. *)
Definition readDir (m : t) (path : gostring) : result (list FileInfo) :=
  match lookup m path true with
  | inl e => Err (pathError e path)
  | inr (Dir entries) =>
    Ok (fold_right insertSorted [] (map (fun e => info (fst e) (snd e)) entries))
  | inr _ => Err (pathError ENOTDIR path)
  end.

(** *** filepath.Match and filepath.Glob over the tree *)

Inductive item :=
| PStar
| PAny
| PLit (c : ascii)
| PClass (negated : bool) (ranges : list (ascii * ascii)).

(** getEsc: one possibly escaped character of a class. *)
Definition getEsc (s : gostring) : option (ascii * gostring) :=
  match s with
  | [] => None
  | c :: rest =>
    if Ascii.eqb c "-" || Ascii.eqb c "]" then None
    else if Ascii.eqb c "\" then
      match rest with
      | c' :: rest' => Some (c', rest')
      | [] => None
      end
    else Some (c, rest)
  end.

(** The ranges of a class up to its closing bracket. *)
Fixpoint parseRanges (n : nat) (s : gostring) (acc : list (ascii * ascii))
  : option (list (ascii * ascii) * gostring) :=
  match n with
  | O => None
  | S n' =>
    match s, acc with
    | "]"%char :: rest, _ :: _ => Some (rev acc, rest)
    | _, _ =>
      match getEsc s with
      | None => None
      | Some (lo, s1) =>
        match s1 with
        | "-"%char :: s2 =>
          match getEsc s2 with
          | None => None
          | Some (hi, s3) => parseRanges n' s3 ((lo, hi) :: acc)
          end
        | _ => parseRanges n' s1 ((lo, lo) :: acc)
        end
      end
    end
  end.

(** The pattern as a list of items; [None] is ErrBadPattern. *)
Fixpoint parse (n : nat) (p : gostring) : option (list item) :=
  match n with
  | O => match p with [] => Some [] | _ => None end
  | S n' =>
    match p with
    | [] => Some []
    | c :: rest =>
      if Ascii.eqb c "*" then cons PStar <$> parse n' rest
      else if Ascii.eqb c "?" then cons PAny <$> parse n' rest
      else if Ascii.eqb c "\" then
        match rest with
        | c' :: rest' => cons (PLit c') <$> parse n' rest'
        | [] => None
        end
      else if Ascii.eqb c "[" then
        let '(negated, body) :=
          match rest with
          | "^"%char :: rest' => (true, rest')
          | _ => (false, rest)
          end in
        match parseRanges (S (length body)) body [] with
        | None => None
        | Some (ranges, rest') => cons (PClass negated ranges) <$> parse n' rest'
        end
      else cons (PLit c) <$> parse n' rest
    end
  end.

Definition inRanges (c : ascii) (ranges : list (ascii * ascii)) : bool :=
  existsb (fun r => (code (fst r) <=? code c) && (code c <=? code (snd r))) ranges.

Fixpoint matchItems (items : list item) (name : gostring) : bool :=
  match items with
  | [] => bool_decide (name = [])
  | PStar :: rest =>
    (fix skip (name : gostring) : bool :=
       matchItems rest name
       || match name with
          | c :: name' => negb (isSep c) && skip name'
          | [] => false
          end) name
  | PAny :: rest =>
    match name with
    | c :: name' => negb (isSep c) && matchItems rest name'
    | [] => false
    end
  | PLit x :: rest =>
    match name with
    | c :: name' => Ascii.eqb c x && matchItems rest name'
    | [] => false
    end
  | PClass negated ranges :: rest =>
    match name with
    | c :: name' => xorb negated (inRanges c ranges) && matchItems rest name'
    | [] => false
    end
  end.

Definition Match (pattern name : gostring) : result bool :=
  match parse (length pattern) pattern with
  | None => Err ErrBadPattern
  | Some items => Ok (matchItems items name)
  end.

Definition hasMeta (path : gostring) : bool :=
  existsb (fun c => Ascii.eqb c "*" || Ascii.eqb c "?" || Ascii.eqb c "[" || Ascii.eqb c "\") path.

(** filepath.Split: the directory with its trailing separator, and the
    file. *)
Definition SplitPath (path : gostring) : gostring * gostring :=
  let file := rev (untilSep (rev path)) in
  (take (length path - length file)%nat path, file).

(** cleanGlobPath *)
Definition cleanGlobPath (path : gostring) : gostring :=
  if eqb_str path [] then str "."
  else if eqb_str path (str "/") then path
  else take (length path - 1)%nat path.

(** glob: the names of the directory that match the pattern, appended
    to [matches]; a missing or unreadable directory adds nothing. *)
Fixpoint globNames (dir pattern : gostring) (names : list gostring)
         (matches : list gostring) : result (list gostring) :=
  match names with
  | [] => Ok matches
  | n :: rest =>
    let* matched := Match pattern n in
    globNames dir pattern rest
              (if matched then matches ++ [filepath.Join [dir; n]] else matches)
  end.

Definition glob (m : t) (dir pattern : gostring) (matches : list gostring)
  : result (list gostring) :=
  match stat true m dir with
  | Err _ => Ok matches
  | Ok fi =>
    if negb (IsDir fi) then Ok matches
    else
      match readDir m dir with
      | Err _ => Ok matches
      | Ok infos => globNames dir pattern (map Name infos) matches
      end
  end.

Fixpoint globEach (m : t) (file : gostring) (dirs matches : list gostring)
  : result (list gostring) :=
  match dirs with
  | [] => Ok matches
  | d :: rest =>
    let* matches := glob m d file matches in
    globEach m file rest matches
  end.

(** filepath.Glob; [depth] bounds the recursion on the directory part,
    which gets shorter at every call. *)
Fixpoint globWithLimit (depth : nat) (m : t) (pattern : gostring)
  : result (list gostring) :=
  match depth with
  | O => Err ErrBadPattern
  | S depth' =>
    let* _ := Match pattern [] in
    if negb (hasMeta pattern) then
      match stat false m pattern with
      | Err _ => Ok []
      | Ok _ => Ok [pattern]
      end
    else
      let '(dir, file) := SplitPath pattern in
      let dir := cleanGlobPath dir in
      if negb (hasMeta dir) then glob m dir file []
      else if eqb_str dir pattern then Err ErrBadPattern
      else
        let* dirs := globWithLimit depth' m dir in
        globEach m file dirs []
  end.

Definition Glob (m : t) (pattern : gostring) : result (list gostring) :=
  globWithLimit (S (length pattern)) m pattern.

End memfs.

(** The operating system over the tree. *)
Definition memOS (m : memfs.t) : OS :=
  {| Getwd := match memfs.cwd m with [] => Err ErrGetwd | wd => Ok wd end;
     ReadFile := memfs.readFile m;
     Stat := memfs.stat true m;
     ReadDir := memfs.readDir m;
     Glob := memfs.Glob m |}.


(** ** Vocabulary of the specification

    The online-range syntax and the population count in the
    specification's terms, to state the properties against. *)

(** A token of an online-range expression: a bare integer or an
    inclusive range, each bound a run of decimal digits. *)
Inductive token :=
| Single (n : gostring)
| Range (lo hi : gostring).

Definition decimalFrom (n : Z) (ds : gostring) : Z :=
  fold_left (fun n c => 10 * n + (code c - 48)) ds n.

(** The number a run of decimal digits denotes. *)
Definition decimal (ds : gostring) : Z := decimalFrom 0 ds.

Definition isDigits (ds : gostring) : bool :=
  negb (bool_decide (ds = [])) && forallb strconv.isDigit ds.

(** A non-negative 16-bit integer in decimal. *)
Definition isUint16 (ds : gostring) : bool :=
  isDigits ds && (decimal ds <? 65536).

Definition wfToken (t : token) : bool :=
  match t with
  | Single n => isUint16 n
  | Range lo hi => isUint16 lo && isUint16 hi && (decimal lo <=? decimal hi)
  end.

Definition renderToken (t : token) : gostring :=
  match t with
  | Single n => n
  | Range lo hi => lo ++ str "-" ++ hi
  end.

(** The expression: tokens separated by commas. *)
Definition render (ts : list token) : gostring :=
  filepath.joinWith (str ",") (map renderToken ts).

(** i is the literal token, or lies within the range token. *)
Definition tokenHas (i : Z) (t : token) : bool :=
  match t with
  | Single n => decimal n =? i
  | Range lo hi => (decimal lo <=? i) && (i <=? decimal hi)
  end.

(** The number of set bits of a 64-bit mask. *)
Definition popcount (m : Z) : Z :=
  Z.of_nat (length (List.filter (fun k => Z.testbit m (Z.of_nat k)) (seq 0 64))).

Definition LF : ascii := "010"%char.

(** The first byte is a decimal digit. *)
Definition startsDigit (s : gostring) : bool :=
  match s with
  | c :: _ => strconv.isDigit c
  | [] => false
  end.

(** *** Scenario trees *)

(** A tree holding one file, /sys/devices/system/cpu/online. *)
Definition onlineTree (content : gostring) : memfs.t :=
  {| memfs.tree :=
       memfs.Dir [(str "sys", memfs.Dir [(str "devices", memfs.Dir [(str "system",
         memfs.Dir [(str "cpu", memfs.Dir [(str "online", memfs.File content)])])])])];
     memfs.cwd := str "/" |}.

Definition onlineFile : gostring := str "/sys/devices/system/cpu/online".

(** A tree holding one cache directory with its shared_cpu_map. *)
Definition cacheTree (content : gostring) : memfs.t :=
  {| memfs.tree :=
       memfs.Dir [(str "cache", memfs.Dir [(str "index0",
         memfs.Dir [(str "shared_cpu_map", memfs.File content)])])];
     memfs.cwd := str "/" |}.

Definition cachePath : gostring := str "/cache/index0".

(** The sum of the population counts of the parsed masks. *)
Definition sumPopcount (ms : list Z) : Z :=
  fold_right (fun m acc => popcount m + acc) 0 ms.

(** A CPU directory: its name, and the contents of its topology files
    core_id and physical_package_id. *)
Definition cpuDir (name coreID packageID : gostring) : gostring * memfs.node :=
  (name, memfs.Dir [(str "topology",
     memfs.Dir [(str "core_id", memfs.File coreID);
                (str "physical_package_id", memfs.File packageID)])]).

(** A tree whose /sys/devices/system/cpu holds the given entries. *)
Definition busTree (entries : list (gostring * memfs.node)) : memfs.t :=
  {| memfs.tree :=
       memfs.Dir [(str "sys", memfs.Dir [(str "devices", memfs.Dir [(str "system",
         memfs.Dir [(str "cpu", memfs.Dir entries)])])])];
     memfs.cwd := str "/" |}.

Definition cpuBus : gostring := str "/sys/devices/system/cpu".

(** CPUs 0..3 with core_id 0,0,1,1 and physical_package_id 0. *)
Definition fourCPUs : list (gostring * memfs.node) :=
  [cpuDir (str "cpu0") (str "0" ++ [LF]) (str "0" ++ [LF]);
   cpuDir (str "cpu1") (str "0" ++ [LF]) (str "0" ++ [LF]);
   cpuDir (str "cpu2") (str "1" ++ [LF]) (str "0" ++ [LF]);
   cpuDir (str "cpu3") (str "1" ++ [LF]) (str "0" ++ [LF])].

(** A tree with the given files under the root, each at a path of
    directories. *)
Fixpoint fileAt (dirs : list gostring) (name content : gostring) : gostring * memfs.node :=
  match dirs with
  | [] => (name, memfs.File content)
  | d :: rest => (d, memfs.Dir [fileAt rest name content])
  end.

Definition rootTree (entries : list (gostring * memfs.node)) : memfs.t :=
  {| memfs.tree := memfs.Dir entries; memfs.cwd := str "/" |}.

(** /sys/class/net with a directory, a link to a directory, a regular
    file and a link that leads nowhere. *)
Definition netTree : memfs.t :=
  rootTree
    [(str "sys", memfs.Dir
       [(str "class", memfs.Dir [(str "net", memfs.Dir
          [(str "lo", memfs.Dir []);
           (str "eth0", memfs.Symlink (str "../../devices/pci0/eth0"));
           (str "bonding_masters", memfs.File (str "bond0"));
           (str "gone", memfs.Symlink (str "/sys/devices/none"))])]);
        (str "devices", memfs.Dir [(str "pci0", memfs.Dir [(str "eth0", memfs.Dir [])])])])].

(** The entry is a symbolic link: Mode()&ModeSymlink != 0. *)
Definition isSymlink (f : FileInfo) : bool := negb (Z.land (Mode f) ModeSymlink =? 0).

(** The path GetNetworkDevices hands to os.Stat for an entry. *)
Definition netPath (fs : relocatableSysFs) (f : FileInfo) : gostring :=
  filepath.Join [root fs; netDir; Name f].

(** The entry is a directory, or a link whose target is a directory. *)
Definition isNetworkDevice (sys : OS) (fs : relocatableSysFs) (f : FileInfo) : bool :=
  if isSymlink f then
    match Stat sys (netPath fs f) with
    | Ok target => IsDir target
    | Err _ => false
    end
  else IsDir f.

(** os.Stat and the directory listing agree on entries that are not
    links: the entry can be stat'ed and is a directory in both or in
    neither. *)
Definition statAgrees (sys : OS) (fs : relocatableSysFs) (f : FileInfo) : bool :=
  isSymlink f
  || match Stat sys (netPath fs f) with
     | Ok f' => Bool.eqb (IsDir f') (IsDir f)
     | Err _ => false
     end.

(** The identifier with trailing NUL bytes and surrounding white space
    trimmed. *)
Definition trimUUID (id : gostring) : gostring :=
  strings.TrimSpace (strings.TrimRight id zero).

(** The paths whose CPU id can be extracted. *)
Definition withCPUID (paths : list gostring) : list gostring :=
  List.filter (fun p => is_ok (getCPUID p)) paths.

(** The online state as the counting loop takes it: reported online, or
    no online file to read. *)
Definition reportedOnline (r : result bool) : bool :=
  match r with
  | Ok isOnline => isOnline
  | Err e => IsNotExist e
  end.

(** The topology file of the CPU directory can be read and holds the
    value, white space aside. *)
Definition topologyIs (sys : OS) (cpuPath property value : gostring) : bool :=
  match ReadFile sys (filepath.Join [cpuPath; sysFsCPUTopology; property]) with
  | Ok content => eqb_str (strings.TrimSpace content) value
  | Err _ => false
  end.

Definition cpuPathOf (absBus n : gostring) : gostring := absBus ++ str "/cpu" ++ n.




(** ** package fmt: the scans and the formatting the package uses *)

Module fmt.

(** What Sscanf can answer besides success. *)
Inductive scanerr :=
| EOF                      (* io.EOF: no input where an operand starts *)
| UnexpectedEOF            (* io.ErrUnexpectedEOF: no input for a literal *)
| UnexpectedNewline        (* "unexpected newline" *)
| ExpectedInteger          (* "expected integer" *)
| Mismatch                 (* "input does not match format" *)
| ScanNum (e : error).     (* the error of strconv, handed on *)

(** SkipSpace for Sscanf (a newline is no space there): white space
    runes are dropped, a newline met on the way is an error. *)
Fixpoint SkipSpace (s : gostring) : scanerr + gostring :=
  match s with
  | [] => inr []
  | a :: s1 =>
    if Ascii.eqb a LF then inl UnexpectedNewline
    else if strings.asciiSpace a then SkipSpace s1
    else match s1 with
         | [] => inr s
         | b :: s2 =>
           if strings.space2 a b then SkipSpace s2
           else match s2 with
                | [] => inr s
                | c :: s3 => if strings.space3 a b c then SkipSpace s3 else inr s
                end
         end
  end.

(** scanNumber with the decimal digits: the longest run of digits at
    the head of the input, and what follows it. *)
Definition scanNumber (s : gostring) : scanerr + (gostring * gostring) :=
  match s with
  | [] => inl EOF
  | _ =>
    match regexp.takeDigits s with
    | [] => inl ExpectedInteger
    | tok => inr (tok, drop (length tok) s)
    end
  end.

(** scanUint('d', 64): the value and the input left. *)
Definition scanUint (s : gostring) : scanerr + (Z * gostring) :=
  match SkipSpace s with
  | inl e => inl e
  | inr s =>
    match s with
    | [] => inl EOF
    | _ =>
      match scanNumber s with
      | inl e => inl e
      | inr (tok, rest) =>
        match strconv.ParseUint tok 10 64 with
        | (_, Some err) => inl (ScanNum err)
        | (i, None) => inr (i, rest)
        end
      end
    end
  end.

(** strconv.ParseInt(tok, 10, 64) for a token of scanInt: an optional
    sign and digits; the negation wraps at -2^63 as that of int64
    does. *)
Definition parseInt (tok : gostring) : Z * option error :=
  match tok with
  | [] => (0, Some (NumError (str "ParseInt") tok ErrSyntax))
  | c :: tok' =>
    let neg := Ascii.eqb c "-" in
    let body := if Ascii.eqb c "+" || neg then tok' else tok in
    match strconv.ParseUint body 10 64 with
    | (un, Some (NumError _ _ ErrRange))
    | (un, None) =>
      let cutoff := Z.shiftl 1 63 in
      if negb neg && (un >=? cutoff)
      then (cutoff - 1, Some (NumError (str "ParseInt") tok ErrRange))
      else if neg && (un >? cutoff)
      then (- cutoff, Some (NumError (str "ParseInt") tok ErrRange))
      else (if neg then strconv.i64 (- strconv.i64 un) else strconv.i64 un, None)
    | (_, Some (NumError _ _ e)) => (0, Some (NumError (str "ParseInt") tok e))
    | (_, Some e) => (0, Some e)
    end
  end.

(** scanInt('d', 64): an optional sign stays in the token. *)
Definition scanInt (s : gostring) : scanerr + (Z * gostring) :=
  match SkipSpace s with
  | inl e => inl e
  | inr s =>
    match s with
    | [] => inl EOF
    | c :: s' =>
      let signed := Ascii.eqb c "+" || Ascii.eqb c "-" in
      match scanNumber (if signed then s' else s) with
      | inl e => inl e
      | inr (tok, rest) =>
        match parseInt (if signed then c :: tok else tok) with
        | (_, Some err) => inl (ScanNum err)
        | (i, None) => inr (i, rest)
        end
      end
    end
  end.

(** fmt.Sscanf(str, "%d", &v) with v a uint64.  The call answers
    n = 1 with a nil error exactly on [inr]; input after the number is
    left unread. *)
Definition Sscanf_d_uint64 (input : gostring) : scanerr + Z :=
  match scanUint input with
  | inl e => inl e
  | inr (v, _) => inr v
  end.

(** fmt.Sscanf(str, "%d", &v) with v an int. *)
Definition Sscanf_d_int (input : gostring) : scanerr + Z :=
  match scanInt input with
  | inl e => inl e
  | inr (v, _) => inr v
  end.

(** fmt.Sscanf(str, "%dK", &v) with v a uint64: the number, then the
    literal K. *)
Definition Sscanf_dK (input : gostring) : scanerr + Z :=
  match scanUint input with
  | inl e => inl e
  | inr (v, rest) =>
    match rest with
    | [] => inl UnexpectedEOF
    | c :: _ => if Ascii.eqb c "K" then inr v else inl Mismatch
    end
  end.

(** The digits of u, most significant first, in front of buf; 20 turns
    cover a uint64. *)
Fixpoint fmtUint (turns : nat) (u : Z) (buf : gostring) : gostring :=
  match turns with
  | O => buf
  | S turns' =>
    if u >=? 10 then
      let next := u / 10 in
      fmtUint turns' next (ascii_of_N (Z.to_N (48 + u - next * 10)) :: buf)
    else ascii_of_N (Z.to_N (48 + u)) :: buf
  end.

(** The verb %d on an int. *)
Definition itoa (n : Z) : gostring :=
  if n <? 0 then "-"%char :: fmtUint 20 (- n) [] else fmtUint 20 n [].

End fmt.

(** ** package machineinformer, the other readers *)

Definition blockDir : gostring := str "/sys/block".
Definition cacheDir : gostring := str "/sys/devices/system/cpu/cpu".
Definition meminfoFile : gostring := str "meminfo".
Definition coreIDFilePath : gostring := str "/" ++ sysFsCPUTopology ++ str "/core_id".
Definition packageIDFilePath : gostring :=
  str "/" ++ sysFsCPUTopology ++ str "/physical_package_id".
Definition cpuDirPattern : gostring := str "cpu*[0-9]".
Definition nodeDirPattern : gostring := str "node*[0-9]".
Definition HugePagesNrFile : gostring := str "nr_hugepages".
Definition nodeDir : gostring := str "/sys/devices/system/node/".

(** sysfs.CacheInfo of cadvisor; its field Type is [CacheType] here. *)
Record CacheInfo := {
  Size : Z;               (* uint64, bytes *)
  Level : Z;              (* int *)
  CacheType : gostring;
  Cpus : Z                (* int *)
}.

(** The errors of the readers that do not hand on a library error. *)
Inductive readerError :=
| LibError (e : error)
    (* an error of os or strconv, or of getCPUCount, returned as it is *)
| ScanError (e : fmt.scanerr)
    (* the error of fmt.Sscanf, returned as it is *)
| ErrReadStat (statPath dev : gostring)
    (* fmt.Errorf("failed to read stat from %q for device %q", statPath, dev) *)
| ErrParseStat (out statPath : gostring).
    (* fmt.Errorf("could not parse value from %q for file %s", string(out), statPath) *)

Definition NewRealSysFs (root : gostring) : relocatableSysFs :=
  NewRelocatableSysFs [].

Section Readers.

Variable sys : OS.

Definition GetNodesPaths (fs : relocatableSysFs) : result (list gostring) :=
  let pathPattern := filepath.Join [root fs; nodeDir; nodeDirPattern] in
  Glob sys pathPattern.

Definition GetCPUsPaths (fs : relocatableSysFs) (cpusPath : gostring)
  : result (list gostring) :=
  let pathPattern := filepath.Join [root fs; cpusPath; cpuDirPattern] in
  Glob sys pathPattern.

Definition GetCoreID (fs : relocatableSysFs) (cpuPath : gostring) : result gostring :=
  let* coreID := ReadFile sys (filepath.Join [root fs; cpuPath; coreIDFilePath]) in
  Ok (strings.TrimSpace coreID).

Definition GetCPUPhysicalPackageID (fs : relocatableSysFs) (cpuPath : gostring)
  : result gostring :=
  let* packageID := ReadFile sys (filepath.Join [root fs; cpuPath; packageIDFilePath]) in
  Ok (strings.TrimSpace packageID).

Definition GetMemInfo (fs : relocatableSysFs) (nodePath : gostring) : result gostring :=
  let* meminfo := ReadFile sys (filepath.Join [root fs; nodePath; meminfoFile]) in
  Ok (strings.TrimSpace meminfo).

Definition GetHugePagesInfo (fs : relocatableSysFs) (hugePagesDirectory : gostring)
  : result (list FileInfo) :=
  ReadDir sys (filepath.Join [root fs; hugePagesDirectory]).

Definition GetHugePagesNr (fs : relocatableSysFs)
           (hugepagesDirectory hugePageName : gostring) : result gostring :=
  let* hugePageFile :=
    ReadFile sys (filepath.Join [root fs; hugepagesDirectory; hugePageName; HugePagesNrFile]) in
  Ok (strings.TrimSpace hugePageFile).

Definition GetBlockDevices (fs : relocatableSysFs) : result (list FileInfo) :=
  ReadDir sys (filepath.Join [root fs; blockDir]).

Definition GetBlockDeviceNumbers (fs : relocatableSysFs) (name : gostring)
  : result gostring :=
  ReadFile sys (filepath.Join [root fs; blockDir; name; str "/dev"]).

Definition GetBlockDeviceScheduler (fs : relocatableSysFs) (name : gostring)
  : result gostring :=
  ReadFile sys (filepath.Join [root fs; blockDir; name; str "/queue/scheduler"]).

Definition GetBlockDeviceSize (fs : relocatableSysFs) (name : gostring)
  : result gostring :=
  ReadFile sys (filepath.Join [root fs; blockDir; name; str "/size"]).

Definition GetNetworkAddress (fs : relocatableSysFs) (name : gostring)
  : result gostring :=
  ReadFile sys (filepath.Join [root fs; netDir; name; str "/address"]).

Definition GetNetworkMtu (fs : relocatableSysFs) (name : gostring) : result gostring :=
  ReadFile sys (filepath.Join [root fs; netDir; name; str "/mtu"]).

Definition GetNetworkSpeed (fs : relocatableSysFs) (name : gostring) : result gostring :=
  ReadFile sys (filepath.Join [root fs; netDir; name; str "/speed"]).

Definition GetNetworkStatValue (fs : relocatableSysFs) (dev stat : gostring)
  : readerError + Z :=
  let statPath := filepath.Join [root fs; netDir; dev; str "/statistics"; stat] in
  match ReadFile sys statPath with
  | Err _ => inl (ErrReadStat statPath dev)
  | Ok out =>
    match fmt.Sscanf_d_uint64 out with
    | inl _ => inl (ErrParseStat out statPath)
    | inr s => inr s
    end
  end.

(** fmt.Sprintf("%s%d/cache", cacheDir, id) *)
Definition cachesDir (id : Z) : gostring := cacheDir ++ fmt.itoa id ++ str "/cache".

Definition GetCaches (fs : relocatableSysFs) (id : Z) : result (list FileInfo) :=
  let cpuPath := filepath.Join [root fs; cachesDir id] in
  ReadDir sys cpuPath.

Definition GetCacheInfo (fs : relocatableSysFs) (id : Z) (name : gostring)
  : readerError + CacheInfo :=
  let cachePath := filepath.Join [root fs; cachesDir id ++ str "/" ++ name] in
  match ReadFile sys (filepath.Join [cachePath; str "/size"]) with
  | Err err => inl (LibError err)
  | Ok out =>
    match fmt.Sscanf_dK out with
    | inl err => inl (ScanError err)
    | inr size =>
      let size := strconv.u64 (size * 1024) in
      match ReadFile sys (filepath.Join [cachePath; str "/level"]) with
      | Err err => inl (LibError err)
      | Ok out =>
        match fmt.Sscanf_d_int out with
        | inl err => inl (ScanError err)
        | inr level =>
          match ReadFile sys (filepath.Join [cachePath; str "/type"]) with
          | Err err => inl (LibError err)
          | Ok out =>
            let cacheType := strings.TrimSpace out in
            match getCPUCount sys cachePath with
            | Err err => inl (LibError err)
            | Ok cpuCount =>
              inr {| Size := size; Level := level; CacheType := cacheType;
                     Cpus := cpuCount |}
            end
          end
        end
      end
    end
  end.

End Readers.

(** The path has an occurrence of cpu followed by a decimal digit. *)
Definition hasCPUDigit (p : gostring) : Prop :=
  exists a d b, p = a ++ str "cpu" ++ d :: b /\ strconv.isDigit d = true.

(** One element of a path: not empty, without separator, neither "."
    nor "..". *)
Definition plainElem (x : gostring) : bool :=
  negb (eqb_str x []) && negb (eqb_str x (str ".")) && negb (eqb_str x (str ".."))
  && forallb (fun c => negb (Ascii.eqb c "/")) x.

(** The non-empty elements of a path. *)
Definition pathElems (p : gostring) : list gostring :=
  List.filter (fun e => negb (eqb_str e [])) (strings.Split p "/").

(** Every element of the path is plain (empty elements, as between
    doubled separators, aside). *)
Definition plainPath (p : gostring) : bool :=
  forallb (fun e => eqb_str e [] || plainElem e) (strings.Split p "/").

(** The absolute path with the given elements. *)
Definition absPath (elems : list gostring) : gostring :=
  str "/" ++ filepath.joinWith (str "/") elems.

(** A tree with a block device, a network device and a CPU under the
    root /host. *)
Definition hostTree : memfs.t :=
  rootTree
    [(str "host", memfs.Dir
       [(str "sys", memfs.Dir
          [(str "block", memfs.Dir
              [(str "sda", memfs.Dir
                  [(str "dev", memfs.File (str "8:0" ++ [LF]));
                   (str "size", memfs.File (str "1000215216" ++ [LF]));
                   (str "queue", memfs.Dir
                      [(str "scheduler", memfs.File (str "[none] mq-deadline" ++ [LF]))])])]);
           (str "class", memfs.Dir
              [(str "net", memfs.Dir
                  [(str "eth0", memfs.Dir
                      [(str "address", memfs.File (str "52:54:00:12:34:56" ++ [LF]));
                       (str "mtu", memfs.File (str "1500" ++ [LF]));
                       (str "speed", memfs.File (str "1000" ++ [LF]));
                       (str "statistics", memfs.Dir
                          [(str "rx_bytes", memfs.File (str "123456" ++ [LF]));
                           (str "rx_errors", memfs.File (str "-1" ++ [LF]))])])])]);
           (str "devices", memfs.Dir
              [(str "system", memfs.Dir
                  [(str "cpu", memfs.Dir
                      [(str "cpu0", memfs.Dir
                          [(str "topology", memfs.Dir
                              [(str "core_id", memfs.File (str "3" ++ [LF]));
                               (str "physical_package_id", memfs.File (str "1" ++ [LF]))]);
                           (str "cache", memfs.Dir
                              [(str "index0", memfs.Dir
                                  [(str "size", memfs.File (str "256K" ++ [LF]));
                                   (str "level", memfs.File (str "2" ++ [LF]));
                                   (str "type", memfs.File (str "Unified" ++ [LF]));
                                   (str "shared_cpu_map", memfs.File (str "3" ++ [LF]))]);
                               (str "index1", memfs.Dir
                                  [(str "size", memfs.File (str "32768" ++ [LF]))])])])])])])])])].

(** The content of a topology file, 0 when it cannot be read. *)
Definition readOrZero (sys : OS) (path : gostring) : gostring :=
  match ReadFile sys path with
  | Ok v => v
  | Err _ => str "0"
  end.

(** The key of a CPU directory: <property>_<package>. *)
Definition cpuKey (sys : OS) (property path : gostring) : gostring :=
  strings.TrimSpace (readOrZero sys (filepath.Join [path; sysFsCPUTopology; property]))
  ++ str "_"
  ++ strings.TrimSpace
       (readOrZero sys (filepath.Join [path; sysFsCPUTopology; CPUPhysicalPackageID])).

(** The CPU directory has an id and its CPU counts as online. *)
Definition counted (sys : OS) (onlinePath path : gostring) : bool :=
  match getCPUID path with
  | Ok cpuID => reportedOnline (isCPUOnline sys onlinePath cpuID)
  | Err _ => false
  end.

(** The keys of the counted CPU directories. *)
Definition countedKeys (sys : OS) (onlinePath property : gostring)
           (paths : list gostring) : gset gostring :=
  list_to_set (map (cpuKey sys property) (List.filter (counted sys onlinePath) paths)).

(** The operating system with every mode of a directory listing
    cleared: the names stay. *)
Definition withoutModes (sys : OS) : OS :=
  {| Getwd := Getwd sys;
     ReadFile := ReadFile sys;
     Stat := Stat sys;
     ReadDir := fun p =>
       match ReadDir sys p with
       | Ok files => Ok (map (fun f => {| Name := Name f; Mode := 0 |}) files)
       | Err e => Err e
       end;
     Glob := Glob sys |}.

(** * Properties *)

(** ** strings *)

Lemma Split_no_sep (s : gostring) (sep : ascii) :
  sep ∉ s -> strings.Split s sep = [s].
Proof.
  induction s as [|a s IH]; intros Hs; [reflexivity|].
  apply not_elem_of_cons in Hs as [Hne Hs].
  cbn. destruct (Ascii.eqb_spec a sep) as [->|_]; [done|].
  now rewrite (IH Hs).
Qed.

Lemma Split_app (a b : gostring) (sep : ascii) :
  sep ∉ a -> strings.Split (a ++ sep :: b) sep = a :: strings.Split b sep.
Proof.
  induction a as [|x a IH]; intros Ha; cbn.
  - now rewrite Ascii.eqb_refl.
  - apply not_elem_of_cons in Ha as [Hne Ha].
    destruct (Ascii.eqb_spec x sep) as [->|_]; [done|].
    now rewrite (IH Ha).
Qed.

Lemma Split_joinWith (pieces : list gostring) (sep : ascii) :
  pieces <> [] ->
  Forall (fun p => sep ∉ p) pieces ->
  strings.Split (filepath.joinWith [sep] pieces) sep = pieces.
Proof.
  induction pieces as [|p rest IH]; intros Hne Hall; [done|].
  apply Forall_cons in Hall as [Hp Hrest].
  destruct rest as [|q rest]; cbn [filepath.joinWith].
  - now apply Split_no_sep.
  - cbn [app]. rewrite Split_app by done. f_equal. now apply IH.
Qed.

Lemma Cut_no_sep (s : gostring) (sep : ascii) :
  sep ∉ s -> strings.Cut s sep = None.
Proof.
  induction s as [|a s IH]; intros Hs; [reflexivity|].
  apply not_elem_of_cons in Hs as [Hne Hs].
  cbn. destruct (Ascii.eqb_spec a sep) as [->|_]; [done|].
  now rewrite (IH Hs).
Qed.

Lemma Cut_app (a b : gostring) (sep : ascii) :
  sep ∉ a -> strings.Cut (a ++ sep :: b) sep = Some (a, b).
Proof.
  induction a as [|x a IH]; intros Ha; cbn.
  - now rewrite Ascii.eqb_refl.
  - apply not_elem_of_cons in Ha as [Hne Ha].
    destruct (Ascii.eqb_spec x sep) as [->|_]; [done|].
    now rewrite (IH Ha).
Qed.

(** ** strconv *)

Lemma isDigit_code (c : ascii) :
  strconv.isDigit c = true <-> 48 <= code c <= 57.
Proof. unfold strconv.isDigit. lia. Qed.

Lemma digits_exclude (ds : gostring) (c : ascii) :
  forallb strconv.isDigit ds = true -> strconv.isDigit c = false -> c ∉ ds.
Proof.
  intros Hds Hc Hin. apply list_elem_of_In in Hin.
  rewrite forallb_forall in Hds. specialize (Hds c Hin). congruence.
Qed.

Lemma digitVal_digit (c : ascii) :
  strconv.isDigit c = true -> strconv.digitVal c = Some (code c - 48).
Proof. intros H. unfold strconv.digitVal. now rewrite H. Qed.

Lemma decimalFrom_cons (n : Z) (c : ascii) (ds : gostring) :
  decimalFrom n (c :: ds) = decimalFrom (10 * n + (code c - 48)) ds.
Proof. reflexivity. Qed.

Lemma decimalFrom_mono (ds : gostring) (n : Z) :
  forallb strconv.isDigit ds = true -> 0 <= n -> n <= decimalFrom n ds.
Proof.
  revert n. induction ds as [|c ds IH]; intros n Hds Hn; [cbn; lia|].
  cbn [forallb] in Hds. apply andb_prop in Hds as [Hc Hds].
  apply isDigit_code in Hc. rewrite decimalFrom_cons.
  specialize (IH (10 * n + (code c - 48)) Hds). lia.
Qed.

(** On a run of decimal digits whose value fits, the loop of ParseUint
    computes that value. *)
Lemma parseLoop_digits (s0 ds : gostring) (maxVal n : Z) :
  forallb strconv.isDigit ds = true ->
  0 <= n -> decimalFrom n ds <= maxVal -> maxVal <= strconv.maxUint64 ->
  strconv.parseLoop s0 10 (strconv.maxUint64 / 10 + 1) maxVal ds n
  = (decimalFrom n ds, None).
Proof.
  revert n. induction ds as [|c ds IH]; intros n Hds Hn Hval Hmax; [reflexivity|].
  cbn [forallb] in Hds. apply andb_prop in Hds as [Hc Hds].
  rewrite decimalFrom_cons in *.
  pose proof (proj1 (isDigit_code c) Hc) as Hcode.
  pose proof (decimalFrom_mono ds (10 * n + (code c - 48)) Hds ltac:(lia)) as Hm.
  cbn [strconv.parseLoop]. rewrite (digitVal_digit c Hc).
  change strconv.maxUint64 with 18446744073709551615 in *.
  change (18446744073709551615 / 10 + 1) with 1844674407370955162 in *.
  destruct (Z.geb_spec (code c - 48) 10); [lia|].
  destruct (Z.geb_spec n 1844674407370955162); [lia|].
  unfold strconv.u64.
  rewrite (Z.mod_small (n * 10)) by lia.
  rewrite (Z.mod_small (n * 10 + (code c - 48))) by lia.
  destruct (Z.ltb_spec (n * 10 + (code c - 48)) (n * 10)); [lia|].
  destruct (Z.gtb_spec (n * 10 + (code c - 48)) maxVal); [lia|].
  cbn [orb]. replace (n * 10) with (10 * n) by lia.
  apply IH; try done; lia.
Qed.

(** Every error of the loop is a *NumError of ParseUint on s0. *)
Lemma parseLoop_error (s0 ds : gostring) (base cutoff maxVal n v : Z) (e : error) :
  strconv.parseLoop s0 base cutoff maxVal ds n = (v, Some e) ->
  exists k, e = NumError (str "ParseUint") s0 k.
Proof.
  revert n. induction ds as [|c ds IH]; intros n; cbn [strconv.parseLoop]; [done|].
  repeat case_match; intros ?; simplify_eq; eauto.
Qed.

(** A byte that is no decimal digit stops the loop in base 10. *)
Lemma parseLoop_nondigit (s0 ds : gostring) (cutoff maxVal n : Z) :
  forallb strconv.isDigit ds = false ->
  snd (strconv.parseLoop s0 10 cutoff maxVal ds n) <> None.
Proof.
  revert n. induction ds as [|c ds IH]; intros n Hds; [done|].
  cbn [forallb] in Hds. cbn [strconv.parseLoop].
  destruct (strconv.digitVal c) as [d|] eqn:Hd; [|done].
  destruct (strconv.isDigit c) eqn:Hc.
  - cbn [andb] in Hds. repeat case_match; try done. now apply IH.
  - unfold strconv.digitVal in Hd. rewrite Hc in Hd.
    case_match; [|done]. simplify_eq.
    destruct (Z.geb_spec (strconv.lower (code c) - 97 + 10) 10); [done|lia].
Qed.

(** A run of digits whose value exceeds maxVal is a range error. *)
Lemma parseLoop_overflow (s0 ds : gostring) (maxVal n : Z) :
  forallb strconv.isDigit ds = true ->
  0 <= n <= maxVal -> maxVal < decimalFrom n ds -> maxVal < 2 ^ 32 ->
  snd (strconv.parseLoop s0 10 (strconv.maxUint64 / 10 + 1) maxVal ds n) <> None.
Proof.
  revert n. induction ds as [|c ds IH]; intros n Hds Hn Hval Hmax; [cbn in *; lia|].
  cbn [forallb] in Hds. apply andb_prop in Hds as [Hc Hds].
  rewrite decimalFrom_cons in *.
  pose proof (proj1 (isDigit_code c) Hc) as Hcode.
  cbn [strconv.parseLoop]. rewrite (digitVal_digit c Hc).
  change strconv.maxUint64 with 18446744073709551615 in *.
  change (18446744073709551615 / 10 + 1) with 1844674407370955162 in *.
  change (2 ^ 32) with 4294967296 in *.
  destruct (Z.geb_spec (code c - 48) 10); [lia|].
  destruct (Z.geb_spec n 1844674407370955162); [lia|].
  unfold strconv.u64.
  rewrite (Z.mod_small (n * 10)) by lia.
  rewrite (Z.mod_small (n * 10 + (code c - 48))) by lia.
  destruct (Z.ltb_spec (n * 10 + (code c - 48)) (n * 10)); [lia|].
  destruct (Z.gtb_spec (n * 10 + (code c - 48)) maxVal); [done|].
  cbn [orb]. replace (n * 10) with (10 * n) by lia.
  apply IH; try done; lia.
Qed.

Lemma ParseUint_10_16 (s : gostring) :
  s <> [] ->
  strconv.ParseUint s 10 16
  = strconv.parseLoop s 10 (strconv.maxUint64 / 10 + 1) 65535 s 0.
Proof. destruct s; [done|reflexivity]. Qed.

Lemma isDigits_nonempty (ds : gostring) : isDigits ds = true -> ds <> [].
Proof. unfold isDigits. destruct ds; [done|discriminate]. Qed.

Lemma isDigits_forallb (ds : gostring) :
  isDigits ds = true -> forallb strconv.isDigit ds = true.
Proof. unfold isDigits. intros H. now apply andb_prop in H as [_ H]. Qed.

Lemma decimal_nonneg (ds : gostring) :
  forallb strconv.isDigit ds = true -> 0 <= decimal ds.
Proof. intros H. now apply (decimalFrom_mono ds 0). Qed.

(** ParseUint(s, 10, 16) succeeds exactly on the decimal 16-bit
    integers, with their value. *)
Lemma ParseUint16_ok (s : gostring) :
  isUint16 s = true -> strconv.ParseUint s 10 16 = (decimal s, None).
Proof.
  unfold isUint16. intros H. apply andb_prop in H as [Hd Hv].
  rewrite ParseUint_10_16 by now apply isDigits_nonempty.
  apply parseLoop_digits; [now apply isDigits_forallb|lia| |done].
  unfold decimal in Hv. lia.
Qed.

Lemma ParseUint16_err (s : gostring) :
  isUint16 s = false ->
  exists v k, strconv.ParseUint s 10 16 = (v, Some (NumError (str "ParseUint") s k)).
Proof.
  intros H. destruct s as [|c s]; [cbn; eauto|].
  rewrite ParseUint_10_16 by done.
  destruct (strconv.parseLoop _ _ _ _ _ _) as [v [e|]] eqn:Hp.
  - destruct (parseLoop_error _ _ _ _ _ _ _ _ Hp) as [k ->]. eauto.
  - exfalso. unfold isUint16, isDigits in H. cbn [bool_decide negb andb] in H.
    assert (Hs : snd (strconv.parseLoop (c :: s) 10 (strconv.maxUint64 / 10 + 1)
                                        65535 (c :: s) 0) <> None).
    { destruct (forallb strconv.isDigit (c :: s)) eqn:Hd.
      - apply parseLoop_overflow; [done|lia| |done].
        rewrite bool_decide_eq_false_2 in H by done. cbn [negb andb] in H.
        unfold decimal in H. lia.
      - now apply parseLoop_nondigit. }
    rewrite Hp in Hs. done.
Qed.

(** ** The online-range parser *)

Lemma dash_not_digit : strconv.isDigit "-" = false.
Proof. reflexivity. Qed.

Lemma comma_not_digit : strconv.isDigit "," = false.
Proof. reflexivity. Qed.

Create HintDb digits.
#[local] Hint Resolve dash_not_digit comma_not_digit : digits.

Lemma SplitN_single (ds : gostring) :
  forallb strconv.isDigit ds = true -> strings.SplitN ds "-" 3 = [ds].
Proof.
  intros H. cbn [strings.SplitN].
  now rewrite (Cut_no_sep ds "-" (digits_exclude ds "-" H dash_not_digit)).
Qed.

Lemma SplitN_two (lo hi : gostring) :
  "-"%char ∉ lo -> "-"%char ∉ hi ->
  strings.SplitN (lo ++ str "-" ++ hi) "-" 3 = [lo; hi].
Proof.
  intros Hlo Hhi. cbn [strings.SplitN str list_ascii_of_string app].
  now rewrite (Cut_app lo hi "-" Hlo), (Cut_no_sep hi "-" Hhi).
Qed.

Lemma SplitN_three (a b c : gostring) :
  "-"%char ∉ a -> "-"%char ∉ b ->
  strings.SplitN (a ++ str "-" ++ b ++ str "-" ++ c) "-" 3 = [a; b; c].
Proof.
  intros Ha Hb. cbn [strings.SplitN str list_ascii_of_string app].
  now rewrite (Cut_app a _ "-" Ha), (Cut_app b c "-" Hb).
Qed.

Lemma SplitN_range (lo hi : gostring) :
  forallb strconv.isDigit lo = true -> forallb strconv.isDigit hi = true ->
  strings.SplitN (lo ++ str "-" ++ hi) "-" 3 = [lo; hi].
Proof.
  intros Hlo Hhi. apply SplitN_two; apply digits_exclude; auto with digits.
Qed.

Lemma u16_small (n : Z) : 0 <= n < 65536 -> u16 n = n.
Proof. intros H. unfold u16. now apply Z.mod_small. Qed.

(** The range loop answers whether cpuID lies between i and max. *)
Lemma rangeLoop_spec (turns : nat) (i max cpuID : Z) :
  0 <= i -> max < 65536 -> 0 <= cpuID < 65536 ->
  turns = Z.to_nat (max - i + 1) ->
  rangeLoop turns i max cpuID = (i <=? cpuID) && (cpuID <=? max).
Proof.
  revert i. induction turns as [|turns IH]; intros i Hi Hmax Hid Hturns.
  - cbn. lia.
  - cbn [rangeLoop].
    destruct (Z.leb_spec i max); [|lia].
    rewrite u16_small by lia.
    destruct (Z.eqb_spec i cpuID) as [->|Hne]; [lia|].
    unfold strconv.u64. rewrite Z.mod_small by lia.
    rewrite IH by lia. lia.
Qed.

Lemma isUint16_digits (ds : gostring) :
  isUint16 ds = true -> forallb strconv.isDigit ds = true.
Proof.
  unfold isUint16. intros H. apply andb_prop in H as [H _].
  now apply isDigits_forallb.
Qed.

#[local] Hint Resolve isDigits_nonempty isDigits_forallb isUint16_digits : digits.

Lemma isUint16_range (ds : gostring) :
  isUint16 ds = true -> 0 <= decimal ds < 65536.
Proof.
  intros H. pose proof (decimal_nonneg ds (isUint16_digits ds H)).
  unfold isUint16 in H. apply andb_prop in H as [_ H]. lia.
Qed.

(** Over well-formed tokens the loop of isCPUOnline does not fail: it
    stops with true at the first token that has cpuID and goes on to
    the tokens after them otherwise. *)
Lemma onlineLoop_wf_app (path : gostring) (ts : list token) (tail : list gostring)
      (cpuID : Z) :
  forallb wfToken ts = true -> 0 <= cpuID < 65536 ->
  onlineLoop path (map renderToken ts ++ tail) cpuID
  = if existsb (tokenHas cpuID) ts then Ok true else onlineLoop path tail cpuID.
Proof.
  intros Hwf Hid. induction ts as [|t ts IH]; [reflexivity|].
  cbn [forallb] in Hwf. apply andb_prop in Hwf as [Ht Hts].
  specialize (IH Hts). cbn [map app existsb onlineLoop].
  destruct t as [n|lo hi]; cbn [renderToken wfToken tokenHas] in *.
  - rewrite (SplitN_single n (isUint16_digits n Ht)). cbn [length].
    rewrite (ParseUint16_ok n Ht).
    rewrite u16_small by now apply isUint16_range.
    destruct (decimal n =? cpuID); [reflexivity|exact IH].
  - apply andb_prop in Ht as [Ht Hle]. apply andb_prop in Ht as [Hlo Hhi].
    rewrite (SplitN_range lo hi (isUint16_digits lo Hlo) (isUint16_digits hi Hhi)).
    cbn [length nth]. rewrite (ParseUint16_ok lo Hlo), (ParseUint16_ok hi Hhi).
    pose proof (isUint16_range lo Hlo). pose proof (isUint16_range hi Hhi).
    destruct (Z.gtb_spec (decimal lo) (decimal hi)); [lia|].
    rewrite (rangeLoop_spec _ (decimal lo) (decimal hi) cpuID) by lia.
    destruct ((decimal lo <=? cpuID) && (cpuID <=? decimal hi)); [reflexivity|exact IH].
Qed.

Lemma onlineLoop_wf (path : gostring) (ts : list token) (cpuID : Z) :
  forallb wfToken ts = true -> 0 <= cpuID < 65536 ->
  onlineLoop path (map renderToken ts) cpuID = Ok (existsb (tokenHas cpuID) ts).
Proof.
  intros Hwf Hid.
  rewrite <- (app_nil_r (map renderToken ts)), onlineLoop_wf_app by done.
  now destruct (existsb _ _).
Qed.

(** ** White space around an expression *)

Lemma startsDigit_app (a b : gostring) :
  startsDigit a = true -> startsDigit (a ++ b) = true.
Proof. destruct a; [discriminate|done]. Qed.

Lemma startsDigit_digits (ds : gostring) :
  isDigits ds = true -> startsDigit ds = true.
Proof.
  unfold isDigits. destruct ds as [|c ds]; [discriminate|].
  cbn. now intros [H _]%andb_prop.
Qed.

Lemma endsDigit_digits (ds : gostring) :
  isDigits ds = true -> startsDigit (rev ds) = true.
Proof.
  intros H. pose proof (isDigits_nonempty ds H) as Hne.
  apply isDigits_forallb in H. rewrite forallb_forall in H.
  destruct (rev ds) as [|c r] eqn:Hr.
  - apply (f_equal (@rev ascii)) in Hr. rewrite rev_involutive in Hr. done.
  - cbn. apply H. apply in_rev. rewrite Hr. now left.
Qed.

Lemma isUint16_isDigits (ds : gostring) : isUint16 ds = true -> isDigits ds = true.
Proof. unfold isUint16. now intros [H _]%andb_prop. Qed.

Lemma renderToken_starts (t : token) :
  wfToken t = true -> startsDigit (renderToken t) = true.
Proof.
  destruct t as [n|lo hi]; cbn [wfToken renderToken]; intros H.
  - now apply startsDigit_digits, isUint16_isDigits.
  - apply andb_prop in H as [[Hlo _]%andb_prop _].
    now apply startsDigit_app, startsDigit_digits, isUint16_isDigits.
Qed.

Lemma renderToken_ends (t : token) :
  wfToken t = true -> startsDigit (rev (renderToken t)) = true.
Proof.
  destruct t as [n|lo hi]; cbn [wfToken renderToken]; intros H.
  - now apply endsDigit_digits, isUint16_isDigits.
  - apply andb_prop in H as [[_ Hhi]%andb_prop _].
    rewrite !rev_app_distr, <- app_assoc.
    now apply startsDigit_app, endsDigit_digits, isUint16_isDigits.
Qed.

Lemma render_starts (ts : list token) :
  ts <> [] -> forallb wfToken ts = true -> startsDigit (render ts) = true.
Proof.
  destruct ts as [|t ts]; [done|]. intros _ [Ht _]%andb_prop.
  unfold render. cbn [map filepath.joinWith].
  destruct (map renderToken ts); [|apply startsDigit_app]; now apply renderToken_starts.
Qed.

Lemma render_ends (ts : list token) :
  ts <> [] -> forallb wfToken ts = true -> startsDigit (rev (render ts)) = true.
Proof.
  induction ts as [|t ts IH]; [done|]. intros _ [Ht Hts]%andb_prop.
  unfold render in *. cbn [map filepath.joinWith].
  destruct ts as [|t' ts]; cbn [map] in *.
  - now apply renderToken_ends.
  - rewrite !rev_app_distr, <- app_assoc.
    apply startsDigit_app, IH; done.
Qed.

Lemma trimLeftSpace_digit (s : gostring) :
  startsDigit s = true -> strings.trimLeftSpace s = s.
Proof.
  destruct s as [|a s]; [done|]. cbn [startsDigit]. intros H%isDigit_code.
  cbn [strings.trimLeftSpace].
  assert (strings.asciiSpace a = false) as -> by (unfold strings.asciiSpace; lia).
  destruct s as [|b s]; [done|].
  assert (strings.space2 a b = false) as -> by (unfold strings.space2; lia).
  destruct s as [|c s]; [done|].
  assert (strings.space3 a b c = false) as -> by (unfold strings.space3; cbn; lia).
  done.
Qed.

Lemma trimLeftSpaceRev_digit (s : gostring) :
  startsDigit s = true -> strings.trimLeftSpaceRev s = s.
Proof.
  destruct s as [|a s]; [done|]. cbn [startsDigit]. intros H%isDigit_code.
  cbn [strings.trimLeftSpaceRev].
  assert (strings.asciiSpace a = false) as -> by (unfold strings.asciiSpace; lia).
  destruct s as [|b s]; [done|].
  assert (strings.space2 b a = false) as -> by (unfold strings.space2; lia).
  destruct s as [|c s]; [done|].
  assert (strings.space3 c b a = false) as -> by (unfold strings.space3; cbn; lia).
  done.
Qed.

Lemma trimLeftSpaceRev_ascii (ws s : gostring) :
  forallb strings.asciiSpace ws = true ->
  strings.trimLeftSpaceRev (ws ++ s) = strings.trimLeftSpaceRev s.
Proof.
  induction ws as [|w ws IH]; [done|]. intros [Hw Hws]%andb_prop.
  cbn [app strings.trimLeftSpaceRev]. rewrite Hw. now apply IH.
Qed.

(** An expression that starts and ends with a digit, followed by ASCII
    white space, is trimmed to the expression. *)
Lemma TrimSpace_tail (s ws : gostring) :
  startsDigit s = true -> startsDigit (rev s) = true ->
  forallb strings.asciiSpace ws = true ->
  strings.TrimSpace (s ++ ws) = s.
Proof.
  intros Hs He Hws. unfold strings.TrimSpace, strings.trimRightSpace.
  rewrite trimLeftSpace_digit by now apply startsDigit_app.
  rewrite rev_app_distr, trimLeftSpaceRev_ascii.
  - rewrite trimLeftSpaceRev_digit by done. apply rev_involutive.
  - rewrite forallb_forall in *. intros x Hx. apply Hws. now apply in_rev.
Qed.

Lemma renderToken_no_comma (t : token) :
  wfToken t = true -> ","%char ∉ renderToken t.
Proof.
  destruct t as [n|lo hi]; cbn [wfToken renderToken]; intros H.
  - apply digits_exclude; auto with digits.
  - apply andb_prop in H as [[Hlo Hhi]%andb_prop _].
    rewrite !not_elem_of_app. repeat split.
    + apply digits_exclude; auto with digits.
    + cbn. rewrite not_elem_of_cons. split; [done|apply not_elem_of_nil].
    + apply digits_exclude; auto with digits.
Qed.

Lemma render_split (ts : list token) :
  ts <> [] -> forallb wfToken ts = true ->
  strings.Split (render ts) "," = map renderToken ts.
Proof.
  intros Hne Hwf. unfold render. change (str ",") with [","%char].
  apply Split_joinWith.
  - now destruct ts.
  - apply Forall_forall. intros p Hp. apply list_elem_of_In, in_map_iff in Hp.
    destruct Hp as (t & <- & Ht). apply renderToken_no_comma.
    rewrite forallb_forall in Hwf. now apply Hwf.
Qed.

(** C1: for a non-empty well-formed online-range expression (tokens
    separated by commas, each a decimal 16-bit integer or a range lo-hi
    with lo <= hi) in the online file, alone or followed by the white
    space the kernel ends the file with, and a CPU id i, isCPUOnline
    returns without error, true exactly when i is a literal token or
    lies within a range token, false when no token has i. *)
Theorem C1_isCPUOnline_wellformed (sys : OS) (path : gostring)
        (ts : list token) (ws : gostring) (i : Z) :
  ts <> [] -> forallb wfToken ts = true ->
  forallb strings.asciiSpace ws = true ->
  0 <= i < 65536 ->
  ReadFile sys path = Ok (render ts ++ ws) ->
  isCPUOnline sys path i = Ok (existsb (tokenHas i) ts).
Proof.
  intros Hne Hwf Hws Hi Hread. unfold isCPUOnline. rewrite Hread. cbn [bind].
  pose proof (render_starts ts Hne Hwf) as Hs.
  pose proof (render_ends ts Hne Hwf) as He.
  destruct (render ts ++ ws) as [|c content] eqn:Hc.
  - destruct (render ts); [discriminate Hs|discriminate Hc].
  - cbn [length Nat.eqb]. rewrite <- Hc.
    rewrite (TrimSpace_tail _ _ Hs He Hws), (render_split ts Hne Hwf).
    now apply onlineLoop_wf.
Qed.

Lemma C1_isCPUOnline_wellformed_witness :
  isCPUOnline (memOS (onlineTree (str "0,3-5,10" ++ [LF]))) onlineFile 4 = Ok true
  /\ isCPUOnline (memOS (onlineTree (str "0,3-5,10" ++ [LF]))) onlineFile 7 = Ok false.
Proof.
  split.
  - apply (C1_isCPUOnline_wellformed
             (memOS (onlineTree (str "0,3-5,10" ++ [LF]))) onlineFile
             [Single (str "0"); Range (str "3") (str "5"); Single (str "10")] [LF] 4);
      [discriminate|vm_compute; reflexivity|vm_compute; reflexivity|lia
      |vm_compute; reflexivity].
  - apply (C1_isCPUOnline_wellformed
             (memOS (onlineTree (str "0,3-5,10" ++ [LF]))) onlineFile
             [Single (str "0"); Range (str "3") (str "5"); Single (str "10")] [LF] 7);
      [discriminate|vm_compute; reflexivity|vm_compute; reflexivity|lia
      |vm_compute; reflexivity].
Defined.

(** ** Empty and malformed online files *)

(** C4, as amended: when the online file is read and its content is
    empty after trimming white space, isCPUOnline fails and returns no
    boolean; the error is the empty-file error only when the file has
    no byte at all, the length test comes before the trimming.  A
    non-empty file of white space fails in the parser, with the syntax
    error of strconv.ParseUint on the empty token. *)
Theorem C4_isCPUOnline_blank (sys : OS) (path content : gostring) (i : Z) :
  ReadFile sys path = Ok content ->
  strings.TrimSpace content = [] ->
  isCPUOnline sys path i
  = Err (if bool_decide (content = []) then ErrEmptyFile path
         else NumError (str "ParseUint") [] ErrSyntax).
Proof.
  intros Hread Htrim. unfold isCPUOnline. rewrite Hread. cbn [bind].
  destruct content as [|c content]; [reflexivity|].
  rewrite Htrim. reflexivity.
Qed.

Lemma C4_isCPUOnline_blank_witness :
  isCPUOnline (memOS (onlineTree [])) onlineFile 0 = Err (ErrEmptyFile onlineFile)
  /\ isCPUOnline (memOS (onlineTree (str " " ++ [LF]))) onlineFile 0
     = Err (NumError (str "ParseUint") [] ErrSyntax).
Proof.
  split.
  - apply (C4_isCPUOnline_blank (memOS (onlineTree [])) onlineFile [] 0);
      vm_compute; reflexivity.
  - apply (C4_isCPUOnline_blank (memOS (onlineTree (str " " ++ [LF]))) onlineFile
                                (str " " ++ [LF]) 0); vm_compute; reflexivity.
Defined.

(** C4 as stated fails: a file holding one newline is empty after
    trimming, and the error is strconv's syntax error, a parse error,
    not the empty-file error. *)
Lemma C4_counterexample :
  strings.TrimSpace [LF] = []
  /\ isCPUOnline (memOS (onlineTree [LF])) onlineFile 0
     = Err (NumError (str "ParseUint") [] ErrSyntax)
  /\ isCPUOnline (memOS (onlineTree [LF])) onlineFile 0
     <> Err (ErrEmptyFile onlineFile).
Proof. vm_compute. repeat split. discriminate. Qed.

(** C5, as amended: let the tokens before a malformed token be
    well-formed and none of them have i (a token that has i ends the
    scan with true before the malformed one is looked at).  Then
    isCPUOnline fails: with the invalid-values error when the token has
    three or more dash-separated parts, or is lo-hi with lo > hi; with
    the error of strconv.ParseUint, not the invalid-values error, when
    it is lo-hi and a bound is no decimal 16-bit integer. *)
Theorem C5_isCPUOnline_malformed (sys : OS) (path content : gostring) (i : Z)
        (good : list token) (bad : gostring) (rest : list gostring) :
  ReadFile sys path = Ok content -> content <> [] ->
  strings.Split (strings.TrimSpace content) "," = map renderToken good ++ bad :: rest ->
  forallb wfToken good = true -> existsb (tokenHas i) good = false ->
  0 <= i < 65536 ->
  (forall a b c, bad = a ++ str "-" ++ b ++ str "-" ++ c ->
                 "-"%char ∉ a -> "-"%char ∉ b ->
                 isCPUOnline sys path i = Err (ErrInvalidValues path))
  /\ (forall lo hi, bad = lo ++ str "-" ++ hi ->
                    isUint16 lo = true -> isUint16 hi = true ->
                    decimal lo > decimal hi ->
                    isCPUOnline sys path i = Err (ErrInvalidValues path))
  /\ (forall lo hi, bad = lo ++ str "-" ++ hi ->
                    "-"%char ∉ lo -> "-"%char ∉ hi ->
                    isUint16 lo && isUint16 hi = false ->
                    exists input k,
                      isCPUOnline sys path i
                      = Err (NumError (str "ParseUint") input k)).
Proof.
  intros Hread Hne Hsplit Hwf Hnone Hi.
  assert (Hrun : isCPUOnline sys path i = onlineLoop path (bad :: rest) i).
  { unfold isCPUOnline. rewrite Hread. cbn [bind].
    destruct content as [|c content]; [done|]. cbn [length Nat.eqb].
    rewrite Hsplit, onlineLoop_wf_app by done. now rewrite Hnone. }
  rewrite Hrun. cbn [onlineLoop]. repeat split.
  - intros a b c -> Ha Hb. now rewrite SplitN_three.
  - intros lo hi -> Hlo Hhi Hgt.
    rewrite (SplitN_range lo hi (isUint16_digits lo Hlo) (isUint16_digits hi Hhi)).
    cbn [length nth]. rewrite (ParseUint16_ok lo Hlo), (ParseUint16_ok hi Hhi).
    destruct (Z.gtb_spec (decimal lo) (decimal hi)); [done|lia].
  - intros lo hi -> Hlo Hhi Hbad. rewrite SplitN_two by done. cbn [length nth].
    destruct (isUint16 lo) eqn:Elo.
    + rewrite (ParseUint16_ok lo Elo). cbn [andb] in Hbad.
      destruct (ParseUint16_err hi Hbad) as (v & k & ->). eauto.
    + destruct (ParseUint16_err lo Elo) as (v & k & ->). eauto.
Qed.

Lemma C5_isCPUOnline_malformed_witness :
  isCPUOnline (memOS (onlineTree (str "0,5-3,7"))) onlineFile 1
  = Err (ErrInvalidValues onlineFile).
Proof.
  refine (proj1 (proj2 (C5_isCPUOnline_malformed
           (memOS (onlineTree (str "0,5-3,7"))) onlineFile (str "0,5-3,7") 1
           [Single (str "0")] (str "5-3") [str "7"] _ _ _ _ _ _))
           (str "5") (str "3") _ _ _ _);
    try (vm_compute; reflexivity); [discriminate|lia].
Defined.

(** C5 as stated fails: the content 0,5-3 holds the range 5-3 with
    5 > 3, and for CPU 0 isCPUOnline returns true, the first token
    ends the scan. *)
Lemma C5_counterexample :
  In (str "5-3") (strings.Split (strings.TrimSpace (str "0,5-3")) ",")
  /\ isCPUOnline (memOS (onlineTree (str "0,5-3"))) onlineFile 0 = Ok true.
Proof. vm_compute. split; [right; left; reflexivity|reflexivity]. Qed.

(** ** The cache sharing count *)

Lemma filter_seq_shift (f : nat -> bool) (a n : nat) :
  length (List.filter f (seq (S a) n))
  = length (List.filter (fun k => f (S k)) (seq a n)).
Proof.
  revert a. induction n as [|n IH]; intros a; [reflexivity|].
  cbn [seq List.filter]. destruct (f (S a)); cbn [length]; now rewrite IH.
Qed.

Lemma land_1_testbit (i : Z) :
  (Z.land i 1 =? 1) = Z.testbit i 0.
Proof.
  change 1 with (Z.ones 1) at 1. rewrite Z.land_ones by lia.
  rewrite Z.bit0_odd. change (2 ^ 1) with 2. rewrite Zmod_odd.
  now destruct (Z.odd i).
Qed.

(** [turns] turns of the loop count the set bits of a value below
    2^turns. *)
Lemma bitCountLoop_spec (turns : nat) (i count : Z) :
  0 <= i < 2 ^ Z.of_nat turns ->
  bitCountLoop turns i count
  = count + Z.of_nat (length (List.filter (fun k => Z.testbit i (Z.of_nat k))
                                          (seq 0 turns))).
Proof.
  revert i count. induction turns as [|turns IH]; intros i count Hi.
  - cbn. lia.
  - cbn [bitCountLoop]. destruct (Z.eqb_spec i 0) as [->|Hne].
    + replace (List.filter _ _) with (@nil nat); [cbn; lia|].
      symmetry. clear. generalize 0%nat.
      induction (S turns) as [|n IHn]; intros a; [reflexivity|].
      cbn [seq List.filter]. rewrite Z.testbit_0_l. apply IHn.
    + assert (Hs : 0 <= Z.shiftr i 1 < 2 ^ Z.of_nat turns).
      { rewrite Z.shiftr_div_pow2 by lia. change (2 ^ 1) with 2.
        rewrite Nat2Z.inj_succ, Z.pow_succ_r in Hi by lia.
        split; [apply Z.div_pos; lia|apply Z.div_lt_upper_bound; lia]. }
      rewrite (IH _ _ Hs), land_1_testbit.
      erewrite (List.filter_ext (fun k => Z.testbit (Z.shiftr i 1) (Z.of_nat k))).
      2:{ intros k. rewrite Z.shiftr_spec by lia.
          replace (Z.of_nat k + 1) with (Z.of_nat (S k)) by lia. reflexivity. }
      rewrite <- (filter_seq_shift (fun k => Z.testbit i (Z.of_nat k))).
      cbn [seq List.filter]. change (Z.of_nat 0) with 0.
      destruct (Z.testbit i 0); cbn [length]; lia.
Qed.

Lemma bitCount_popcount (m : Z) :
  0 <= m < 2 ^ 64 -> bitCount m = popcount m.
Proof.
  intros Hm. unfold bitCount, popcount.
  rewrite bitCountLoop_spec by exact Hm. lia.
Qed.

Lemma popcount_bounds (m : Z) : 0 <= popcount m <= 64.
Proof.
  unfold popcount.
  pose proof (List.filter_length_le (fun k => Z.testbit m (Z.of_nat k)) (seq 0 64)) as H.
  rewrite length_seq in H. lia.
Qed.

Lemma parseLoop_range (s0 s : gostring) (base cutoff maxVal n v : Z) :
  strconv.parseLoop s0 base cutoff maxVal s n = (v, None) ->
  0 <= n < 2 ^ 64 -> 0 <= v < 2 ^ 64.
Proof.
  revert n. induction s as [|c s IH]; intros n; cbn [strconv.parseLoop].
  - intros [= ->]. done.
  - repeat case_match; try discriminate. intros Hp _.
    apply (IH _ Hp). unfold strconv.u64. apply Z.mod_pos_bound. lia.
Qed.

Lemma ParseUint_range (s : gostring) (base bitSize v : Z) :
  strconv.ParseUint s base bitSize = (v, None) -> 0 <= v < 2 ^ 64.
Proof.
  unfold strconv.ParseUint. repeat case_match; try discriminate.
  all: intros Hp; apply (parseLoop_range _ _ _ _ _ _ _ Hp); lia.
Qed.

(** While the running count cannot leave the range of int, the loop of
    getCPUCount adds the population counts of the masks. *)
Lemma cpuCountLoop_ok (out : gostring) (masks : list gostring) (ms : list Z) (count : Z) :
  Forall2 (fun mask m => strconv.ParseUint (strings.TrimSpace mask) 16 64 = (m, None))
          masks ms ->
  0 <= count -> count + 64 * Z.of_nat (length masks) < 2 ^ 63 ->
  cpuCountLoop out masks count = Ok (count + sumPopcount ms).
Proof.
  intros H. revert count.
  induction H as [|mask m masks ms Hm _ IH]; intros count Hc Hb; cbn [cpuCountLoop sumPopcount fold_right].
  - f_equal. lia.
  - rewrite Hm. rewrite (bitCount_popcount m (ParseUint_range _ _ _ _ Hm)).
    pose proof (popcount_bounds m) as Hp. cbn [length] in Hb.
    assert (Hw : strconv.i64 (count + popcount m) = count + popcount m).
    { unfold strconv.i64. rewrite Z.mod_small; lia. }
    rewrite Hw, IH by lia. fold (sumPopcount ms). f_equal. lia.
Qed.

Lemma cpuCountLoop_err (out : gostring) (masks : list gostring) (count : Z) :
  Exists (fun mask => snd (strconv.ParseUint (strings.TrimSpace mask) 16 64) <> None)
         masks ->
  exists e, cpuCountLoop out masks count = Err (ErrParseCPUMap out e).
Proof.
  intros H. revert count. induction masks as [|mask masks IH]; intros count.
  - inversion H.
  - cbn [cpuCountLoop].
    destruct (strconv.ParseUint (strings.TrimSpace mask) 16 64) as [m [e|]] eqn:Hm; [eauto|].
    apply IH. apply Exists_cons in H as [H|H]; [|done]. rewrite Hm in H. done.
Qed.

(** C8: getCPUCount reads shared_cpu_map, splits it at the commas and
    parses each mask as a hexadecimal 64-bit unsigned integer: when all
    masks parse (and their number keeps the sum within int) the result
    is the sum of the masks' numbers of set bits; when a mask does not
    parse it is the parse error; the contents f and 0,f give 4 and
    ff,ff gives 16. *)
Theorem C8_getCPUCount_popcount (sys : OS) (cache content : gostring) :
  ReadFile sys (filepath.Join [cache; str "/shared_cpu_map"]) = Ok content ->
  (forall ms : list Z,
      Forall2 (fun mask m => strconv.ParseUint (strings.TrimSpace mask) 16 64 = (m, None))
              (strings.Split content ",") ms ->
      Z.of_nat (length (strings.Split content ",")) < 2 ^ 57 ->
      getCPUCount sys cache = Ok (sumPopcount ms))
  /\ (Exists (fun mask => snd (strconv.ParseUint (strings.TrimSpace mask) 16 64) <> None)
             (strings.Split content ",") ->
      exists e, getCPUCount sys cache = Err (ErrParseCPUMap content e))
  /\ (content = str "f" -> getCPUCount sys cache = Ok 4)
  /\ (content = str "0,f" -> getCPUCount sys cache = Ok 4)
  /\ (content = str "ff,ff" -> getCPUCount sys cache = Ok 16).
Proof.
  intros Hread. unfold getCPUCount. rewrite Hread. cbn [bind]. repeat split.
  - intros ms Hms Hlen. rewrite (cpuCountLoop_ok content _ ms 0 Hms); [done|lia|lia].
  - apply cpuCountLoop_err.
  - intros ->. reflexivity.
  - intros ->. reflexivity.
  - intros ->. reflexivity.
Qed.

Lemma C8_getCPUCount_popcount_witness :
  getCPUCount (memOS (cacheTree (str "ff,ff" ++ [LF]))) cachePath = Ok 16.
Proof.
  refine (proj1 (C8_getCPUCount_popcount
                   (memOS (cacheTree (str "ff,ff" ++ [LF]))) cachePath
                   (str "ff,ff" ++ [LF]) _)
                [255; 255] _ _).
  - vm_compute; reflexivity.
  - repeat constructor; vm_compute; reflexivity.
  - vm_compute; reflexivity.
Defined.

(** ** CPU id extraction *)

Lemma takeDigits_app (ds post : gostring) :
  forallb strconv.isDigit ds = true -> startsDigit post = false ->
  regexp.takeDigits (ds ++ post) = ds.
Proof.
  intros Hds Hpost. induction ds as [|c ds IH]; cbn [app regexp.takeDigits].
  - destruct post as [|p post]; [done|]. cbn [startsDigit] in Hpost.
    cbn [regexp.takeDigits]. now rewrite Hpost.
  - cbn [forallb] in Hds. apply andb_prop in Hds as [-> Hds]. now rewrite IH.
Qed.

(** A place of the text where the expression does not match still does
    not match when the text goes on with a byte that is neither a digit
    nor p nor u. *)
Lemma matchHere_app_none (x rest : gostring) (r : ascii) :
  x <> [] -> regexp.matchHere x = None ->
  strconv.isDigit r = false -> r <> "p"%char -> r <> "u"%char ->
  regexp.matchHere (x ++ r :: rest) = None.
Proof.
  intros Hx Hnone Hr Hp Hu.
  destruct x as [|a [|b [|c x]]]; [done| | |]; cbn [app regexp.matchHere].
  - destruct rest as [|r' rest]; [done|].
    destruct (Ascii.eqb_spec r "p"); [done|]. now rewrite andb_false_r.
  - destruct (Ascii.eqb_spec r "u"); [done|]. now rewrite andb_false_r.
  - cbn [regexp.matchHere] in Hnone.
    destruct (Ascii.eqb a "c" && Ascii.eqb b "p" && Ascii.eqb c "u"); [|done].
    destruct x as [|d x]; cbn [app regexp.takeDigits] in *.
    + now rewrite Hr.
    + destruct (strconv.isDigit d); [discriminate|done].
Qed.

Lemma FindStringSubmatch_skip (pre rest : gostring) (r : ascii) :
  regexp.FindStringSubmatch pre = [] ->
  strconv.isDigit r = false -> r <> "p"%char -> r <> "u"%char ->
  regexp.FindStringSubmatch (pre ++ r :: rest) = regexp.FindStringSubmatch (r :: rest).
Proof.
  intros Hpre Hr Hp Hu. induction pre as [|a pre IH]; [reflexivity|].
  cbn [regexp.FindStringSubmatch] in Hpre.
  destruct (regexp.matchHere (a :: pre)) eqn:Hm; [discriminate|].
  change ((a :: pre) ++ r :: rest) with (a :: (pre ++ r :: rest)).
  cbn [regexp.FindStringSubmatch].
  change (a :: (pre ++ r :: rest)) with ((a :: pre) ++ r :: rest).
  rewrite (matchHere_app_none (a :: pre) rest r) by done.
  now apply IH.
Qed.

Lemma atoiLoop_digits (s0 s : gostring) (n : Z) :
  forallb strconv.isDigit s = true ->
  strconv.atoiLoop s0 s n = (decimalFrom n s, None).
Proof.
  revert n. induction s as [|c s IH]; intros n Hs; [reflexivity|].
  cbn [forallb] in Hs. apply andb_prop in Hs as [Hc Hs]. apply isDigit_code in Hc.
  cbn [strconv.atoiLoop]. rewrite decimalFrom_cons.
  rewrite Z.mod_small by lia.
  destruct (Z.gtb_spec (code c - 48) 9); [lia|].
  replace (n * 10) with (10 * n) by lia. now apply IH.
Qed.

(** Atoi on a run of digits whose value fits an int. *)
Lemma Atoi_digits (ds : gostring) :
  isDigits ds = true -> decimal ds <= 2 ^ 63 - 1 ->
  strconv.Atoi ds = (decimal ds, None).
Proof.
  intros Hds Hmax. pose proof (isDigits_forallb ds Hds) as Hall.
  pose proof (decimal_nonneg ds Hall) as Hpos.
  destruct ds as [|c ds]; [discriminate|].
  assert (Hc : strconv.isDigit c = true) by now apply andb_prop in Hall as [? _].
  assert (Hminus : Ascii.eqb c "-" = false).
  { destruct (Ascii.eqb_spec c "-") as [->|]; [discriminate|done]. }
  assert (Hplus : Ascii.eqb c "+" = false).
  { destruct (Ascii.eqb_spec c "+") as [->|]; [discriminate|done]. }
  unfold strconv.Atoi. case_match.
  - rewrite Hminus, Hplus. cbn [orb andb].
    rewrite atoiLoop_digits by done. reflexivity.
  - unfold strconv.ParseInt. rewrite Hminus, Hplus. cbn [orb negb andb].
    assert (Hp : strconv.ParseUint (c :: ds) 10 0
                 = strconv.parseLoop (c :: ds) 10 (strconv.maxUint64 / 10 + 1)
                                     strconv.maxUint64 (c :: ds) 0) by reflexivity.
    rewrite Hp, parseLoop_digits; [|done|lia| |done].
    + fold (decimal (c :: ds)).
      change (Z.shiftl 1 (strconv.IntSize - 1)) with (2 ^ 63).
      destruct (Z.geb_spec (decimal (c :: ds)) (2 ^ 63)); [lia|].
      f_equal. unfold strconv.i64. rewrite Z.mod_small; lia.
    + fold (decimal (c :: ds)). unfold strconv.maxUint64. lia.
Qed.

(** getCPUID on a path whose leftmost cpu<digits> is followed by a
    byte that is not a digit, or by nothing. *)
Lemma getCPUID_spec (pre ds post : gostring) :
  regexp.FindStringSubmatch pre = [] ->
  isDigits ds = true -> startsDigit post = false ->
  decimal ds <= 2 ^ 63 - 1 ->
  getCPUID (pre ++ str "cpu" ++ ds ++ post) = Ok (u16 (decimal ds)).
Proof.
  intros Hpre Hds Hpost Hmax. unfold getCPUID.
  change (str "cpu" ++ ds ++ post) with ("c"%char :: "p"%char :: "u"%char :: ds ++ post).
  rewrite FindStringSubmatch_skip by done.
  cbn [regexp.FindStringSubmatch regexp.matchHere Ascii.eqb Bool.eqb andb].
  rewrite (takeDigits_app ds post (isDigits_forallb ds Hds) Hpost).
  destruct ds as [|c ds]; [discriminate|]. cbn [length Nat.eqb nth].
  now rewrite (Atoi_digits (c :: ds) Hds Hmax).
Qed.

(** C10, as amended: for a path whose cpu<N> segment is the leftmost
    place where cpu is followed by a digit, N a run of decimal digits
    ended by the end of the path or by a byte that is not a digit, with
    65536 <= N <= 2^63 - 1 (the largest int of the 64-bit targets),
    getCPUID succeeds and returns N modulo 65536: the value is
    truncated to uint16, there is no range error. *)
Theorem C10_getCPUID_truncates (pre ds post : gostring) :
  regexp.FindStringSubmatch pre = [] ->
  isDigits ds = true -> startsDigit post = false ->
  65536 <= decimal ds <= 2 ^ 63 - 1 ->
  getCPUID (pre ++ str "cpu" ++ ds ++ post) = Ok (decimal ds mod 65536).
Proof.
  intros Hpre Hds Hpost [_ Hmax]. now apply getCPUID_spec.
Qed.

Lemma C10_getCPUID_truncates_witness :
  getCPUID (str "/sys/devices/system/cpu/cpu70000") = Ok 4464.
Proof.
  apply (C10_getCPUID_truncates (str "/sys/devices/system/cpu/") (str "70000") []);
    [vm_compute; reflexivity|vm_compute; reflexivity|vm_compute; reflexivity|].
  split; vm_compute; discriminate.
Defined.

(** C10 as stated fails: the path /srv/cpu1/sys/devices/system/cpu/cpu70000
    has the segment cpu70000 with 65536 <= 70000 <= 2^63 - 1, but the
    expression is matched against the whole path and its leftmost match
    is cpu1: getCPUID returns 1, not 70000 modulo 65536 = 4464. *)
Lemma C10_counterexample :
  let path := str "/srv/cpu1/sys/devices/system/cpu/cpu70000" in
  In (str "cpu" ++ str "70000") (strings.Split path "/")
  /\ 65536 <= decimal (str "70000") <= 2 ^ 63 - 1
  /\ getCPUID path = Ok 1
  /\ getCPUID path <> Ok (decimal (str "70000") mod 65536).
Proof.
  cbv zeta. split; [|split; [|split]].
  - vm_compute. tauto.
  - vm_compute. split; discriminate.
  - vm_compute. reflexivity.
  - vm_compute. discriminate.
Qed.

(** ** The existence shortcut of IsCPUOnline *)

(** C6: when the online file next to the CPU directory does not exist
    (os.Stat on its path answers an error that os.IsNotExist accepts),
    IsCPUOnline returns true, for every CPU path: whether or not a CPU
    id can be extracted from it, and whatever a read of the file would
    give, neither is looked at. *)
Theorem C6_IsCPUOnline_no_online_file (sys : OS) (fs : relocatableSysFs)
        (cpuPath onlinePath : gostring) (e : error) :
  filepath.Abs sys (filepath.Join [root fs; cpuPath ++ str "/../online"]) = Ok onlinePath ->
  Stat sys onlinePath = Err e -> IsNotExist e = true ->
  IsCPUOnline sys fs cpuPath = true.
Proof.
  intros Habs Hstat Hne. unfold IsCPUOnline. rewrite Habs, Hstat.
  cbn [errOf isNotExist]. rewrite Hne. reflexivity.
Qed.

Lemma C6_IsCPUOnline_no_online_file_witness :
  IsCPUOnline (memOS (busTree fourCPUs)) (NewRelocatableSysFs [])
              (str "/sys/devices/system/cpu/cpu3") = true
  /\ IsCPUOnline (memOS (busTree fourCPUs)) (NewRelocatableSysFs [])
                 (str "/sys/devices/system/cpu/cpufreq") = true.
Proof.
  split.
  - apply (C6_IsCPUOnline_no_online_file
             (memOS (busTree fourCPUs)) (NewRelocatableSysFs [])
             (str "/sys/devices/system/cpu/cpu3") onlineFile
             (PathError true onlineFile)); vm_compute; reflexivity.
  - apply (C6_IsCPUOnline_no_online_file
             (memOS (busTree fourCPUs)) (NewRelocatableSysFs [])
             (str "/sys/devices/system/cpu/cpufreq") onlineFile
             (PathError true onlineFile)); vm_compute; reflexivity.
Defined.

(** ** The system UUID *)

(** C7, as amended: GetSystemUUID tries the DMI product_uuid, the
    device-tree system-id, the device-tree vm,uuid and the machine-id
    file in this order and answers from the first that can be read; the
    two device-tree sources have their trailing NUL bytes and then the
    surrounding white space trimmed, the DMI and machine-id sources the
    white space only; when no source can be read the error is that of
    the machine-id read.  With no DMI file and a system-id holding ABC
    and two NUL bytes the result is ABC. *)
Theorem C7_GetSystemUUID_chain (sys : OS) (fs : relocatableSysFs) :
  let dmi := ReadFile sys (filepath.Join [root fs; dmiDir; str "id"; str "product_uuid"]) in
  let systemID := ReadFile sys (filepath.Join [root fs; ppcDevTree; str "system-id"]) in
  let vmUUID := ReadFile sys (filepath.Join [root fs; ppcDevTree; str "vm,uuid"]) in
  let machineID := ReadFile sys (filepath.Join [root fs; s390xDevTree; str "machine-id"]) in
  (forall id, dmi = Ok id -> GetSystemUUID sys fs = Ok (strings.TrimSpace id))
  /\ (forall id, is_ok dmi = false -> systemID = Ok id ->
                 GetSystemUUID sys fs = Ok (trimUUID id))
  /\ (forall id, is_ok dmi = false -> is_ok systemID = false -> vmUUID = Ok id ->
                 GetSystemUUID sys fs = Ok (trimUUID id))
  /\ (forall id, is_ok dmi = false -> is_ok systemID = false -> is_ok vmUUID = false ->
                 machineID = Ok id ->
                 GetSystemUUID sys fs = Ok (strings.TrimSpace id))
  /\ (forall err, is_ok dmi = false -> is_ok systemID = false -> is_ok vmUUID = false ->
                  machineID = Err err ->
                  GetSystemUUID sys fs = Err err)
  /\ (is_ok dmi = false -> systemID = Ok (str "ABC" ++ [zero; zero]) ->
      GetSystemUUID sys fs = Ok (str "ABC")).
Proof.
  cbn zeta. unfold GetSystemUUID, trimUUID.
  destruct (ReadFile sys (filepath.Join [root fs; dmiDir; str "id"; str "product_uuid"]));
    destruct (ReadFile sys (filepath.Join [root fs; ppcDevTree; str "system-id"]));
    destruct (ReadFile sys (filepath.Join [root fs; ppcDevTree; str "vm,uuid"]));
    destruct (ReadFile sys (filepath.Join [root fs; s390xDevTree; str "machine-id"]));
    cbn [is_ok]; repeat split; intros; simplify_eq; reflexivity.
Qed.

Lemma C7_GetSystemUUID_chain_witness :
  GetSystemUUID
    (memOS (rootTree [fileAt [str "proc"; str "device-tree"] (str "system-id")
                             (str "ABC" ++ [zero; zero])]))
    (NewRelocatableSysFs []) = Ok (str "ABC").
Proof.
  refine (proj2 (proj2 (proj2 (proj2 (proj2 (C7_GetSystemUUID_chain
            (memOS (rootTree [fileAt [str "proc"; str "device-tree"] (str "system-id")
                                     (str "ABC" ++ [zero; zero])]))
            (NewRelocatableSysFs [])))))) _ _); vm_compute; reflexivity.
Defined.

(** C7 as stated fails: a DMI product_uuid that ends in NUL bytes is
    returned with them, only white space is trimmed from that source. *)
Lemma C7_counterexample :
  let sys := memOS (rootTree [fileAt [str "sys"; str "class"; str "dmi"; str "id"]
                                     (str "product_uuid") (str "ABC" ++ [zero; zero])]) in
  ReadFile sys (filepath.Join [[]; dmiDir; str "id"; str "product_uuid"])
  = Ok (str "ABC" ++ [zero; zero])
  /\ trimUUID (str "ABC" ++ [zero; zero]) = str "ABC"
  /\ GetSystemUUID sys (NewRelocatableSysFs []) = Ok (str "ABC" ++ [zero; zero])
  /\ GetSystemUUID sys (NewRelocatableSysFs [])
     <> Ok (trimUUID (str "ABC" ++ [zero; zero])).
Proof. vm_compute. repeat split. discriminate. Qed.

(** ** Network devices *)

(** The mode test of the loop holds for every entry: a value or-ed with
    the non-zero ModeSymlink is not zero, so every entry is stat'ed. *)
Lemma mode_test_always (m : Z) : negb (Z.lor m ModeSymlink =? 0) = true.
Proof.
  destruct (Z.eqb_spec (Z.lor m ModeSymlink) 0) as [H|]; [|done].
  apply Z.lor_eq_0_iff in H as [_ H]. discriminate H.
Qed.

Lemma networkDeviceStep_spec (sys : OS) (fs : relocatableSysFs) (f : FileInfo) :
  statAgrees sys fs f = true ->
  networkDeviceStep sys fs f
  = if isNetworkDevice sys fs f
    then match Stat sys (netPath fs f) with Ok d => Some d | Err _ => None end
    else None.
Proof.
  unfold statAgrees, networkDeviceStep, isNetworkDevice. fold (netPath fs f).
  rewrite mode_test_always. intros H.
  destruct (isSymlink f); cbn [orb] in H.
  - destruct (Stat sys (netPath fs f)) as [d|]; [|done]. now destruct (IsDir d).
  - destruct (Stat sys (netPath fs f)) as [d|]; [|done].
    apply eqb_prop in H. rewrite <- H. now destruct (IsDir d).
Qed.

Lemma networkDeviceLoop_spec (sys : OS) (fs : relocatableSysFs)
      (files dirs : list FileInfo) :
  forallb (statAgrees sys fs) files = true ->
  exists found,
    networkDeviceLoop sys fs files dirs = dirs ++ found
    /\ Forall2 (fun d f => Stat sys (netPath fs f) = Ok d)
               found (List.filter (isNetworkDevice sys fs) files).
Proof.
  revert dirs. induction files as [|f files IH]; intros dirs Hall.
  - exists []. split; [now rewrite app_nil_r|constructor].
  - cbn [forallb] in Hall. apply andb_prop in Hall as [Hf Hall].
    cbn [networkDeviceLoop List.filter]. rewrite (networkDeviceStep_spec sys fs f Hf).
    pose proof Hf as Hagree. unfold statAgrees in Hagree.
    destruct (isNetworkDevice sys fs f) eqn:Hdev.
    + destruct (Stat sys (netPath fs f)) as [d|] eqn:Hstat.
      * destruct (IH (dirs ++ [d]) Hall) as (found & -> & Hfound).
        exists (d :: found). split; [now rewrite <- app_assoc|].
        now constructor.
      * exfalso. unfold isNetworkDevice in Hdev. rewrite Hstat in Hdev.
        destruct (isSymlink f); [done|]. cbn in Hagree. done.
    + destruct (IH dirs Hall) as (found & -> & Hfound). eauto.
Qed.

(** C9: over a listing of the network class directory in which os.Stat
    agrees with the listing on the entries that are not links,
    GetNetworkDevices returns, in the order of the listing, exactly the
    entries that are directories or symbolic links whose target is a
    directory, each as os.Stat describes it; a regular file is left
    out, a link is in exactly when following it reaches a directory. *)
Theorem C9_GetNetworkDevices_directories (sys : OS) (fs : relocatableSysFs)
        (files : list FileInfo) :
  ReadDir sys (filepath.Join [root fs; netDir]) = Ok files ->
  forallb (statAgrees sys fs) files = true ->
  exists dirs,
    GetNetworkDevices sys fs = Ok dirs
    /\ Forall2 (fun d f => Stat sys (netPath fs f) = Ok d)
               dirs (List.filter (isNetworkDevice sys fs) files)
    /\ (forall f, In f files -> isSymlink f = false -> IsDir f = false ->
                  isNetworkDevice sys fs f = false)
    /\ (forall f, In f files -> isSymlink f = true ->
                  (isNetworkDevice sys fs f = true
                   <-> exists target, Stat sys (netPath fs f) = Ok target
                                      /\ IsDir target = true)).
Proof.
  intros Hread Hall. unfold GetNetworkDevices. rewrite Hread. cbn [bind].
  destruct (networkDeviceLoop_spec sys fs files [] Hall) as (found & -> & Hfound).
  exists found. split; [done|]. split; [done|]. split.
  - intros f _ Hl Hd. unfold isNetworkDevice. now rewrite Hl.
  - intros f _ Hl. unfold isNetworkDevice. rewrite Hl. split.
    + destruct (Stat sys (netPath fs f)) as [t|]; [eauto|done].
    + now intros (t & -> & Ht).
Qed.

Lemma C9_GetNetworkDevices_directories_witness :
  exists dirs,
    GetNetworkDevices (memOS netTree) (NewRelocatableSysFs []) = Ok dirs
    /\ map Name dirs = [str "eth0"; str "lo"].
Proof.
  destruct (C9_GetNetworkDevices_directories
              (memOS netTree) (NewRelocatableSysFs [])
              [ {| Name := str "bonding_masters"; Mode := 420 |};
                {| Name := str "eth0"; Mode := 134218239 |};
                {| Name := str "gone"; Mode := 134218239 |};
                {| Name := str "lo"; Mode := 2147484141 |} ])
    as (dirs & Hdirs & _); [vm_compute; reflexivity|vm_compute; reflexivity|].
  exists dirs. split; [exact Hdirs|].
  vm_compute in Hdirs. injection Hdirs as <-. vm_compute. reflexivity.
Defined.

(** ** Counting unique topology properties *)

(** One turn of the counting loop for a path whose CPU id is extracted,
    whose CPU counts as online and whose two topology files are read:
    the key is added and the loop goes on. *)
Lemma uniqueLoop_step (sys : OS) (onlinePath property path value package : gostring)
      (rest : list gostring) (uniques : gset gostring) (cpuID : Z) :
  getCPUID path = Ok cpuID ->
  reportedOnline (isCPUOnline sys onlinePath cpuID) = true ->
  topologyIs sys path property value = true ->
  topologyIs sys path CPUPhysicalPackageID package = true ->
  uniqueLoop sys onlinePath property (path :: rest) uniques
  = uniqueLoop sys onlinePath property rest
               ({[ value ++ str "_" ++ package ]} ∪ uniques).
Proof.
  intros Hid Hon Hval Hpkg. cbn [uniqueLoop]. rewrite Hid.
  unfold topologyIs in Hval, Hpkg.
  destruct (ReadFile sys (filepath.Join [path; sysFsCPUTopology; property]))
    as [v|]; [|done].
  destruct (ReadFile sys (filepath.Join [path; sysFsCPUTopology; CPUPhysicalPackageID]))
    as [w|]; [|done].
  apply bool_decide_eq_true in Hval as ->. apply bool_decide_eq_true in Hpkg as ->.
  destruct (isCPUOnline sys onlinePath cpuID) as [[|]|e]; cbn in Hon |- *; try done.
  rewrite Hon. cbn. reflexivity.
Qed.

(** A path without CPU id ends the count with 0, wherever it stands in
    the enumeration. *)
Lemma uniqueLoop_abort (sys : OS) (onlinePath property : gostring)
      (paths : list gostring) (uniques : gset gostring) :
  Exists (fun p => is_ok (getCPUID p) = false) paths ->
  uniqueLoop sys onlinePath property paths uniques = 0.
Proof.
  intros H. revert uniques. induction paths as [|p paths IH]; intros uniques.
  - inversion H.
  - cbn [uniqueLoop]. destruct (getCPUID p) as [cpuID|] eqn:Hid; [|reflexivity].
    apply Exists_cons in H as [H|H]; [rewrite Hid in H; discriminate|].
    specialize (IH H). destruct (onlinePair _) as [isOnline err].
    repeat case_match; apply IH.
Qed.





(** C3, as amended: when CPU-id extraction fails for an enumerated
    path, GetUniqueCPUPropertyCount stops there and returns 0, whatever
    the other paths hold and whatever was counted before; the path is
    not skipped. *)
Theorem C3_GetUniqueCPUPropertyCount_aborts (sys : OS)
        (cpuBusPath propertyName absBus : gostring) (paths : list gostring) :
  filepath.Abs sys cpuBusPath = Ok absBus ->
  Glob sys (absBus ++ str "/cpu*[0-9]") = Ok paths ->
  Exists (fun p => is_ok (getCPUID p) = false) paths ->
  GetUniqueCPUPropertyCount sys cpuBusPath propertyName = 0.
Proof.
  intros Habs Hglob Hbad. unfold GetUniqueCPUPropertyCount. rewrite Habs, Hglob.
  destruct (filepath.Abs sys (cpuBusPath ++ str "/online")); [|reflexivity].
  now apply uniqueLoop_abort.
Qed.

Lemma C3_GetUniqueCPUPropertyCount_aborts_witness :
  GetUniqueCPUPropertyCount
    (memOS (busTree (fourCPUs ++ [cpuDir (str "cpufreq0") [] []]))) cpuBus CPUCoreID = 0.
Proof.
  apply (C3_GetUniqueCPUPropertyCount_aborts
           (memOS (busTree (fourCPUs ++ [cpuDir (str "cpufreq0") [] []])))
           cpuBus CPUCoreID cpuBus
           (map (cpuPathOf cpuBus) [str "0"; str "1"; str "2"; str "3"]
              ++ [cpuBus ++ str "/cpufreq0"]));
    [vm_compute; reflexivity|vm_compute; reflexivity|].
  apply Exists_app. right. apply Exists_cons_hd. vm_compute. reflexivity.
Defined.

(** C3 as stated fails: with cpu0..cpu3 and cpufreq0 under the bus path
    the glob yields five paths, no CPU id can be extracted from the
    last, and the result is 0, not the 2 that the count over the four
    remaining paths gives. *)
Lemma C3_counterexample :
  let sys := memOS (busTree (fourCPUs ++ [cpuDir (str "cpufreq0") [] []])) in
  let paths := map (cpuPathOf cpuBus) [str "0"; str "1"; str "2"; str "3"]
                   ++ [cpuBus ++ str "/cpufreq0"] in
  Glob sys (cpuBus ++ str "/cpu*[0-9]") = Ok paths
  /\ is_ok (getCPUID (cpuBus ++ str "/cpufreq0")) = false
  /\ withCPUID paths = map (cpuPathOf cpuBus) [str "0"; str "1"; str "2"; str "3"]
  /\ uniqueLoop sys onlineFile CPUCoreID (withCPUID paths) ∅ = 2
  /\ GetUniqueCPUPropertyCount sys cpuBus CPUCoreID = 0
  /\ GetUniqueCPUPropertyCount sys cpuBus CPUCoreID
     <> uniqueLoop sys onlineFile CPUCoreID (withCPUID paths) ∅.
Proof. vm_compute. repeat split. discriminate. Qed.

(** * Further properties of the package *)

(** ** strconv at 64 bits *)

(** On a run of decimal digits the loop of ParseUint with the 64-bit
    bound computes the value when it fits and answers a range error
    when it does not: the cutoff and the wrap test catch every
    overflow. *)
Lemma parseLoop_digits64 (s0 ds : gostring) (n : Z) :
  forallb strconv.isDigit ds = true -> 0 <= n <= strconv.maxUint64 ->
  strconv.parseLoop s0 10 (strconv.maxUint64 / 10 + 1) strconv.maxUint64 ds n
  = if decimalFrom n ds <=? strconv.maxUint64 then (decimalFrom n ds, None)
    else (strconv.maxUint64, Some (NumError (str "ParseUint") s0 ErrRange)).
Proof.
  revert n. induction ds as [|c ds IH]; intros n Hds Hn.
  - cbn [strconv.parseLoop decimalFrom fold_left].
    destruct (Z.leb_spec n strconv.maxUint64); [reflexivity|lia].
  - cbn [forallb] in Hds. apply andb_prop in Hds as [Hc Hds].
    rewrite decimalFrom_cons.
    pose proof (proj1 (isDigit_code c) Hc) as Hcode.
    pose proof (decimalFrom_mono ds (10 * n + (code c - 48)) Hds ltac:(lia)) as Hm.
    cbn [strconv.parseLoop]. rewrite (digitVal_digit c Hc).
    change strconv.maxUint64 with 18446744073709551615 in *.
    change (18446744073709551615 / 10 + 1) with 1844674407370955162 in *.
    destruct (Z.geb_spec (code c - 48) 10); [lia|].
    destruct (Z.geb_spec n 1844674407370955162).
    { destruct (Z.leb_spec (decimalFrom (10 * n + (code c - 48)) ds)
                           18446744073709551615); [lia|reflexivity]. }
    unfold strconv.u64. rewrite (Z.mod_small (n * 10)) by lia.
    destruct (Z_lt_le_dec (n * 10 + (code c - 48)) (2 ^ 64)) as [Hfit|Hwrap].
    + rewrite (Z.mod_small (n * 10 + (code c - 48))) by lia.
      destruct (Z.ltb_spec (n * 10 + (code c - 48)) (n * 10)); [lia|].
      destruct (Z.gtb_spec (n * 10 + (code c - 48)) 18446744073709551615); [lia|].
      cbn [orb]. replace (n * 10) with (10 * n) by lia. apply IH; [done|lia].
    + assert (Hmod : (n * 10 + (code c - 48)) mod 2 ^ 64
                     = n * 10 + (code c - 48) - 2 ^ 64).
      { symmetry. apply (Z.mod_unique _ _ 1); lia. }
      rewrite Hmod.
      destruct (Z.ltb_spec (n * 10 + (code c - 48) - 2 ^ 64) (n * 10)); [|lia].
      cbn [orb].
      destruct (Z.leb_spec (decimalFrom (10 * n + (code c - 48)) ds)
                           18446744073709551615); [lia|reflexivity].
Qed.

Lemma ParseUint_digits64 (ds : gostring) (bitSize : Z) :
  isDigits ds = true -> bitSize = 0 \/ bitSize = 64 ->
  strconv.ParseUint ds 10 bitSize
  = if decimal ds <=? strconv.maxUint64 then (decimal ds, None)
    else (strconv.maxUint64, Some (NumError (str "ParseUint") ds ErrRange)).
Proof.
  intros Hds Hbits. pose proof (isDigits_forallb ds Hds) as Hall.
  destruct ds as [|c ds]; [discriminate|].
  assert (Hp : strconv.ParseUint (c :: ds) 10 bitSize
               = strconv.parseLoop (c :: ds) 10 (strconv.maxUint64 / 10 + 1)
                                   strconv.maxUint64 (c :: ds) 0)
    by (destruct Hbits as [-> | ->]; reflexivity).
  rewrite Hp. apply parseLoop_digits64; [done|]. unfold strconv.maxUint64. lia.
Qed.

(** A run of k digits denotes a number below 10^k. *)
Lemma decimalFrom_bound (ds : gostring) (n : Z) :
  forallb strconv.isDigit ds = true -> 0 <= n ->
  decimalFrom n ds < (n + 1) * 10 ^ Z.of_nat (length ds).
Proof.
  revert n. induction ds as [|c ds IH]; intros n Hds Hn.
  - cbn. lia.
  - cbn [forallb] in Hds. apply andb_prop in Hds as [Hc Hds].
    apply isDigit_code in Hc. rewrite decimalFrom_cons. cbn [length].
    rewrite Nat2Z.inj_succ, Z.pow_succ_r by lia.
    specialize (IH (10 * n + (code c - 48)) Hds ltac:(lia)).
    assert (0 < 10 ^ Z.of_nat (length ds)) by (apply Z.pow_pos_nonneg; lia).
    nia.
Qed.

Lemma ParseUint_error_form (s : gostring) (base bitSize v : Z) (e : error) :
  strconv.ParseUint s base bitSize = (v, Some e) ->
  exists k, e = NumError (str "ParseUint") s k.
Proof.
  unfold strconv.ParseUint. repeat case_match; intros ?; simplify_eq; eauto.
  all: eapply parseLoop_error; eassumption.
Qed.

(** ** CPU id extraction, the other cases *)

(** Atoi on a run of digits too large for an int. *)
Lemma Atoi_digits_range (ds : gostring) :
  isDigits ds = true -> 2 ^ 63 <= decimal ds ->
  strconv.Atoi ds = (2 ^ 63 - 1, Some (NumError (str "Atoi") ds ErrRange)).
Proof.
  intros Hds Hbig. pose proof (isDigits_forallb ds Hds) as Hall.
  pose proof (decimalFrom_bound ds 0 Hall ltac:(lia)) as Hlen. fold (decimal ds) in Hlen.
  assert (Hlong : ~ Z.of_nat (length ds) < 19).
  { intros Hshort.
    assert (10 ^ Z.of_nat (length ds) <= 10 ^ 18) by (apply Z.pow_le_mono_r; lia).
    change (10 ^ 18) with 1000000000000000000 in *.
    change (2 ^ 63) with 9223372036854775808 in *. lia. }
  unfold strconv.Atoi.
  destruct (Z.ltb_spec (Z.of_nat (length ds)) 19); [done|]. rewrite andb_false_r.
  destruct ds as [|c ds]; [discriminate|].
  assert (Hc : strconv.isDigit c = true) by now apply andb_prop in Hall as [? _].
  assert (Hminus : Ascii.eqb c "-" = false).
  { destruct (Ascii.eqb_spec c "-") as [->|]; [discriminate|done]. }
  assert (Hplus : Ascii.eqb c "+" = false).
  { destruct (Ascii.eqb_spec c "+") as [->|]; [discriminate|done]. }
  unfold strconv.ParseInt. rewrite Hminus, Hplus. cbn [orb negb andb].
  rewrite (ParseUint_digits64 (c :: ds) 0 Hds (or_introl eq_refl)).
  change (Z.shiftl 1 (strconv.IntSize - 1)) with (2 ^ 63).
  destruct (Z.leb_spec (decimal (c :: ds)) strconv.maxUint64).
  - destruct (Z.geb_spec (decimal (c :: ds)) (2 ^ 63)); [reflexivity|lia].
  - reflexivity.
Qed.

(** X1: for a path whose leftmost cpu<N> has N at most 65535 (N ended
    by a non-digit or by the end of the path, leading zeros allowed),
    getCPUID returns N itself. *)
Theorem X1_getCPUID_exact (pre ds post : gostring) :
  regexp.FindStringSubmatch pre = [] ->
  isDigits ds = true -> startsDigit post = false ->
  decimal ds <= 65535 ->
  getCPUID (pre ++ str "cpu" ++ ds ++ post) = Ok (decimal ds).
Proof.
  intros Hpre Hds Hpost Hmax.
  rewrite getCPUID_spec by (try done; lia).
  rewrite u16_small; [done|].
  pose proof (decimal_nonneg ds (isDigits_forallb ds Hds)). lia.
Qed.

Lemma X1_getCPUID_exact_witness :
  getCPUID (str "/sys/devices/system/cpu/cpu0012/topology") = Ok 12.
Proof.
  apply (X1_getCPUID_exact (str "/sys/devices/system/cpu/") (str "0012")
                           (str "/topology")); vm_compute; first [reflexivity | discriminate].
Defined.

(** X2: when the number after the leftmost cpu does not fit an int
    (N >= 2^63), getCPUID fails with the range error of strconv.Atoi;
    it does not truncate as it does for smaller numbers. *)
Theorem X2_getCPUID_range_error (pre ds post : gostring) :
  regexp.FindStringSubmatch pre = [] ->
  isDigits ds = true -> startsDigit post = false ->
  2 ^ 63 <= decimal ds ->
  getCPUID (pre ++ str "cpu" ++ ds ++ post) = Err (NumError (str "Atoi") ds ErrRange).
Proof.
  intros Hpre Hds Hpost Hbig. unfold getCPUID.
  change (str "cpu" ++ ds ++ post) with ("c"%char :: "p"%char :: "u"%char :: ds ++ post).
  rewrite FindStringSubmatch_skip by done.
  cbn [regexp.FindStringSubmatch regexp.matchHere Ascii.eqb Bool.eqb andb].
  rewrite (takeDigits_app ds post (isDigits_forallb ds Hds) Hpost).
  destruct ds as [|c ds]; [discriminate|]. cbn [length Nat.eqb nth].
  now rewrite (Atoi_digits_range (c :: ds) Hds Hbig).
Qed.

Lemma X2_getCPUID_range_error_witness :
  getCPUID (str "/sys/devices/system/cpu/cpu9223372036854775808")
  = Err (NumError (str "Atoi") (str "9223372036854775808") ErrRange).
Proof.
  apply (X2_getCPUID_range_error (str "/sys/devices/system/cpu/")
                                 (str "9223372036854775808") []);
    vm_compute; first [reflexivity | discriminate].
Defined.

Lemma matchHere_Some (s : gostring) :
  regexp.matchHere s <> None
  <-> exists d b, s = str "cpu" ++ d :: b /\ strconv.isDigit d = true.
Proof.
  split.
  - destruct s as [|x [|y [|z s]]]; try done. cbn [regexp.matchHere].
    destruct (Ascii.eqb_spec x "c") as [->|]; [|done].
    destruct (Ascii.eqb_spec y "p") as [->|]; [|done].
    destruct (Ascii.eqb_spec z "u") as [->|]; [|done].
    cbn [andb]. destruct s as [|d b]; [done|]. cbn [regexp.takeDigits].
    destruct (strconv.isDigit d) eqn:Hd; [|done]. intros _. now exists d, b.
  - intros (d & b & -> & Hd). cbn. now rewrite Hd.
Qed.

Lemma FindStringSubmatch_nil (p : gostring) :
  regexp.FindStringSubmatch p = [] <-> ~ hasCPUDigit p.
Proof.
  induction p as [|c p IH].
  - split; [|done]. intros _ (a & d & b & H & _). now destruct a.
  - cbn [regexp.FindStringSubmatch].
    destruct (regexp.matchHere (c :: p)) as [ds|] eqn:Hm.
    + split; [done|]. intros Hno. exfalso. apply Hno.
      assert (Hsome : regexp.matchHere (c :: p) <> None) by now rewrite Hm.
      apply matchHere_Some in Hsome as (d & b & Heq & Hd). now exists [], d, b.
    + rewrite IH. split.
      * intros Hno (a & d & b & Heq & Hd). destruct a as [|c' a].
        -- assert (Hsome : regexp.matchHere (c :: p) <> None)
             by (apply matchHere_Some; now exists d, b).
           now rewrite Hm in Hsome.
        -- injection Heq as -> ->. apply Hno. now exists a, d, b.
      * intros Hno (a & d & b & -> & Hd). apply Hno. now exists (c :: a), d, b.
Qed.

Lemma Atoi_error_form (s : gostring) (v : Z) (e : error) :
  strconv.Atoi s = (v, Some e) -> exists fn input k, e = NumError fn input k.
Proof.
  assert (Hloop : forall s0 s n v e, strconv.atoiLoop s0 s n = (v, Some e) ->
                                     exists fn input k, e = NumError fn input k).
  { intros s0 s'. induction s' as [|c s' IH]; intros n v' e'; cbn [strconv.atoiLoop]; [done|].
    case_match; [intros ?; simplify_eq; eauto|apply IH]. }
  unfold strconv.Atoi, strconv.ParseInt.
  repeat case_match; intros ?; simplify_eq; eauto.
  all: try (match goal with
            | H : strconv.ParseUint _ _ _ = (_, Some _) |- _ =>
              destruct (ParseUint_error_form _ _ _ _ _ H) as [? ?]; simplify_eq
            end).
Qed.

Lemma FindStringSubmatch_shape (p : gostring) :
  regexp.FindStringSubmatch p = []
  \/ exists whole ds, regexp.FindStringSubmatch p = [whole; ds].
Proof.
  induction p as [|c p IH]; [now left|]. cbn [regexp.FindStringSubmatch].
  destruct (regexp.matchHere (c :: p)); [right; eauto|exact IH].
Qed.

(** X3: getCPUID fails with its own can't-get-CPU-ID error exactly on
    the paths in which cpu is nowhere followed by a decimal digit; a
    path such as .../cpufreq or .../cpuidle is one. *)
Theorem X3_getCPUID_no_match (dir : gostring) :
  getCPUID dir = Err (ErrNoCPUID dir) <-> ~ hasCPUDigit dir.
Proof.
  rewrite <- FindStringSubmatch_nil. unfold getCPUID. split.
  - destruct (FindStringSubmatch_shape dir) as [->|(whole & ds & ->)]; [done|].
    cbn [length Nat.eqb nth].
    destruct (strconv.Atoi ds) as [v [e|]] eqn:Ha; [|done].
    destruct (Atoi_error_form _ _ _ Ha) as (fn & input & k & ->). done.
  - intros ->. reflexivity.
Qed.

(** ** IsCPUOnline with an online file *)

Lemma isCPUOnline_render (sys : OS) (path : gostring)
      (ts : list token) (ws : gostring) (i : Z) :
  ts <> [] -> forallb wfToken ts = true ->
  forallb strings.asciiSpace ws = true ->
  0 <= i < 65536 ->
  ReadFile sys path = Ok (render ts ++ ws) ->
  isCPUOnline sys path i = Ok (existsb (tokenHas i) ts).
Proof.
  intros Hne Hwf Hws Hi Hread. unfold isCPUOnline. rewrite Hread. cbn [bind].
  pose proof (render_starts ts Hne Hwf) as Hs.
  pose proof (render_ends ts Hne Hwf) as He.
  destruct (render ts ++ ws) as [|c content] eqn:Hc.
  - destruct (render ts); [discriminate Hs|discriminate Hc].
  - cbn [length Nat.eqb]. rewrite <- Hc.
    rewrite (TrimSpace_tail _ _ Hs He Hws), (render_split ts Hne Hwf).
    now apply onlineLoop_wf.
Qed.

(** An online file that is blank makes isCPUOnline fail for every id,
    with an error that os.IsNotExist does not accept. *)
Lemma isCPUOnline_blank (sys : OS) (path content : gostring) (i : Z) :
  ReadFile sys path = Ok content -> strings.TrimSpace content = [] ->
  exists e, isCPUOnline sys path i = Err e /\ IsNotExist e = false.
Proof.
  intros Hread Htrim. unfold isCPUOnline. rewrite Hread. cbn [bind].
  destruct content as [|c content]; [cbn; eauto|].
  rewrite Htrim. cbn. eauto.
Qed.

(** X4: with an online file in place that holds a well-formed
    expression, IsCPUOnline on a path whose leftmost cpu<N> has
    N <= 2^63 - 1 answers whether the expression has N modulo 65536:
    the id is truncated to 16 bits before it is looked up, so cpu65536
    is answered as CPU 0. *)
Theorem X4_IsCPUOnline_listed (sys : OS) (fs : relocatableSysFs)
        (pre ds post onlinePath : gostring) (ts : list token) (ws : gostring) :
  filepath.Abs sys (filepath.Join [root fs; (pre ++ str "cpu" ++ ds ++ post)
                                              ++ str "/../online"]) = Ok onlinePath ->
  isNotExist (errOf (Stat sys onlinePath)) = false ->
  regexp.FindStringSubmatch pre = [] ->
  isDigits ds = true -> startsDigit post = false -> decimal ds <= 2 ^ 63 - 1 ->
  ts <> [] -> forallb wfToken ts = true -> forallb strings.asciiSpace ws = true ->
  ReadFile sys onlinePath = Ok (render ts ++ ws) ->
  IsCPUOnline sys fs (pre ++ str "cpu" ++ ds ++ post)
  = existsb (tokenHas (decimal ds mod 65536)) ts.
Proof.
  intros Habs Hstat Hpre Hds Hpost Hmax Hne Hwf Hws Hread.
  unfold IsCPUOnline. rewrite Habs. cbn zeta. rewrite Hstat, andb_false_r.
  rewrite getCPUID_spec by done.
  rewrite (isCPUOnline_render sys onlinePath ts ws); try done.
  unfold u16. apply Z.mod_pos_bound. lia.
Qed.

Lemma X4_IsCPUOnline_listed_witness :
  IsCPUOnline (memOS (onlineTree (str "0,3-5" ++ [LF]))) (NewRelocatableSysFs [])
              (str "/sys/devices/system/cpu/cpu4") = true
  /\ IsCPUOnline (memOS (onlineTree (str "0,3-5" ++ [LF]))) (NewRelocatableSysFs [])
                 (str "/sys/devices/system/cpu/cpu65536") = true
  /\ IsCPUOnline (memOS (onlineTree (str "0,3-5" ++ [LF]))) (NewRelocatableSysFs [])
                 (str "/sys/devices/system/cpu/cpu1") = false.
Proof.
  split; [|split].
  - apply (X4_IsCPUOnline_listed
             (memOS (onlineTree (str "0,3-5" ++ [LF]))) (NewRelocatableSysFs [])
             (str "/sys/devices/system/cpu/") (str "4") [] onlineFile
             [Single (str "0"); Range (str "3") (str "5")] [LF]);
      vm_compute; first [reflexivity | discriminate].
  - apply (X4_IsCPUOnline_listed
             (memOS (onlineTree (str "0,3-5" ++ [LF]))) (NewRelocatableSysFs [])
             (str "/sys/devices/system/cpu/") (str "65536") [] onlineFile
             [Single (str "0"); Range (str "3") (str "5")] [LF]);
      vm_compute; first [reflexivity | discriminate].
  - apply (X4_IsCPUOnline_listed
             (memOS (onlineTree (str "0,3-5" ++ [LF]))) (NewRelocatableSysFs [])
             (str "/sys/devices/system/cpu/") (str "1") [] onlineFile
             [Single (str "0"); Range (str "3") (str "5")] [LF]);
      vm_compute; first [reflexivity | discriminate].
Defined.

(** X5: an online file that exists but is empty or holds white space
    only makes IsCPUOnline answer false for every CPU path: the parse
    error is taken as offline, not as the all-online of a missing
    file. *)
Theorem X5_IsCPUOnline_blank_file (sys : OS) (fs : relocatableSysFs)
        (cpuPath onlinePath content : gostring) :
  filepath.Abs sys (filepath.Join [root fs; cpuPath ++ str "/../online"]) = Ok onlinePath ->
  isNotExist (errOf (Stat sys onlinePath)) = false ->
  ReadFile sys onlinePath = Ok content -> strings.TrimSpace content = [] ->
  IsCPUOnline sys fs cpuPath = false.
Proof.
  intros Habs Hstat Hread Htrim. unfold IsCPUOnline. rewrite Habs. cbn zeta.
  rewrite Hstat, andb_false_r.
  destruct (getCPUID cpuPath) as [cpuID|]; [|reflexivity].
  destruct (isCPUOnline_blank sys onlinePath content cpuID Hread Htrim) as (e & -> & _).
  reflexivity.
Qed.

Lemma X5_IsCPUOnline_blank_file_witness :
  IsCPUOnline (memOS (onlineTree [LF])) (NewRelocatableSysFs [])
              (str "/sys/devices/system/cpu/cpu0") = false.
Proof.
  apply (X5_IsCPUOnline_blank_file
           (memOS (onlineTree [LF])) (NewRelocatableSysFs [])
           (str "/sys/devices/system/cpu/cpu0") onlineFile [LF]);
    vm_compute; reflexivity.
Defined.

(** ** Paths *)

Lemma Split_nonempty (s : gostring) (sep : ascii) : strings.Split s sep <> [].
Proof.
  destruct s as [|a s]; [done|]. cbn [strings.Split].
  destruct (Ascii.eqb a sep); [done|]. now destruct (strings.Split s sep).
Qed.

(** Splitting at a separator splits what is before and what is after
    it. *)
Lemma Split_app_sep (a b : gostring) (sep : ascii) :
  strings.Split (a ++ sep :: b) sep = strings.Split a sep ++ strings.Split b sep.
Proof.
  induction a as [|x a IH]; cbn [app strings.Split].
  - now rewrite Ascii.eqb_refl.
  - destruct (Ascii.eqb x sep); [now rewrite IH|].
    rewrite IH. pose proof (Split_nonempty a sep).
    now destruct (strings.Split a sep).
Qed.

Lemma Split_joinWith_concat (l : list gostring) :
  l <> [] ->
  strings.Split (filepath.joinWith (str "/") l) "/"
  = concat (map (fun p => strings.Split p "/") l).
Proof.
  induction l as [|p l IH]; [done|]. intros _.
  destruct l as [|q l].
  - cbn [filepath.joinWith map concat]. now rewrite app_nil_r.
  - change (filepath.joinWith (str "/") (p :: q :: l))
      with (p ++ "/"%char :: filepath.joinWith (str "/") (q :: l)).
    rewrite Split_app_sep, IH by done. reflexivity.
Qed.

Lemma plainElem_step (rooted : bool) (kept : list gostring) (x : gostring) :
  plainElem x = true -> filepath.cleanStep rooted kept x = x :: kept.
Proof.
  unfold plainElem, filepath.cleanStep. intros H.
  apply andb_prop in H as [H _]. apply andb_prop in H as [H Hdd].
  apply andb_prop in H as [He Hd].
  apply negb_true_iff in He, Hd, Hdd. now rewrite He, Hd, Hdd.
Qed.

(** Over plain and empty elements the cleaning keeps the plain ones, in
    their order. *)
Lemma fold_clean_plain (rooted : bool) (l kept : list gostring) :
  forallb (fun e => eqb_str e [] || plainElem e) l = true ->
  fold_left (filepath.cleanStep rooted) l kept
  = rev (List.filter (fun e => negb (eqb_str e [])) l) ++ kept.
Proof.
  revert kept. induction l as [|e l IH]; intros kept Hl; [reflexivity|].
  cbn [forallb] in Hl. apply andb_prop in Hl as [He Hl].
  cbn [fold_left List.filter]. destruct (eqb_str e []) eqn:Hempty.
  - cbn [negb]. unfold filepath.cleanStep at 2. rewrite Hempty. cbn [orb]. now apply IH.
  - cbn [orb negb] in *. rewrite (plainElem_step rooted kept e He), IH by done.
    cbn [rev]. now rewrite <- app_assoc.
Qed.

(** An absolute path of plain elements cleans to its non-empty
    elements. *)
Lemma Clean_plain (p : gostring) :
  filepath.IsAbs p = true -> plainPath p = true ->
  filepath.Clean p = absPath (pathElems p).
Proof.
  intros Habs Hplain. unfold filepath.Clean, absPath, pathElems.
  rewrite Habs, fold_clean_plain by exact Hplain.
  now rewrite app_nil_r, rev_involutive.
Qed.

Lemma plainElem_no_sep (x : gostring) : plainElem x = true -> "/"%char ∉ x.
Proof.
  unfold plainElem. intros H. apply andb_prop in H as [_ H].
  rewrite forallb_forall in H. intros Hin. apply list_elem_of_In in Hin.
  specialize (H _ Hin). now rewrite Ascii.eqb_refl in H.
Qed.

Lemma plainElem_nonempty (x : gostring) : plainElem x = true -> eqb_str x [] = false.
Proof.
  unfold plainElem. intros H. apply andb_prop in H as [H _].
  apply andb_prop in H as [H _]. apply andb_prop in H as [H _].
  now apply negb_true_iff in H.
Qed.

Lemma Split_plainElem (x : gostring) :
  plainElem x = true -> strings.Split x "/" = [x].
Proof. intros H. now apply Split_no_sep, plainElem_no_sep. Qed.

Lemma absPath_split (elems : list gostring) :
  elems <> [] -> forallb plainElem elems = true ->
  strings.Split (absPath elems) "/" = [] :: elems.
Proof.
  intros Hne Hplain. unfold absPath. cbn [str list_ascii_of_string app strings.Split].
  cbn [Ascii.eqb Bool.eqb]. f_equal. change (str "/") with ["/"%char].
  apply Split_joinWith; [done|]. apply Forall_forall. intros x Hx.
  apply plainElem_no_sep. rewrite forallb_forall in Hplain.
  now apply Hplain, list_elem_of_In.
Qed.

Lemma filter_plain (elems : list gostring) :
  forallb plainElem elems = true ->
  List.filter (fun e => negb (eqb_str e [])) elems = elems.
Proof.
  induction elems as [|e elems IH]; [done|]. intros [He Hl]%andb_prop.
  cbn [List.filter]. rewrite (plainElem_nonempty e He). cbn [negb]. now rewrite IH.
Qed.

Lemma forallb_plain_weaken (elems : list gostring) :
  forallb plainElem elems = true ->
  forallb (fun e => eqb_str e [] || plainElem e) elems = true.
Proof.
  rewrite !forallb_forall. intros H x Hx. rewrite (H x Hx). apply orb_true_r.
Qed.

(** The path the readers build from a root and further parts: when the
    root is empty or an absolute path of plain elements and the parts
    have plain elements only, the result is the path of the root's
    elements followed by the parts' elements.  [first] is the part
    after the root, which starts with a separator in every reader. *)
Lemma Join_relocated (root first : gostring) (parts : list gostring)
      (elems : list gostring) :
  root = [] /\ elems = [] \/ root = absPath elems /\ forallb plainElem elems = true ->
  filepath.IsAbs first = true ->
  forallb plainPath (first :: parts) = true ->
  filepath.Join (root :: first :: parts)
  = absPath (elems ++ concat (map pathElems (first :: parts))).
Proof.
  intros Hroot Hfirst Hparts.
  assert (Hcat : forall l, forallb plainPath l = true ->
                 forallb (fun e => eqb_str e [] || plainElem e)
                         (concat (map (fun p => strings.Split p "/") l)) = true).
  { induction l as [|p l IH]; [done|]. intros [Hp Hl]%andb_prop.
    cbn [map concat]. rewrite forallb_app. unfold plainPath in Hp.
    now rewrite Hp, IH. }
  assert (Hfilter : forall l,
             List.filter (fun e => negb (eqb_str e []))
                         (concat (map (fun p => strings.Split p "/") l))
             = concat (map pathElems l)).
  { induction l as [|p l IH]; [done|]. cbn [map concat].
    now rewrite List.filter_app, IH. }
  destruct Hroot as [[-> ->]|[-> Helems]].
  - cbn [filepath.Join app]. destruct first as [|c first]; [discriminate|].
    rewrite Clean_plain.
    + unfold pathElems at 1. rewrite Split_joinWith_concat by done. now rewrite Hfilter.
    + destruct parts; exact Hfirst.
    + unfold plainPath. rewrite Split_joinWith_concat by done. now apply Hcat.
  - assert (Hjoin : filepath.Join (absPath elems :: first :: parts)
                    = filepath.Clean (filepath.joinWith (str "/")
                                                        (absPath elems :: first :: parts)))
      by reflexivity.
    rewrite Hjoin, Clean_plain.
    + unfold pathElems at 1. rewrite Split_joinWith_concat by done.
      rewrite Hfilter. cbn [map concat]. f_equal. f_equal.
      destruct elems as [|e elems]; [reflexivity|].
      unfold pathElems. rewrite absPath_split by done.
      change (List.filter (fun e0 => negb (eqb_str e0 [])) ([] :: e :: elems))
        with (List.filter (fun e0 => negb (eqb_str e0 [])) (e :: elems)).
      now rewrite filter_plain.
    + reflexivity.
    + unfold plainPath. rewrite Split_joinWith_concat by done.
      apply Hcat.
      change (forallb plainPath (absPath elems :: first :: parts))
        with (plainPath (absPath elems) && forallb plainPath (first :: parts)).
      rewrite Hparts, andb_true_r.
      unfold plainPath. destruct elems as [|e elems]; [reflexivity|].
      rewrite absPath_split by done.
      change (forallb ?f ([] :: e :: elems)) with (forallb f (e :: elems)).
      now apply forallb_plain_weaken.
Qed.

Lemma Clean_fold (p q : gostring) :
  filepath.IsAbs p = filepath.IsAbs q ->
  fold_left (filepath.cleanStep (filepath.IsAbs p)) (strings.Split p "/") []
  = fold_left (filepath.cleanStep (filepath.IsAbs q)) (strings.Split q "/") [] ->
  filepath.Clean p = filepath.Clean q.
Proof. unfold filepath.Clean. now intros -> ->. Qed.

Lemma IsAbs_app_sep (P s t : gostring) :
  filepath.IsAbs (P ++ "/"%char :: s) = filepath.IsAbs (P ++ "/"%char :: t).
Proof. now destruct P. Qed.

Lemma cleanStep_dotdot (rooted : bool) (kept : list gostring) (x : gostring) :
  plainElem x = true ->
  filepath.cleanStep rooted (x :: kept) ["."%char; "."%char] = kept.
Proof.
  intros Hx. unfold plainElem in Hx. apply andb_prop in Hx as [Hx _].
  apply andb_prop in Hx as [_ Hx]. apply negb_true_iff in Hx.
  unfold filepath.cleanStep. change (str "..") with ["."%char; "."%char] in Hx.
  change (eqb_str x (str "..")) with (eqb_str x ["."%char; "."%char]).
  rewrite Hx. reflexivity.
Qed.

(** An element followed by .. and a name cleans like the name alone:
    the online file of <dir>/<x>/.. is <dir>/online. *)
Lemma Clean_sibling (P x : gostring) :
  plainElem x = true ->
  filepath.Clean (P ++ "/"%char :: x ++ str "/../online")
  = filepath.Clean (P ++ str "/online").
Proof.
  intros Hx. apply Clean_fold; [apply IsAbs_app_sep|].
  rewrite (IsAbs_app_sep P (x ++ str "/../online") (str "online")).
  change (P ++ str "/online") with (P ++ "/"%char :: str "online").
  rewrite !Split_app_sep, !fold_left_app.
  change (x ++ str "/../online") with (x ++ "/"%char :: str "../online").
  rewrite Split_app_sep, (Split_plainElem x Hx).
  set (r := filepath.IsAbs _). set (K := fold_left _ (strings.Split P "/") []).
  cbn [app strings.Split str list_ascii_of_string Ascii.eqb Bool.eqb fold_left].
  now rewrite (plainElem_step r K x Hx), (cleanStep_dotdot r K x Hx).
Qed.

(** A doubled separator cleans like a single one. *)
Lemma Clean_double_sep (P s : gostring) :
  filepath.Clean (P ++ "/"%char :: "/"%char :: s) = filepath.Clean (P ++ "/"%char :: s).
Proof.
  apply Clean_fold; [apply IsAbs_app_sep|].
  rewrite (IsAbs_app_sep P ("/"%char :: s) s).
  rewrite !Split_app_sep, !fold_left_app.
  change (strings.Split ("/"%char :: s) "/") with ([] :: strings.Split s "/").
  reflexivity.
Qed.

(** The online file of the CPU directory <dir>/<x> (x one plain path
    element) is <dir>/online under the root, whatever x is. *)
Lemma Join_online_sibling (rootDir dir x : gostring) :
  plainElem x = true ->
  filepath.Join [rootDir; (dir ++ str "/" ++ x) ++ str "/../online"]
  = filepath.Join [rootDir; dir ++ str "/online"].
Proof.
  intros Hx.
  assert (Hl : (dir ++ str "/" ++ x) ++ str "/../online"
               = dir ++ "/"%char :: x ++ str "/../online")
    by now rewrite <- app_assoc.
  rewrite Hl. destruct rootDir as [|c rootDir].
  - cbn [filepath.Join].
    destruct dir as [|d dir]; cbn [app filepath.joinWith].
    + apply (Clean_sibling [] x Hx).
    + apply (Clean_sibling (d :: dir) x Hx).
  - cbn [filepath.Join filepath.joinWith].
    change (str "/" ++ dir ++ "/"%char :: x ++ str "/../online")
      with ("/"%char :: dir ++ "/"%char :: x ++ str "/../online").
    change (str "/" ++ dir ++ str "/online") with ("/"%char :: dir ++ str "/online").
    replace ((c :: rootDir) ++ "/"%char :: dir ++ "/"%char :: x ++ str "/../online")
      with (((c :: rootDir) ++ "/"%char :: dir) ++ "/"%char :: x ++ str "/../online")
      by now rewrite <- app_assoc.
    replace ((c :: rootDir) ++ "/"%char :: dir ++ str "/online")
      with (((c :: rootDir) ++ "/"%char :: dir) ++ str "/online")
      by now rewrite <- app_assoc.
    apply (Clean_sibling _ x Hx).
Qed.

(** X6: the online file IsCPUOnline consults for a CPU directory
    <dir>/<x> (x one plain path element) is <dir>/online under the
    root, the same for all directories of the bus directory: when that
    file does not exist, IsCPUOnline returns true for every <dir>/<x>. *)
Theorem X6_IsCPUOnline_shared_online_file (sys : OS) (fs : relocatableSysFs)
        (dir x onlinePath : gostring) (e : error) :
  plainElem x = true ->
  filepath.Abs sys (filepath.Join [root fs; dir ++ str "/online"]) = Ok onlinePath ->
  Stat sys onlinePath = Err e -> IsNotExist e = true ->
  IsCPUOnline sys fs (dir ++ str "/" ++ x) = true.
Proof.
  intros Hx Habs Hstat Hne. unfold IsCPUOnline.
  rewrite (Join_online_sibling (root fs) dir x Hx), Habs, Hstat.
  cbn [errOf isNotExist]. now rewrite Hne.
Qed.

Lemma X6_IsCPUOnline_shared_online_file_witness :
  IsCPUOnline (memOS (busTree fourCPUs)) (NewRelocatableSysFs [])
              (str "/sys/devices/system/cpu" ++ str "/" ++ str "cpu2") = true
  /\ IsCPUOnline (memOS (busTree fourCPUs)) (NewRelocatableSysFs [])
                 (str "/sys/devices/system/cpu" ++ str "/" ++ str "cpuidle") = true.
Proof.
  split.
  - apply (X6_IsCPUOnline_shared_online_file
             (memOS (busTree fourCPUs)) (NewRelocatableSysFs [])
             (str "/sys/devices/system/cpu") (str "cpu2") onlineFile
             (PathError true onlineFile)); vm_compute; reflexivity.
  - apply (X6_IsCPUOnline_shared_online_file
             (memOS (busTree fourCPUs)) (NewRelocatableSysFs [])
             (str "/sys/devices/system/cpu") (str "cpuidle") onlineFile
             (PathError true onlineFile)); vm_compute; reflexivity.
Defined.

(** ** The readers under a relocated root *)

Lemma plainElem_plainPath (x : gostring) : plainElem x = true -> plainPath x = true.
Proof.
  intros H. unfold plainPath. rewrite (Split_plainElem x H). cbn [forallb].
  now rewrite H, orb_true_r.
Qed.

Lemma pathElems_plainElem (x : gostring) : plainElem x = true -> pathElems x = [x].
Proof.
  intros H. unfold pathElems. rewrite (Split_plainElem x H). cbn [List.filter].
  now rewrite (plainElem_nonempty x H).
Qed.

(** X7: with a root that is empty or an absolute path of plain elements
    and a device name that is one plain element, the block and network
    readers read exactly <root>/sys/block/<name>/... and
    <root>/sys/class/net/<name>/...: dev, queue/scheduler, size,
    address, mtu and speed, and return the content as it is. *)
Theorem X7_device_readers_relocated (sys : OS) (fs : relocatableSysFs)
        (elems : list gostring) (name : gostring) :
  root fs = [] /\ elems = [] \/ root fs = absPath elems /\ forallb plainElem elems = true ->
  plainElem name = true ->
  GetBlockDeviceNumbers sys fs name
  = ReadFile sys (absPath (elems ++ [str "sys"; str "block"; name; str "dev"]))
  /\ GetBlockDeviceScheduler sys fs name
     = ReadFile sys (absPath (elems ++ [str "sys"; str "block"; name;
                                        str "queue"; str "scheduler"]))
  /\ GetBlockDeviceSize sys fs name
     = ReadFile sys (absPath (elems ++ [str "sys"; str "block"; name; str "size"]))
  /\ GetNetworkAddress sys fs name
     = ReadFile sys (absPath (elems ++ [str "sys"; str "class"; str "net"; name;
                                        str "address"]))
  /\ GetNetworkMtu sys fs name
     = ReadFile sys (absPath (elems ++ [str "sys"; str "class"; str "net"; name;
                                        str "mtu"]))
  /\ GetNetworkSpeed sys fs name
     = ReadFile sys (absPath (elems ++ [str "sys"; str "class"; str "net"; name;
                                        str "speed"])).
Proof.
  intros Hroot Hname.
  pose proof (plainElem_plainPath name Hname) as Hpath.
  pose proof (pathElems_plainElem name Hname) as Helems.
  unfold GetBlockDeviceNumbers, GetBlockDeviceScheduler, GetBlockDeviceSize,
    GetNetworkAddress, GetNetworkMtu, GetNetworkSpeed.
  repeat split; f_equal;
    (rewrite (Join_relocated _ _ _ elems Hroot);
     [cbn [map concat]; rewrite Helems; reflexivity
     |reflexivity
     |cbn [forallb]; rewrite Hpath; reflexivity]).
Qed.

Lemma X7_device_readers_relocated_witness :
  GetBlockDeviceSize (memOS hostTree) (NewRelocatableSysFs (str "/host")) (str "sda")
  = Ok (str "1000215216" ++ [LF])
  /\ GetNetworkMtu (memOS hostTree) (NewRelocatableSysFs (str "/host")) (str "eth0")
     = Ok (str "1500" ++ [LF]).
Proof.
  destruct (X7_device_readers_relocated
              (memOS hostTree) (NewRelocatableSysFs (str "/host")) [str "host"] (str "sda"))
    as (_ & _ & Hsize & _); [right; split; vm_compute; reflexivity|vm_compute; reflexivity|].
  destruct (X7_device_readers_relocated
              (memOS hostTree) (NewRelocatableSysFs (str "/host")) [str "host"] (str "eth0"))
    as (_ & _ & _ & _ & Hmtu & _); [right; split; vm_compute; reflexivity|vm_compute; reflexivity|].
  split.
  - rewrite Hsize. vm_compute. reflexivity.
  - rewrite Hmtu. vm_compute. reflexivity.
Defined.

(** With the empty root, the topology readers read the files the
    counting loop reads for the same CPU directory. *)
Lemma real_root_topology (p : gostring) :
  p <> [] ->
  filepath.Join [[]; p; coreIDFilePath]
  = filepath.Join [p; sysFsCPUTopology; CPUCoreID]
  /\ filepath.Join [[]; p; packageIDFilePath]
     = filepath.Join [p; sysFsCPUTopology; CPUPhysicalPackageID].
Proof.
  intros Hp. destruct p as [|c p]; [done|]. split.
  - exact (Clean_double_sep (c :: p) (str "topology/core_id")).
  - exact (Clean_double_sep (c :: p) (str "topology/physical_package_id")).
Qed.

(** X8: the key GetUniqueCPUPropertyCount counts for a CPU directory
    under core_id is <core>_<package> with the values GetCoreID and
    GetCPUPhysicalPackageID of the real-root reader return for that
    directory: the loop and the two readers read the same files and
    trim them alike. *)
Theorem X8_counted_key_is_readers (sys : OS) (anyRoot onlinePath path core package : gostring)
        (rest : list gostring) (uniques : gset gostring) (cpuID : Z) :
  getCPUID path = Ok cpuID ->
  reportedOnline (isCPUOnline sys onlinePath cpuID) = true ->
  GetCoreID sys (NewRealSysFs anyRoot) path = Ok core ->
  GetCPUPhysicalPackageID sys (NewRealSysFs anyRoot) path = Ok package ->
  uniqueLoop sys onlinePath CPUCoreID (path :: rest) uniques
  = uniqueLoop sys onlinePath CPUCoreID rest
               ({[ core ++ str "_" ++ package ]} ∪ uniques).
Proof.
  intros Hid Hon Hcore Hpkg.
  assert (Hp : path <> []) by (intros ->; discriminate Hid).
  destruct (real_root_topology path Hp) as [Hc Hk].
  unfold GetCoreID, GetCPUPhysicalPackageID, NewRealSysFs, NewRelocatableSysFs in *.
  cbn [root] in *. rewrite Hc in Hcore. rewrite Hk in Hpkg.
  apply (uniqueLoop_step sys onlinePath CPUCoreID path core package rest uniques cpuID);
    try done; unfold topologyIs.
  - destruct (ReadFile sys _) as [v|]; [|done]. cbn [bind] in Hcore.
    injection Hcore as <-. now apply bool_decide_eq_true.
  - destruct (ReadFile sys (filepath.Join [path; sysFsCPUTopology; CPUPhysicalPackageID]))
      as [v|]; [|done]. cbn [bind] in Hpkg.
    injection Hpkg as <-. now apply bool_decide_eq_true.
Qed.

Lemma X8_counted_key_is_readers_witness :
  uniqueLoop (memOS (busTree fourCPUs)) onlineFile CPUCoreID
             [str "/sys/devices/system/cpu/cpu2"] ∅
  = uniqueLoop (memOS (busTree fourCPUs)) onlineFile CPUCoreID []
               ({[ str "1" ++ str "_" ++ str "0" ]} ∪ ∅).
Proof.
  apply (X8_counted_key_is_readers
           (memOS (busTree fourCPUs)) (str "/ignored") onlineFile
           (str "/sys/devices/system/cpu/cpu2") (str "1") (str "0") [] ∅ 2);
    vm_compute; reflexivity.
Defined.

(** X9: with a root that is empty or an absolute path of plain elements
    and an absolute path of plain elements for the CPU, node or
    huge-page directory, GetCoreID, GetCPUPhysicalPackageID, GetMemInfo
    and GetHugePagesNr read the file under the root (topology/core_id,
    topology/physical_package_id, meminfo, <name>/nr_hugepages) and
    return its content with the surrounding white space trimmed; a
    read error is returned as it is. *)
Theorem X9_trimmed_readers_relocated (sys : OS) (fs : relocatableSysFs)
        (elems : list gostring) (dir name : gostring) :
  root fs = [] /\ elems = [] \/ root fs = absPath elems /\ forallb plainElem elems = true ->
  filepath.IsAbs dir = true -> plainPath dir = true -> plainElem name = true ->
  GetCoreID sys fs dir
  = bind (ReadFile sys (absPath (elems ++ pathElems dir ++ [str "topology"; str "core_id"])))
         (fun c => Ok (strings.TrimSpace c))
  /\ GetCPUPhysicalPackageID sys fs dir
     = bind (ReadFile sys (absPath (elems ++ pathElems dir
                                          ++ [str "topology"; str "physical_package_id"])))
            (fun c => Ok (strings.TrimSpace c))
  /\ GetMemInfo sys fs dir
     = bind (ReadFile sys (absPath (elems ++ pathElems dir ++ [str "meminfo"])))
            (fun c => Ok (strings.TrimSpace c))
  /\ GetHugePagesNr sys fs dir name
     = bind (ReadFile sys (absPath (elems ++ pathElems dir ++ [name; str "nr_hugepages"])))
            (fun c => Ok (strings.TrimSpace c)).
Proof.
  intros Hroot Habs Hdir Hname.
  pose proof (plainElem_plainPath name Hname) as Hpath.
  pose proof (pathElems_plainElem name Hname) as Helems.
  unfold GetCoreID, GetCPUPhysicalPackageID, GetMemInfo, GetHugePagesNr.
  repeat split; f_equal; f_equal;
    (rewrite (Join_relocated _ _ _ elems Hroot);
     [cbn [map concat]; rewrite ?Helems, ?app_nil_r; reflexivity
     |exact Habs
     |cbn [forallb]; rewrite Hdir, ?Hpath; reflexivity]).
Qed.

Lemma X9_trimmed_readers_relocated_witness :
  GetCoreID (memOS hostTree) (NewRelocatableSysFs (str "/host"))
            (str "/sys/devices/system/cpu/cpu0") = Ok (str "3")
  /\ GetCPUPhysicalPackageID (memOS hostTree) (NewRelocatableSysFs (str "/host"))
                             (str "/sys/devices/system/cpu/cpu0") = Ok (str "1").
Proof.
  destruct (X9_trimmed_readers_relocated
              (memOS hostTree) (NewRelocatableSysFs (str "/host")) [str "host"]
              (str "/sys/devices/system/cpu/cpu0") (str "x"))
    as (Hcore & Hpkg & _);
    [right; split; vm_compute; reflexivity|vm_compute; reflexivity
     |vm_compute; reflexivity|vm_compute; reflexivity|].
  split.
  - rewrite Hcore. vm_compute. reflexivity.
  - rewrite Hpkg. vm_compute. reflexivity.
Defined.

(** ** The count as a set of keys *)

Lemma uniqueLoop_turn (sys : OS) (onlinePath property path : gostring)
      (rest : list gostring) (uniques : gset gostring) :
  is_ok (getCPUID path) = true ->
  uniqueLoop sys onlinePath property (path :: rest) uniques
  = uniqueLoop sys onlinePath property rest
               (if counted sys onlinePath path
                then {[ cpuKey sys property path ]} ∪ uniques else uniques).
Proof.
  intros Hid. cbn [uniqueLoop]. unfold counted, cpuKey, readOrZero.
  destruct (getCPUID path) as [cpuID|]; [|discriminate].
  destruct (isCPUOnline sys onlinePath cpuID) as [[|]|e]; cbn; try reflexivity.
  destruct (IsNotExist e); reflexivity.
Qed.

(** When every enumerated path has a CPU id, the loop returns the
    number of distinct keys of the counted directories (besides the
    keys it starts with). *)
Lemma uniqueLoop_keys (sys : OS) (onlinePath property : gostring)
      (paths : list gostring) (uniques : gset gostring) :
  forallb (fun p => is_ok (getCPUID p)) paths = true ->
  uniqueLoop sys onlinePath property paths uniques
  = Z.of_nat (size (countedKeys sys onlinePath property paths ∪ uniques)).
Proof.
  revert uniques. induction paths as [|p paths IH]; intros uniques Hall.
  - unfold countedKeys. cbn [List.filter map list_to_set uniqueLoop].
    now rewrite (left_id_L ∅ (∪)).
  - cbn [forallb] in Hall. apply andb_prop in Hall as [Hp Hall].
    rewrite (uniqueLoop_turn _ _ _ _ _ _ Hp), IH by done.
    unfold countedKeys. cbn [List.filter].
    destruct (counted sys onlinePath p); cbn [map list_to_set]; [|reflexivity].
    f_equal. f_equal.
    rewrite (assoc_L (∪)). f_equal. apply (comm_L (∪)).
Qed.

Lemma uniqueLoop_bounds (sys : OS) (onlinePath property : gostring)
      (paths : list gostring) (uniques : gset gostring) :
  0 <= uniqueLoop sys onlinePath property paths uniques
  <= Z.of_nat (size uniques) + Z.of_nat (length paths).
Proof.
  revert uniques. induction paths as [|p paths IH]; intros uniques.
  - cbn. lia.
  - destruct (is_ok (getCPUID p)) eqn:Hid.
    + rewrite (uniqueLoop_turn _ _ _ _ _ _ Hid). cbn [length].
      destruct (counted sys onlinePath p).
      * specialize (IH ({[ cpuKey sys property p ]} ∪ uniques)).
        rewrite size_union_alt, size_singleton in IH.
        assert (size (uniques ∖ {[ cpuKey sys property p ]}) <= size uniques)%nat
          by (apply subseteq_size, subseteq_difference_l; reflexivity).
        lia.
      * specialize (IH uniques). lia.
    + cbn [uniqueLoop length]. destruct (getCPUID p); [discriminate|lia].
Qed.

(** X10: when every path of the glob has a CPU id,
    GetUniqueCPUPropertyCount returns the number of distinct keys
    <property>_<package> of the directories whose CPU is online (or
    that have no online file to read), a topology file that cannot be
    read standing for 0. *)
Theorem X10_GetUniqueCPUPropertyCount_distinct_keys (sys : OS)
        (cpuBusPath propertyName absBus onlinePath : gostring) (paths : list gostring) :
  filepath.Abs sys cpuBusPath = Ok absBus ->
  Glob sys (absBus ++ str "/cpu*[0-9]") = Ok paths ->
  filepath.Abs sys (cpuBusPath ++ str "/online") = Ok onlinePath ->
  forallb (fun p => is_ok (getCPUID p)) paths = true ->
  GetUniqueCPUPropertyCount sys cpuBusPath propertyName
  = Z.of_nat (size (countedKeys sys onlinePath propertyName paths)).
Proof.
  intros Habs Hglob Honl Hall. unfold GetUniqueCPUPropertyCount.
  rewrite Habs, Hglob, Honl, uniqueLoop_keys by done.
  now rewrite (right_id_L ∅ (∪)).
Qed.

Lemma X10_GetUniqueCPUPropertyCount_distinct_keys_witness :
  GetUniqueCPUPropertyCount
    (memOS (busTree (fourCPUs ++ [(str "online", memfs.File (str "0-2" ++ [LF]))])))
    cpuBus CPUPhysicalPackageID = 1.
Proof.
  rewrite (X10_GetUniqueCPUPropertyCount_distinct_keys
             (memOS (busTree (fourCPUs ++ [(str "online", memfs.File (str "0-2" ++ [LF]))])))
             cpuBus CPUPhysicalPackageID cpuBus onlineFile
             (map (cpuPathOf cpuBus) [str "0"; str "1"; str "2"; str "3"]));
    vm_compute; reflexivity.
Defined.

(** X11: the count is never negative and never exceeds the number of
    paths the glob yields. *)
Theorem X11_GetUniqueCPUPropertyCount_bounds (sys : OS)
        (cpuBusPath propertyName absBus : gostring) (paths : list gostring) :
  filepath.Abs sys cpuBusPath = Ok absBus ->
  Glob sys (absBus ++ str "/cpu*[0-9]") = Ok paths ->
  0 <= GetUniqueCPUPropertyCount sys cpuBusPath propertyName <= Z.of_nat (length paths).
Proof.
  intros Habs Hglob. unfold GetUniqueCPUPropertyCount. rewrite Habs, Hglob.
  destruct (filepath.Abs sys (cpuBusPath ++ str "/online")) as [onlinePath|]; [|lia].
  pose proof (uniqueLoop_bounds sys onlinePath propertyName paths ∅) as H.
  rewrite size_empty in H. lia.
Qed.

Lemma X11_GetUniqueCPUPropertyCount_bounds_witness :
  0 <= GetUniqueCPUPropertyCount (memOS (busTree fourCPUs)) cpuBus CPUCoreID <= 4.
Proof.
  apply (X11_GetUniqueCPUPropertyCount_bounds
           (memOS (busTree fourCPUs)) cpuBus CPUCoreID cpuBus
           (map (cpuPathOf cpuBus) [str "0"; str "1"; str "2"; str "3"]));
    vm_compute; reflexivity.
Defined.

Lemma countedKeys_elem (sys : OS) (onlinePath property key : gostring)
      (paths : list gostring) :
  key ∈ countedKeys sys onlinePath property paths
  <-> exists p, In p paths /\ counted sys onlinePath p = true
                /\ cpuKey sys property p = key.
Proof.
  unfold countedKeys. rewrite elem_of_list_to_set, list_elem_of_In, in_map_iff.
  split.
  - intros (p & <- & Hp). apply filter_In in Hp as [Hin Hc]. eauto.
  - intros (p & Hin & Hc & <-). exists p. split; [done|]. now apply filter_In.
Qed.

(** X12: the count depends on which paths are enumerated, not on their
    order or on repetitions: two enumerations with the same paths, all
    with a CPU id, give the same count. *)
Theorem X12_uniqueLoop_order_free (sys : OS) (onlinePath propertyName : gostring)
        (paths paths' : list gostring) :
  (forall p, In p paths <-> In p paths') ->
  forallb (fun p => is_ok (getCPUID p)) paths = true ->
  uniqueLoop sys onlinePath propertyName paths ∅
  = uniqueLoop sys onlinePath propertyName paths' ∅.
Proof.
  intros Hsame Hall.
  assert (Hall' : forallb (fun p => is_ok (getCPUID p)) paths' = true).
  { rewrite forallb_forall in *. intros p Hp. now apply Hall, Hsame. }
  rewrite !uniqueLoop_keys by done. f_equal. f_equal.
  apply set_eq. intros key. rewrite !elem_of_union, !countedKeys_elem.
  split; (intros [(p & Hin & Hrest)|Hempty]; [left|now right]);
    exists p; (split; [now apply Hsame|done]).
Qed.

Lemma X12_uniqueLoop_order_free_witness :
  uniqueLoop (memOS (busTree fourCPUs)) onlineFile CPUCoreID
             [cpuPathOf cpuBus (str "0"); cpuPathOf cpuBus (str "2")] ∅
  = uniqueLoop (memOS (busTree fourCPUs)) onlineFile CPUCoreID
               [cpuPathOf cpuBus (str "2"); cpuPathOf cpuBus (str "0");
                cpuPathOf cpuBus (str "2")] ∅.
Proof.
  apply (X12_uniqueLoop_order_free (memOS (busTree fourCPUs)) onlineFile CPUCoreID).
  - intros p. cbn [In]. tauto.
  - vm_compute. reflexivity.
Defined.

(** When no CPU counts as online the loop adds nothing: it returns the
    number of keys it started with, or 0 after a path without CPU id. *)
Lemma uniqueLoop_none (sys : OS) (onlinePath property : gostring)
      (paths : list gostring) (uniques : gset gostring) :
  (forall cpuID, reportedOnline (isCPUOnline sys onlinePath cpuID) = false) ->
  uniqueLoop sys onlinePath property paths uniques = 0
  \/ uniqueLoop sys onlinePath property paths uniques = Z.of_nat (size uniques).
Proof.
  intros Hoff. induction paths as [|p paths IH]; [now right|].
  destruct (is_ok (getCPUID p)) eqn:Hid.
  - rewrite (uniqueLoop_turn _ _ _ _ _ _ Hid). unfold counted.
    destruct (getCPUID p) as [cpuID|]; [|discriminate]. now rewrite Hoff.
  - left. cbn [uniqueLoop]. now destruct (getCPUID p).
Qed.

(** X13: an online file that exists but is empty or holds white space
    only makes GetUniqueCPUPropertyCount return 0 whatever the bus
    directory holds: every CPU is skipped. *)
Theorem X13_GetUniqueCPUPropertyCount_blank_online (sys : OS)
        (cpuBusPath propertyName onlinePath content : gostring) :
  filepath.Abs sys (cpuBusPath ++ str "/online") = Ok onlinePath ->
  ReadFile sys onlinePath = Ok content -> strings.TrimSpace content = [] ->
  GetUniqueCPUPropertyCount sys cpuBusPath propertyName = 0.
Proof.
  intros Honl Hread Htrim. unfold GetUniqueCPUPropertyCount.
  destruct (filepath.Abs sys cpuBusPath) as [absBus|]; [|reflexivity].
  destruct (Glob sys _) as [paths|]; [|reflexivity]. rewrite Honl.
  destruct (uniqueLoop_none sys onlinePath propertyName paths ∅) as [H|H].
  - intros cpuID.
    now destruct (isCPUOnline_blank sys onlinePath content cpuID Hread Htrim)
      as (e & -> & He).
  - exact H.
  - now rewrite H, size_empty.
Qed.

Lemma X13_GetUniqueCPUPropertyCount_blank_online_witness :
  GetUniqueCPUPropertyCount
    (memOS (busTree (fourCPUs ++ [(str "online", memfs.File [LF])])))
    cpuBus CPUCoreID = 0.
Proof.
  apply (X13_GetUniqueCPUPropertyCount_blank_online
           (memOS (busTree (fourCPUs ++ [(str "online", memfs.File [LF])])))
           cpuBus CPUCoreID onlineFile [LF]); vm_compute; reflexivity.
Defined.

(** ** The cache sharing count, bounds and blanks *)

Lemma bitCount_bounds (m : Z) : 0 <= m < 2 ^ 64 -> 0 <= bitCount m <= 64.
Proof. intros Hm. rewrite bitCount_popcount by done. apply popcount_bounds. Qed.

Lemma cpuCountLoop_bounds (out : gostring) (masks : list gostring) (count n : Z) :
  cpuCountLoop out masks count = Ok n ->
  0 <= count -> count + 64 * Z.of_nat (length masks) < 2 ^ 63 ->
  count <= n <= count + 64 * Z.of_nat (length masks).
Proof.
  revert count. induction masks as [|mask masks IH]; intros count Hloop Hc Hb.
  - cbn in Hloop. injection Hloop as <-. cbn. lia.
  - cbn [cpuCountLoop] in Hloop. cbn [length] in *.
    destruct (strconv.ParseUint (strings.TrimSpace mask) 16 64) as [m [e|]] eqn:Hm;
      [discriminate|].
    pose proof (bitCount_bounds m (ParseUint_range _ _ _ _ Hm)) as Hbits.
    assert (Hw : strconv.i64 (count + bitCount m) = count + bitCount m).
    { unfold strconv.i64. rewrite Z.mod_small; lia. }
    rewrite Hw in Hloop. specialize (IH _ Hloop). lia.
Qed.

(** X14: a count getCPUCount returns is never negative and at most 64
    for each comma separated mask of the file (while the number of
    masks keeps the sum within int). *)
Theorem X14_getCPUCount_bounds (sys : OS) (cache content : gostring) (n : Z) :
  ReadFile sys (filepath.Join [cache; str "/shared_cpu_map"]) = Ok content ->
  Z.of_nat (length (strings.Split content ",")) < 2 ^ 57 ->
  getCPUCount sys cache = Ok n ->
  0 <= n <= 64 * Z.of_nat (length (strings.Split content ",")).
Proof.
  intros Hread Hlen. unfold getCPUCount. rewrite Hread. cbn [bind]. intros Hloop.
  pose proof (cpuCountLoop_bounds content _ 0 n Hloop). lia.
Qed.

Lemma X14_getCPUCount_bounds_witness :
  0 <= 16 <= 64 * Z.of_nat (length (strings.Split (str "ff,ff" ++ [LF]) ",")).
Proof.
  apply (X14_getCPUCount_bounds (memOS (cacheTree (str "ff,ff" ++ [LF]))) cachePath
                                (str "ff,ff" ++ [LF]) 16);
    vm_compute; reflexivity.
Defined.

(** X15: a shared_cpu_map with a blank mask (an empty file, a file of
    white space, a trailing or doubled comma) is a parse error of
    getCPUCount; a blank mask does not count as zero CPUs. *)
Theorem X15_getCPUCount_blank_mask (sys : OS) (cache content mask : gostring) :
  ReadFile sys (filepath.Join [cache; str "/shared_cpu_map"]) = Ok content ->
  In mask (strings.Split content ",") -> strings.TrimSpace mask = [] ->
  exists e, getCPUCount sys cache = Err (ErrParseCPUMap content e).
Proof.
  intros Hread Hin Hblank. unfold getCPUCount. rewrite Hread. cbn [bind].
  apply cpuCountLoop_err, Exists_exists. exists mask.
  split; [now apply list_elem_of_In|]. now rewrite Hblank.
Qed.

Lemma X15_getCPUCount_blank_mask_witness :
  exists e, getCPUCount (memOS (cacheTree (str "ff," ++ [LF]))) cachePath
            = Err (ErrParseCPUMap (str "ff," ++ [LF]) e).
Proof.
  apply (X15_getCPUCount_blank_mask (memOS (cacheTree (str "ff," ++ [LF]))) cachePath
                                    (str "ff," ++ [LF]) [LF]).
  - vm_compute. reflexivity.
  - right. left. vm_compute. reflexivity.
  - vm_compute. reflexivity.
Defined.

Lemma filter_length_disjoint (f g : nat -> bool) (l : list nat) :
  (forall k, f k && g k = false) ->
  length (List.filter (fun k => f k || g k) l)
  = (length (List.filter f l) + length (List.filter g l))%nat.
Proof.
  intros Hdis. induction l as [|k l IH]; [reflexivity|].
  cbn [List.filter]. specialize (Hdis k).
  destruct (f k), (g k); cbn [orb length] in *; try discriminate; lia.
Qed.

Lemma lor_lt_pow2 (a b n : Z) :
  0 <= n -> 0 <= a < 2 ^ n -> 0 <= b < 2 ^ n -> 0 <= Z.lor a b < 2 ^ n.
Proof.
  intros Hn Ha Hb. split; [apply Z.lor_nonneg; lia|].
  destruct (Z.eq_dec (Z.lor a b) 0) as [->|Hnz]; [apply Z.pow_pos_nonneg; lia|].
  assert (0 < Z.lor a b)
    by (pose proof (proj2 (Z.lor_nonneg a b) (conj (proj1 Ha) (proj1 Hb))); lia).
  assert (0 < n).
  { destruct (Z.eq_dec n 0) as [->|]; [|lia]. change (2 ^ 0) with 1 in *.
    assert (a = 0) as -> by lia. assert (b = 0) as -> by lia. done. }
  apply Z.log2_lt_pow2; [done|]. rewrite Z.log2_lor by lia.
  apply Z.max_lub_lt.
  - destruct (Z.eq_dec a 0) as [->|]; [cbn; lia|]. apply Z.log2_lt_pow2; lia.
  - destruct (Z.eq_dec b 0) as [->|]; [cbn; lia|]. apply Z.log2_lt_pow2; lia.
Qed.

(** X16: bitCount is additive over masks without a common bit: the
    count of the union of two disjoint CPU masks is the sum of their
    counts. *)
Theorem X16_bitCount_disjoint (a b : Z) :
  0 <= a < 2 ^ 64 -> 0 <= b < 2 ^ 64 -> Z.land a b = 0 ->
  bitCount (Z.lor a b) = bitCount a + bitCount b.
Proof.
  intros Ha Hb Hdis.
  rewrite !bitCount_popcount by (try done; apply lor_lt_pow2; lia).
  unfold popcount.
  erewrite (List.filter_ext (fun k => Z.testbit (Z.lor a b) (Z.of_nat k))).
  2:{ intros k. apply Z.lor_spec. }
  rewrite (filter_length_disjoint (fun k => Z.testbit a (Z.of_nat k))
                                  (fun k => Z.testbit b (Z.of_nat k))); [lia|].
  intros k. rewrite <- Z.land_spec, Hdis. apply Z.testbit_0_l.
Qed.

Lemma X16_bitCount_disjoint_witness : bitCount (Z.lor 240 15) = bitCount 240 + bitCount 15.
Proof.
  apply (X16_bitCount_disjoint 240 15); vm_compute;
    first [reflexivity | split; [discriminate | reflexivity]].
Defined.

(** ** Network devices, without assumptions on os.Stat *)

Lemma networkDeviceStep_Some (sys : OS) (fs : relocatableSysFs) (f d : FileInfo) :
  networkDeviceStep sys fs f = Some d ->
  Stat sys (netPath fs f) = Ok d /\ IsDir d = true.
Proof.
  unfold networkDeviceStep. fold (netPath fs f). rewrite mode_test_always.
  destruct (Stat sys (netPath fs f)) as [d'|]; [|done].
  destruct (IsDir d') eqn:Hd; [|done]. now intros [= ->].
Qed.

Lemma networkDeviceStep_names (sys sys' : OS) (fs : relocatableSysFs) (f f' : FileInfo) :
  (forall p, Stat sys p = Stat sys' p) -> Name f = Name f' ->
  networkDeviceStep sys fs f = networkDeviceStep sys' fs f'.
Proof.
  intros Hstat Hname. unfold networkDeviceStep.
  now rewrite !mode_test_always, Hname, Hstat.
Qed.

Lemma networkDeviceLoop_inv (sys : OS) (fs : relocatableSysFs)
      (files dirs : list FileInfo) :
  exists found,
    networkDeviceLoop sys fs files dirs = dirs ++ found
    /\ (length found <= length files)%nat
    /\ Forall (fun d => IsDir d = true
                        /\ exists f, In f files /\ Stat sys (netPath fs f) = Ok d) found.
Proof.
  revert dirs. induction files as [|f files IH]; intros dirs.
  - exists []. cbn. now rewrite app_nil_r.
  - cbn [networkDeviceLoop].
    destruct (networkDeviceStep sys fs f) as [d|] eqn:Hstep.
    + destruct (IH (dirs ++ [d])) as (found & -> & Hlen & Hall).
      apply networkDeviceStep_Some in Hstep as [Hstat Hdir].
      exists (d :: found). split; [now rewrite <- app_assoc|]. split; [cbn; lia|].
      constructor.
      * split; [done|]. exists f. split; [now left|done].
      * eapply Forall_impl; [exact Hall|]. intros d' [Hd' (f' & Hin & Hs)].
        split; [done|]. exists f'. split; [now right|done].
    + destruct (IH dirs) as (found & -> & Hlen & Hall).
      exists found. split; [done|]. split; [cbn; lia|].
      eapply Forall_impl; [exact Hall|]. intros d' [Hd' (f' & Hin & Hs)].
      split; [done|]. exists f'. split; [now right|done].
Qed.

(** X17: whatever os.Stat answers, every entry GetNetworkDevices
    returns is a directory, namely what os.Stat reports for the path
    of a listed name, and no more entries are returned than were
    listed: a regular file or a dangling link is never returned. *)
Theorem X17_GetNetworkDevices_only_directories (sys : OS) (fs : relocatableSysFs)
        (files : list FileInfo) :
  ReadDir sys (filepath.Join [root fs; netDir]) = Ok files ->
  exists dirs,
    GetNetworkDevices sys fs = Ok dirs
    /\ (length dirs <= length files)%nat
    /\ Forall (fun d => IsDir d = true
                        /\ exists f, In f files /\ Stat sys (netPath fs f) = Ok d) dirs.
Proof.
  intros Hread. unfold GetNetworkDevices. rewrite Hread. cbn [bind].
  destruct (networkDeviceLoop_inv sys fs files []) as (found & -> & Hlen & Hall).
  now exists found.
Qed.

Lemma X17_GetNetworkDevices_only_directories_witness :
  exists dirs,
    GetNetworkDevices (memOS netTree) (NewRelocatableSysFs []) = Ok dirs
    /\ (length dirs <= 4)%nat
    /\ Forall (fun d => IsDir d = true) dirs.
Proof.
  destruct (X17_GetNetworkDevices_only_directories
              (memOS netTree) (NewRelocatableSysFs [])
              [ {| Name := str "bonding_masters"; Mode := 420 |};
                {| Name := str "eth0"; Mode := 134218239 |};
                {| Name := str "gone"; Mode := 134218239 |};
                {| Name := str "lo"; Mode := 2147484141 |} ])
    as (dirs & Hdirs & Hlen & Hall); [vm_compute; reflexivity|].
  exists dirs. split; [exact Hdirs|]. split; [exact Hlen|].
  eapply Forall_impl; [exact Hall|]. now intros d [Hd _].
Defined.

Lemma networkDeviceLoop_names (sys sys' : OS) (fs : relocatableSysFs)
      (files files' dirs : list FileInfo) :
  (forall p, Stat sys p = Stat sys' p) -> map Name files = map Name files' ->
  networkDeviceLoop sys fs files dirs = networkDeviceLoop sys' fs files' dirs.
Proof.
  intros Hstat. revert files' dirs.
  induction files as [|f files IH]; intros [|f' files'] dirs Hnames; try done.
  cbn [map] in Hnames. injection Hnames as Hname Hnames. cbn [networkDeviceLoop].
  rewrite (networkDeviceStep_names sys sys' fs f f' Hstat Hname).
  destruct (networkDeviceStep sys' fs f'); now apply IH.
Qed.

(** X18: GetNetworkDevices looks at the names of the listing only: the
    mode test of the loop holds for every mode, so two listings with
    the same names give the same result under the same os.Stat,
    whatever modes the listings carry. *)
Theorem X18_GetNetworkDevices_ignores_listed_modes (sys sys' : OS)
        (fs : relocatableSysFs) (files files' : list FileInfo) :
  (forall p, Stat sys p = Stat sys' p) ->
  ReadDir sys (filepath.Join [root fs; netDir]) = Ok files ->
  ReadDir sys' (filepath.Join [root fs; netDir]) = Ok files' ->
  map Name files = map Name files' ->
  GetNetworkDevices sys fs = GetNetworkDevices sys' fs.
Proof.
  intros Hstat Hread Hread' Hnames. unfold GetNetworkDevices.
  rewrite Hread, Hread'. cbn [bind]. f_equal.
  now apply networkDeviceLoop_names.
Qed.

Lemma withoutModes_Stat (sys : OS) (p : gostring) :
  Stat sys p = Stat (withoutModes sys) p.
Proof. reflexivity. Qed.

Lemma X18_GetNetworkDevices_ignores_listed_modes_witness :
  GetNetworkDevices (memOS netTree) (NewRelocatableSysFs [])
  = GetNetworkDevices (withoutModes (memOS netTree)) (NewRelocatableSysFs []).
Proof.
  apply (X18_GetNetworkDevices_ignores_listed_modes
           (memOS netTree) (withoutModes (memOS netTree)) (NewRelocatableSysFs [])
           [ {| Name := str "bonding_masters"; Mode := 420 |};
             {| Name := str "eth0"; Mode := 134218239 |};
             {| Name := str "gone"; Mode := 134218239 |};
             {| Name := str "lo"; Mode := 2147484141 |} ]
           [ {| Name := str "bonding_masters"; Mode := 0 |};
             {| Name := str "eth0"; Mode := 0 |};
             {| Name := str "gone"; Mode := 0 |};
             {| Name := str "lo"; Mode := 0 |} ]);
    [intros p; apply withoutModes_Stat|vm_compute; reflexivity
     |vm_compute; reflexivity|vm_compute; reflexivity].
Defined.

(** ** Scanning numbers *)

Lemma SkipSpace_digit (s : gostring) :
  startsDigit s = true -> fmt.SkipSpace s = inr s.
Proof.
  destruct s as [|a s]; [done|]. cbn [startsDigit]. intros H%isDigit_code.
  cbn [fmt.SkipSpace].
  destruct (Ascii.eqb_spec a LF) as [->|_]; [change (code LF) with 10 in H; lia|].
  assert (strings.asciiSpace a = false) as -> by (unfold strings.asciiSpace; lia).
  destruct s as [|b s]; [done|].
  assert (strings.space2 a b = false) as -> by (unfold strings.space2; lia).
  destruct s as [|c s]; [done|].
  assert (strings.space3 a b c = false) as -> by (unfold strings.space3; cbn; lia).
  done.
Qed.

Lemma scanNumber_digits (ds rest : gostring) :
  isDigits ds = true -> startsDigit rest = false ->
  fmt.scanNumber (ds ++ rest) = inr (ds, rest).
Proof.
  intros Hds Hrest. unfold fmt.scanNumber.
  rewrite (takeDigits_app ds rest (isDigits_forallb ds Hds) Hrest).
  destruct ds as [|c ds]; [discriminate|].
  change ((c :: ds) ++ rest) with (c :: (ds ++ rest)).
  change (c :: (ds ++ rest)) with ((c :: ds) ++ rest) at 2.
  now rewrite drop_app_length.
Qed.

(** The scan of an unsigned number that starts the input. *)
Lemma scanUint_digits (ds rest : gostring) :
  isDigits ds = true -> startsDigit rest = false ->
  decimal ds <= strconv.maxUint64 ->
  fmt.scanUint (ds ++ rest) = inr (decimal ds, rest).
Proof.
  intros Hds Hrest Hmax. unfold fmt.scanUint.
  rewrite SkipSpace_digit by now apply startsDigit_app, startsDigit_digits.
  rewrite (scanNumber_digits ds rest Hds Hrest).
  rewrite (ParseUint_digits64 ds 64 Hds (or_intror eq_refl)).
  destruct (Z.leb_spec (decimal ds) strconv.maxUint64); [|lia].
  destruct ds; [discriminate|reflexivity].
Qed.

(** The scan of an int that starts the input, without sign. *)
Lemma scanInt_digits (ds rest : gostring) :
  isDigits ds = true -> startsDigit rest = false ->
  decimal ds <= 2 ^ 63 - 1 ->
  fmt.scanInt (ds ++ rest) = inr (decimal ds, rest).
Proof.
  intros Hds Hrest Hmax. unfold fmt.scanInt.
  rewrite SkipSpace_digit by now apply startsDigit_app, startsDigit_digits.
  pose proof (isDigits_forallb ds Hds) as Hall.
  pose proof (decimal_nonneg ds Hall) as Hpos.
  pose proof (scanNumber_digits ds rest Hds Hrest) as Hnum.
  pose proof (ParseUint_digits64 ds 64 Hds (or_intror eq_refl)) as Hparse.
  destruct ds as [|c l]; [discriminate|].
  assert (Hc : strconv.isDigit c = true) by now apply andb_prop in Hall as [? _].
  assert (Hminus : Ascii.eqb c "-" = false).
  { destruct (Ascii.eqb_spec c "-") as [->|]; [discriminate|done]. }
  assert (Hplus : Ascii.eqb c "+" = false).
  { destruct (Ascii.eqb_spec c "+") as [->|]; [discriminate|done]. }
  change ((c :: l) ++ rest) with (c :: (l ++ rest)) in *.
  cbv beta iota zeta. rewrite Hplus, Hminus. cbn [orb]. rewrite Hnum.
  unfold fmt.parseInt. cbv beta iota zeta.
  rewrite Hplus, Hminus. cbn [orb negb andb]. rewrite Hparse.
  change strconv.maxUint64 with 18446744073709551615.
  change (Z.shiftl 1 63) with 9223372036854775808.
  change (2 ^ 63) with 9223372036854775808 in Hmax.
  destruct (Z.leb_spec (decimal (c :: l)) 18446744073709551615); [|lia].
  destruct (Z.geb_spec (decimal (c :: l)) 9223372036854775808); [lia|].
  unfold strconv.i64. rewrite Z.mod_small by lia.
  f_equal. f_equal. lia.
Qed.

(** What Sscanf with %d into a uint64 returns is a uint64. *)
Lemma Sscanf_d_uint64_range (input : gostring) (v : Z) :
  fmt.Sscanf_d_uint64 input = inr v -> 0 <= v < 2 ^ 64.
Proof.
  unfold fmt.Sscanf_d_uint64, fmt.scanUint.
  repeat case_match; intros ?; simplify_eq.
  match goal with
  | H : strconv.ParseUint _ _ _ = (_, None) |- _ => exact (ParseUint_range _ _ _ _ H)
  end.
Qed.

(** A sign is no start of an unsigned number. *)
Lemma Sscanf_d_uint64_signed (c : ascii) (rest : gostring) :
  c = "-"%char \/ c = "+"%char ->
  fmt.Sscanf_d_uint64 (c :: rest) = inl fmt.ExpectedInteger.
Proof.
  intros [-> | ->]; unfold fmt.Sscanf_d_uint64, fmt.scanUint; cbn [fmt.SkipSpace].
  all: change (Ascii.eqb _ LF) with false; cbn [strings.asciiSpace].
  all: destruct rest as [|b [|d rest]]; reflexivity.
Qed.

(** ** Network statistics *)

(** X19: when the statistics file starts with a run of decimal digits
    whose value fits 64 bits (followed by a newline, as the kernel
    writes it, or by anything that is no digit), GetNetworkStatValue
    returns that value. *)
Theorem X19_GetNetworkStatValue_value (sys : OS) (fs : relocatableSysFs)
        (dev stat ds rest : gostring) :
  ReadFile sys (filepath.Join [root fs; netDir; dev; str "/statistics"; stat])
  = Ok (ds ++ rest) ->
  isDigits ds = true -> startsDigit rest = false ->
  decimal ds <= strconv.maxUint64 ->
  GetNetworkStatValue sys fs dev stat = inr (decimal ds).
Proof.
  intros Hread Hds Hrest Hmax. unfold GetNetworkStatValue. rewrite Hread.
  unfold fmt.Sscanf_d_uint64. now rewrite scanUint_digits.
Qed.

Lemma X19_GetNetworkStatValue_value_witness :
  GetNetworkStatValue (memOS hostTree) (NewRelocatableSysFs (str "/host"))
                      (str "eth0") (str "rx_bytes") = inr 123456.
Proof.
  apply (X19_GetNetworkStatValue_value
           (memOS hostTree) (NewRelocatableSysFs (str "/host"))
           (str "eth0") (str "rx_bytes") (str "123456") [LF]);
    vm_compute; first [reflexivity | discriminate].
Defined.

(** X20: GetNetworkStatValue never returns a value outside uint64; a
    file that starts with a sign, such as -1, is answered with the
    could-not-parse error, and a file that cannot be read with the
    failed-to-read error, the cause dropped. *)
Theorem X20_GetNetworkStatValue_errors (sys : OS) (fs : relocatableSysFs)
        (dev stat : gostring) :
  let statPath := filepath.Join [root fs; netDir; dev; str "/statistics"; stat] in
  (forall v, GetNetworkStatValue sys fs dev stat = inr v -> 0 <= v < 2 ^ 64)
  /\ (forall c rest, ReadFile sys statPath = Ok (c :: rest) ->
                     c = "-"%char \/ c = "+"%char ->
                     GetNetworkStatValue sys fs dev stat
                     = inl (ErrParseStat (c :: rest) statPath))
  /\ (forall e, ReadFile sys statPath = Err e ->
                GetNetworkStatValue sys fs dev stat = inl (ErrReadStat statPath dev)).
Proof.
  cbn zeta. unfold GetNetworkStatValue. split; [|split].
  - intros v. destruct (ReadFile sys _) as [out|]; [|done].
    destruct (fmt.Sscanf_d_uint64 out) as [|s] eqn:Hs; [done|].
    intros [= <-]. exact (Sscanf_d_uint64_range out s Hs).
  - intros c rest -> Hsign. now rewrite Sscanf_d_uint64_signed.
  - now intros e ->.
Qed.

Lemma X20_GetNetworkStatValue_errors_witness :
  GetNetworkStatValue (memOS hostTree) (NewRelocatableSysFs (str "/host"))
                      (str "eth0") (str "rx_errors")
  = inl (ErrParseStat (str "-1" ++ [LF])
                      (str "/host/sys/class/net/eth0/statistics/rx_errors")).
Proof.
  refine (proj1 (proj2 (X20_GetNetworkStatValue_errors
                          (memOS hostTree) (NewRelocatableSysFs (str "/host"))
                          (str "eth0") (str "rx_errors")))
                "-"%char (str "1" ++ [LF]) _ _).
  - vm_compute. reflexivity.
  - now left.
Defined.

(** ** Cache descriptors *)

Lemma Sscanf_dK_digits (ds rest : gostring) :
  isDigits ds = true -> decimal ds <= strconv.maxUint64 ->
  fmt.Sscanf_dK (ds ++ str "K" ++ rest) = inr (decimal ds).
Proof.
  intros Hds Hmax. unfold fmt.Sscanf_dK.
  now rewrite (scanUint_digits ds (str "K" ++ rest) Hds eq_refl Hmax).
Qed.

(** X21: when the size file of a cache directory starts with a decimal
    number followed by K, the level file with a decimal number, and the
    type file and shared_cpu_map can be read and counted, GetCacheInfo
    returns the size scaled from kibibytes to bytes in 64-bit unsigned
    arithmetic (the product wraps for sizes of 2^54 K and more), the
    level, the type with its white space trimmed and the CPU count. *)
Theorem X21_GetCacheInfo_scaled (sys : OS) (fs : relocatableSysFs) (id : Z)
        (name ds rest ls rest' cacheType : gostring) (cpus : Z) :
  let cachePath := filepath.Join [root fs; cachesDir id ++ str "/" ++ name] in
  ReadFile sys (filepath.Join [cachePath; str "/size"]) = Ok (ds ++ str "K" ++ rest) ->
  isDigits ds = true -> decimal ds <= strconv.maxUint64 ->
  ReadFile sys (filepath.Join [cachePath; str "/level"]) = Ok (ls ++ rest') ->
  isDigits ls = true -> startsDigit rest' = false -> decimal ls <= 2 ^ 63 - 1 ->
  ReadFile sys (filepath.Join [cachePath; str "/type"]) = Ok cacheType ->
  getCPUCount sys cachePath = Ok cpus ->
  GetCacheInfo sys fs id name
  = inr {| Size := (decimal ds * 1024) mod 2 ^ 64;
           Level := decimal ls;
           CacheType := strings.TrimSpace cacheType;
           Cpus := cpus |}.
Proof.
  cbn zeta. intros Hsize Hds Hmax Hlevel Hls Hrest' Hlmax Htype Hcount.
  unfold GetCacheInfo. rewrite Hsize, (Sscanf_dK_digits ds rest Hds Hmax), Hlevel.
  unfold fmt.Sscanf_d_int. rewrite (scanInt_digits ls rest' Hls Hrest' Hlmax).
  now rewrite Htype, Hcount.
Qed.

Lemma X21_GetCacheInfo_scaled_witness :
  GetCacheInfo (memOS hostTree) (NewRelocatableSysFs (str "/host")) 0 (str "index0")
  = inr {| Size := 262144; Level := 2; CacheType := str "Unified"; Cpus := 2 |}.
Proof.
  apply (X21_GetCacheInfo_scaled
           (memOS hostTree) (NewRelocatableSysFs (str "/host")) 0 (str "index0")
           (str "256") [LF] (str "2") [LF] (str "Unified" ++ [LF]) 2);
    vm_compute; first [reflexivity | discriminate].
Defined.

(** X22: a size file whose number is not followed by K (a bare number,
    or another unit) makes GetCacheInfo fail with the scan error,
    unexpected EOF when the input ends after the number and
    input-does-not-match-format otherwise; no size is assumed and the
    other files are not read. *)
Theorem X22_GetCacheInfo_size_without_K (sys : OS) (fs : relocatableSysFs) (id : Z)
        (name ds rest : gostring) :
  let cachePath := filepath.Join [root fs; cachesDir id ++ str "/" ++ name] in
  ReadFile sys (filepath.Join [cachePath; str "/size"]) = Ok (ds ++ rest) ->
  isDigits ds = true -> decimal ds <= strconv.maxUint64 ->
  startsDigit rest = false ->
  match rest with c :: _ => Ascii.eqb c "K" | [] => false end = false ->
  GetCacheInfo sys fs id name
  = inl (ScanError (match rest with [] => fmt.UnexpectedEOF | _ => fmt.Mismatch end)).
Proof.
  cbn zeta. intros Hsize Hds Hmax Hrest HK.
  unfold GetCacheInfo. rewrite Hsize. unfold fmt.Sscanf_dK.
  rewrite (scanUint_digits ds rest Hds Hrest Hmax).
  destruct rest as [|c rest]; [reflexivity|]. now rewrite HK.
Qed.

Lemma X22_GetCacheInfo_size_without_K_witness :
  GetCacheInfo (memOS hostTree) (NewRelocatableSysFs (str "/host")) 0 (str "index1")
  = inl (ScanError fmt.Mismatch).
Proof.
  apply (X22_GetCacheInfo_size_without_K
           (memOS hostTree) (NewRelocatableSysFs (str "/host")) 0 (str "index1")
           (str "32768") [LF]);
    vm_compute; first [reflexivity | discriminate].
Defined.

(** ** The cache directory of a CPU and its id *)

Lemma decimalFrom_snoc (n : Z) (ds : gostring) (c : ascii) :
  decimalFrom n (ds ++ [c]) = 10 * decimalFrom n ds + (code c - 48).
Proof. unfold decimalFrom. now rewrite fold_left_app. Qed.

Lemma code_digit (d : Z) :
  0 <= d <= 9 -> code (ascii_of_N (Z.to_N (48 + d))) = 48 + d.
Proof.
  intros Hd. unfold code. rewrite N_ascii_embedding; lia.
Qed.

(** The formatting loop writes the decimal digits of u in front of the
    buffer. *)
Lemma fmtUint_spec (turns : nat) (u : Z) (buf : gostring) :
  0 <= u < 10 ^ Z.of_nat (S turns) ->
  exists ds, fmt.fmtUint (S turns) u buf = ds ++ buf
             /\ isDigits ds = true /\ decimal ds = u.
Proof.
  revert u buf. induction turns as [|turns IH]; intros u buf Hu;
    cbn [fmt.fmtUint]; destruct (Z.geb_spec u 10) as [Hbig|Hsmall].
  - change (10 ^ Z.of_nat 1) with 10 in Hu. lia.
  - exists [ascii_of_N (Z.to_N (48 + u))]. split; [reflexivity|]. split.
    + unfold isDigits. cbn [forallb]. rewrite andb_true_r.
      apply isDigit_code. rewrite code_digit; lia.
    + unfold decimal, decimalFrom. cbn [fold_left]. rewrite code_digit; lia.
  - rewrite Nat2Z.inj_succ, Z.pow_succ_r in Hu by lia.
    assert (Hq : 0 <= u / 10 < 10 ^ Z.of_nat (S turns)).
    { split; [apply Z.div_pos; lia|apply Z.div_lt_upper_bound; lia]. }
    destruct (IH (u / 10) (ascii_of_N (Z.to_N (48 + u - u / 10 * 10)) :: buf) Hq)
      as (ds & Heq & Hds & Hval).
    exists (ds ++ [ascii_of_N (Z.to_N (48 + u - u / 10 * 10))]).
    assert (Hd : 0 <= u - u / 10 * 10 <= 9).
    { pose proof (Z.mod_pos_bound u 10 ltac:(lia)).
      pose proof (Z.div_mod u 10 ltac:(lia)). lia. }
    split; [now rewrite <- app_assoc|].
    replace (48 + u - u / 10 * 10) with (48 + (u - u / 10 * 10)) by lia.
    split.
    + unfold isDigits in *. apply andb_prop in Hds as [Hne Hall].
      apply andb_true_intro. split; [now destruct ds|].
      rewrite forallb_app, Hall. cbn [forallb]. rewrite andb_true_r.
      apply isDigit_code. rewrite code_digit; lia.
    + unfold decimal in *. rewrite decimalFrom_snoc, Hval, code_digit by lia. lia.
  - exists [ascii_of_N (Z.to_N (48 + u))]. split; [reflexivity|]. split.
    + unfold isDigits. cbn [forallb]. rewrite andb_true_r.
      apply isDigit_code. rewrite code_digit; lia.
    + unfold decimal, decimalFrom. cbn [fold_left]. rewrite code_digit; lia.
Qed.

Lemma itoa_spec (n : Z) :
  0 <= n <= 2 ^ 63 - 1 -> isDigits (fmt.itoa n) = true /\ decimal (fmt.itoa n) = n.
Proof.
  intros Hn. unfold fmt.itoa. destruct (Z.ltb_spec n 0); [lia|].
  destruct (fmtUint_spec 19 n []) as (ds & -> & Hds & Hval).
  - change (2 ^ 63) with 9223372036854775808 in Hn.
    change (10 ^ Z.of_nat 20) with 100000000000000000000. lia.
  - now rewrite app_nil_r.
Qed.

(** X23: the directory GetCaches and GetCacheInfo use for the CPU with
    number id, /sys/devices/system/cpu/cpu<id>/cache, is read back by
    getCPUID as id modulo 65536, for every id from 0 to 2^63 - 1: the
    number written with %d is the number the expression finds. *)
Theorem X23_getCPUID_of_cachesDir (id : Z) :
  0 <= id <= 2 ^ 63 - 1 ->
  getCPUID (cachesDir id) = Ok (id mod 65536).
Proof.
  intros Hid. destruct (itoa_spec id Hid) as [Hds Hval].
  pose proof (getCPUID_spec (str "/sys/devices/system/cpu/") (fmt.itoa id)
                            (str "/cache") eq_refl Hds eq_refl) as H.
  rewrite Hval in H. exact (H (proj2 Hid)).
Qed.

Lemma X23_getCPUID_of_cachesDir_witness : getCPUID (cachesDir 70000) = Ok 4464.
Proof.
  apply (X23_getCPUID_of_cachesDir 70000). split; vm_compute; discriminate.
Defined.

(** ** Bare tokens of the online list *)

(** X24: let the tokens before a bare token (one without dash) be
    well-formed and none of them have i.  When the bare token is no
    decimal 16-bit integer - it is empty, as after a trailing or
    doubled comma, carries white space, as after ", ", has a sign or
    exceeds 65535 - isCPUOnline fails with the error of
    strconv.ParseUint on that token. *)
Theorem X24_isCPUOnline_bad_bare_token (sys : OS) (path content : gostring) (i : Z)
        (good : list token) (bad : gostring) (rest : list gostring) :
  ReadFile sys path = Ok content -> content <> [] ->
  strings.Split (strings.TrimSpace content) "," = map renderToken good ++ bad :: rest ->
  forallb wfToken good = true -> existsb (tokenHas i) good = false ->
  0 <= i < 65536 ->
  "-"%char ∉ bad -> isUint16 bad = false ->
  exists k, isCPUOnline sys path i = Err (NumError (str "ParseUint") bad k).
Proof.
  intros Hread Hne Hsplit Hwf Hnone Hi Hdash Hbad.
  unfold isCPUOnline. rewrite Hread. cbn [bind].
  destruct content as [|c content]; [done|]. cbn [length Nat.eqb].
  rewrite Hsplit, onlineLoop_wf_app by done. rewrite Hnone.
  cbn [onlineLoop strings.SplitN]. rewrite (Cut_no_sep bad "-" Hdash). cbn [length].
  destruct (ParseUint16_err bad Hbad) as (v & k & ->). eauto.
Qed.

Lemma X24_isCPUOnline_bad_bare_token_witness :
  exists k, isCPUOnline (memOS (onlineTree (str "0, 1" ++ [LF]))) onlineFile 1
            = Err (NumError (str "ParseUint") (str " 1") k).
Proof.
  apply (X24_isCPUOnline_bad_bare_token
           (memOS (onlineTree (str "0, 1" ++ [LF]))) onlineFile (str "0, 1" ++ [LF]) 1
           [Single (str "0")] (str " 1") []); try (vm_compute; reflexivity).
  - discriminate.
  - lia.
  - intros Hin.
    repeat (apply elem_of_cons in Hin as [Hin|Hin]; [discriminate Hin|]).
    now apply elem_of_nil in Hin.
Defined.

(** ** The listing readers under a relocated root *)

Lemma plainElem_cpu (ds : gostring) :
  forallb strconv.isDigit ds = true -> plainElem (str "cpu" ++ ds) = true.
Proof.
  intros Hds. unfold plainElem.
  change (str "cpu" ++ ds) with ("c"%char :: "p"%char :: "u"%char :: ds).
  apply andb_true_intro. split; [reflexivity|].
  cbn [forallb Ascii.eqb Bool.eqb negb andb].
  rewrite forallb_forall in *. intros c Hc. specialize (Hds c Hc).
  destruct (Ascii.eqb_spec c "/") as [->|]; [discriminate|done].
Qed.

Lemma cachesDir_elems (id : Z) :
  0 <= id <= 2 ^ 63 - 1 ->
  plainPath (cachesDir id) = true
  /\ pathElems (cachesDir id)
     = [str "sys"; str "devices"; str "system"; str "cpu"; str "cpu" ++ fmt.itoa id;
        str "cache"].
Proof.
  intros Hid. destruct (itoa_spec id Hid) as [Hds _].
  pose proof (plainElem_cpu (fmt.itoa id) (isDigits_forallb _ Hds)) as Hplain.
  assert (Hsplit : strings.Split (cachesDir id) "/"
                   = [[]; str "sys"; str "devices"; str "system"; str "cpu";
                      str "cpu" ++ fmt.itoa id; str "cache"]).
  { unfold cachesDir, cacheDir.
    change (str "/sys/devices/system/cpu/cpu" ++ fmt.itoa id ++ str "/cache")
      with (str "/sys/devices/system/cpu"
                ++ "/"%char :: (str "cpu" ++ fmt.itoa id) ++ "/"%char :: str "cache").
    rewrite !Split_app_sep, (Split_plainElem _ Hplain). reflexivity. }
  unfold plainPath, pathElems. rewrite Hsplit. split.
  - cbn [forallb]. rewrite Hplain. reflexivity.
  - cbn [List.filter]. rewrite (plainElem_nonempty _ Hplain). reflexivity.
Qed.

(** X25: with a root that is empty or an absolute path of plain
    elements, and a directory given as an absolute path of plain
    elements (no dot or dot-dot element), the listing readers list or
    glob under the root: GetBlockDevices <root>/sys/block,
    GetHugePagesInfo <root><dir>, GetCaches
    <root>/sys/devices/system/cpu/cpu<id>/cache (id from 0 to
    2^63 - 1), GetNodesPaths the pattern
    <root>/sys/devices/system/node/node*[0-9] and GetCPUsPaths the
    pattern <root><dir>/cpu*[0-9]. *)
Theorem X25_listing_readers_relocated (sys : OS) (fs : relocatableSysFs)
        (elems : list gostring) (dir : gostring) (id : Z) :
  root fs = [] /\ elems = [] \/ root fs = absPath elems /\ forallb plainElem elems = true ->
  filepath.IsAbs dir = true -> plainPath dir = true -> 0 <= id <= 2 ^ 63 - 1 ->
  GetBlockDevices sys fs = ReadDir sys (absPath (elems ++ [str "sys"; str "block"]))
  /\ GetHugePagesInfo sys fs dir = ReadDir sys (absPath (elems ++ pathElems dir))
  /\ GetCaches sys fs id
     = ReadDir sys (absPath (elems ++ [str "sys"; str "devices"; str "system"; str "cpu";
                                       str "cpu" ++ fmt.itoa id; str "cache"]))
  /\ GetNodesPaths sys fs
     = Glob sys (absPath (elems ++ [str "sys"; str "devices"; str "system"; str "node";
                                    str "node*[0-9]"]))
  /\ GetCPUsPaths sys fs dir
     = Glob sys (absPath (elems ++ pathElems dir ++ [str "cpu*[0-9]"])).
Proof.
  intros Hroot Habs Hdir Hid.
  destruct (cachesDir_elems id Hid) as [Hcplain Hcelems].
  unfold GetBlockDevices, GetHugePagesInfo, GetCaches, GetNodesPaths, GetCPUsPaths.
  cbn zeta. repeat split; f_equal;
    (rewrite (Join_relocated _ _ _ elems Hroot);
     [cbn [map concat]; rewrite ?Hcelems, ?app_nil_r; reflexivity
     |first [exact Habs | reflexivity]
     |cbn [forallb]; rewrite ?Hdir, ?Hcplain; reflexivity]).
Qed.

Lemma X25_listing_readers_relocated_witness :
  map Name <$> (match GetCaches (memOS hostTree) (NewRelocatableSysFs (str "/host")) 0 with
                | Ok files => Some files
                | Err _ => None
                end)
  = Some [str "index0"; str "index1"].
Proof.
  destruct (X25_listing_readers_relocated
              (memOS hostTree) (NewRelocatableSysFs (str "/host")) [str "host"]
              (str "/sys/devices/system/cpu") 0)
    as (_ & _ & Hcaches & _);
    [right; split; vm_compute; reflexivity|vm_compute; reflexivity
     |vm_compute; reflexivity|split; vm_compute; discriminate|].
  rewrite Hcaches. vm_compute. reflexivity.
Defined.
